(** * Flowe store API: cache, synchronisation and template projection

    A shallow embedding of the extension's store module (the
    Supabase-backed [store-api]): the local collection cache with its
    request queue, the sync controller ([refetchCollections],
    [autosync]), the identity resolver ([getSignedInUser], [logout]),
    the template projection ([getTemplates], [searchTemplates]) and the
    usage statistics ([updateTemplateStats]).

    Layout:
    - [Js]      the fragment of JavaScript values the module computes with
                (numbers with NaN, dates, insertion-ordered objects,
                [Array.prototype.sort], [String.prototype.split]);
    - [Data]    the records stored and exchanged (rows, collections,
                templates, tags, extension data);
    - [Pure]    the synchronous callbacks of the module;
    - [Async]   asynchronous functions as interaction programs, and the
                event loop that runs them;
    - [Api]     the functions of the module, in source order;
    - the properties, one section per function group. *)

From Stdlib Require Import List String Ascii ZArith Bool Lia Sorted Permutation.
Import ListNotations.
Open Scope string_scope.
Open Scope Z_scope.

Set Implicit Arguments.

(* ================================================================== *)
(** ** JavaScript values *)

Module Js.

(** A JavaScript number, restricted to what the module computes with:
    integral values (millisecond timestamps, word counts, timeouts),
    the two infinities and NaN.  [Num z] stands for the double of value
    [z]; every integer up to 2^53 in magnitude is one. *)
Inductive Number : Type :=
| NaN
| NegInf
| Num (z : Z)
| PosInf.

(** A scalar read from persisted JSON-like data. *)
Inductive Scalar : Type :=
| Undefined
| Null
| Val (n : Number).

(** [ToNumber]: [undefined] is NaN, [null] is +0. *)
Definition ToNumber (v : Scalar) : Number :=
  match v with
  | Undefined => NaN
  | Null => Num 0
  | Val n => n
  end.

(** [Number.MAX_SAFE_INTEGER], 2^53 - 1. *)
Definition MAX_SAFE_INTEGER : Z := 9007199254740991.

(** [Number.isSafeInteger] on an integral value. *)
Definition isSafeInteger (z : Z) : bool := Z.abs z <=? MAX_SAFE_INTEGER.

(** The double nearest to an integer, ties to the even significand.
    Up to 2^53 in magnitude the integer is a double.  Above, with
    [2^e <= |z| < 2^(e+1)], the doubles are the multiples of
    [2^(e-52)]; a result of magnitude 2^1024 overflows to an infinity. *)
Definition roundInteger (z : Z) : Number :=
  let m := Z.abs z in
  if m <=? 2 ^ 53 then Num z
  else
    let ulp := 2 ^ (Z.log2 m - 52) in
    let q := m / ulp in
    let r := m mod ulp in
    let q' := if 2 * r <? ulp then q
              else if ulp <? 2 * r then q + 1
              else if Z.even q then q else q + 1 in
    if 2 ^ 1024 <=? q' * ulp
    then (if z <? 0 then NegInf else PosInf)
    else Num (Z.sgn z * (q' * ulp)).

(** [x + y] on numbers: the exact sum, rounded to a double. *)
Definition add (x y : Number) : Number :=
  match x, y with
  | NaN, _ | _, NaN => NaN
  | PosInf, NegInf | NegInf, PosInf => NaN
  | PosInf, _ | _, PosInf => PosInf
  | NegInf, _ | _, NegInf => NegInf
  | Num a, Num b => roundInteger (a + b)
  end.

(** [x - y] on numbers: the exact difference, rounded to a double. *)
Definition sub (x y : Number) : Number :=
  match x, y with
  | NaN, _ | _, NaN => NaN
  | PosInf, PosInf | NegInf, NegInf => NaN
  | PosInf, _ | _, NegInf => PosInf
  | NegInf, _ | _, PosInf => NegInf
  | Num a, Num b => roundInteger (a - b)
  end.

(** [x > y]: false as soon as one side is NaN. *)
Definition gt (x y : Number) : bool :=
  match x, y with
  | NaN, _ | _, NaN => false
  | PosInf, PosInf => false
  | PosInf, _ => true
  | _, PosInf => false
  | NegInf, _ => false
  | Num _, NegInf => true
  | Num a, Num b => b <? a
  end.

(** The time value of a [Date] object: milliseconds since the epoch, or
    NaN for an Invalid Date. *)
Definition Date := Number.

Definition maxTime : Z := 8640000000000000.

(** [TimeClip]: time values outside +-8.64e15 ms are invalid. *)
Definition TimeClip (n : Number) : Date :=
  match n with
  | Num z => if (Z.abs z <=? maxTime) then Num z else NaN
  | _ => NaN
  end.

(** [new Date(v)] for a scalar [v]:
    [new Date(undefined)] is an Invalid Date, [new Date(null)] is the
    epoch, [new Date(n)] is [TimeClip n]. *)
Definition new_Date (v : Scalar) : Date :=
  match v with
  | Undefined => NaN
  | Null => Num 0
  | Val n => TimeClip n
  end.

(** [Date.parse] on the date-time format of [toISOString],
    [YYYY-MM-DDTHH:mm:ss.sssZ], which every implementation reads alike:
    the milliseconds from the epoch to that instant of UTC, or NaN
    when a field is not a number or is out of its range. *)
Definition digit (c : ascii) : option Z :=
  let n := Z.of_nat (nat_of_ascii c) in
  if (48 <=? n) && (n <=? 57) then Some (n - 48) else None.

Fixpoint decimalNumber (acc : Z) (cs : list ascii) : option Z :=
  match cs with
  | [] => Some acc
  | c :: cs' =>
      match digit c with
      | Some d => decimalNumber (10 * acc + d) cs'
      | None => None
      end
  end.

Definition field (cs : list ascii) (k : Z -> Number) : Number :=
  match decimalNumber 0 cs with
  | Some n => k n
  | None => NaN
  end.

Definition DaysInMonth (year month : Z) : Z :=
  if month =? 2
  then (if (year mod 4 =? 0) && (negb (year mod 100 =? 0) || (year mod 400 =? 0))
        then 29 else 28)
  else if (month =? 4) || (month =? 6) || (month =? 9) || (month =? 11)
       then 30 else 31.

(** The day number of a date of the proleptic Gregorian calendar, day 0
    being 1 January 1970; [month] counts from 1. *)
Definition MakeDay (year month date : Z) : Z :=
  let y := if month <=? 2 then year - 1 else year in
  let era := y / 400 in
  let yearOfEra := y - era * 400 in
  let dayOfYear := (153 * ((month + 9) mod 12) + 2) / 5 + date - 1 in
  let dayOfEra := yearOfEra * 365 + yearOfEra / 4 - yearOfEra / 100 + dayOfYear in
  era * 146097 + dayOfEra - 719468.

Definition msPerDay : Z := 86400000.

Definition parseISO (s : string) : Number :=
  match list_ascii_of_string s with
  | [y1; y2; y3; y4; dash1; m1; m2; dash2; d1; d2; t;
     h1; h2; colon1; i1; i2; colon2; s1; s2; dot; f1; f2; f3; z] =>
      if Ascii.eqb dash1 "-" && Ascii.eqb dash2 "-" && Ascii.eqb t "T"
         && Ascii.eqb colon1 ":" && Ascii.eqb colon2 ":" && Ascii.eqb dot "."
         && Ascii.eqb z "Z"
      then
        field [y1; y2; y3; y4] (fun year =>
        field [m1; m2] (fun month =>
        field [d1; d2] (fun date =>
        field [h1; h2] (fun hours =>
        field [i1; i2] (fun minutes =>
        field [s1; s2] (fun seconds =>
        field [f1; f2; f3] (fun ms =>
          if (1 <=? month) && (month <=? 12)
             && (1 <=? date) && (date <=? DaysInMonth year month)
             && (hours <? 24) && (minutes <? 60) && (seconds <? 60)
          then Num (MakeDay year month date * msPerDay
                    + hours * 3600000 + minutes * 60000 + seconds * 1000 + ms)
          else NaN)))))))
      else NaN
  | _ => NaN
  end.

(** A JavaScript object used as a map from string keys to values.
    Own string keys are enumerated in insertion order, so the object is
    an association list.  (Keys that are canonical array indices are
    enumerated first in numeric order; record ids are UUIDs, and the
    general properties below do not depend on the enumeration order:
    they speak of the elements of a list, or of its order after the
    sort.) *)
Definition Obj (V : Type) := list (string * V).

Section Objects.
Variable V : Type.

(** [o[k]] *)
Fixpoint get (k : string) (o : Obj V) : option V :=
  match o with
  | [] => None
  | (k', v) :: o' => if String.eqb k k' then Some v else get k o'
  end.

(** [o[k] = v]: an existing key keeps its position, a new key is
    appended. *)
Fixpoint set (k : string) (v : V) (o : Obj V) : Obj V :=
  match o with
  | [] => [(k, v)]
  | (k', v') :: o' =>
      if String.eqb k k' then (k', v) :: o' else (k', v') :: set k v o'
  end.

(** [Object.keys(o)] *)
Definition keys (o : Obj V) : list string := map fst o.

(** Copying the own properties of one source into the target: for
    each own key of the source, in order, [target[key] = source[key]]. *)
Definition assign1 (target source : Obj V) : Obj V :=
  fold_left (fun t k => match get k source with
                        | Some v => set k v t
                        | None => t
                        end)
            (keys source) target.

(** [Object.assign(target, ...sources)] *)
Definition assign (target : Obj V) (sources : list (Obj V)) : Obj V :=
  fold_left assign1 sources target.
End Objects.

Section Sort.
Variable A : Type.
Variable comparefn : A -> A -> Number.

(** [SortCompare]: [x] goes after [y] when the comparator's result is
    positive; a NaN result counts as +0. *)
Definition after (x y : A) : bool := gt (comparefn x y) (Num 0).

Fixpoint insert (x : A) (l : list A) : list A :=
  match l with
  | [] => [x]
  | y :: l' => if after x y then y :: insert x l' else x :: l
  end.

(** [Array.prototype.sort(comparefn)]: a stable sort.  For a
    consistent comparator every stable sort returns this list.  For an
    inconsistent one (a comparator that is NaN on some pairs and not on
    others) the order is implementation-defined, and only the elements
    of the result are determined: the properties below that speak of
    the order assume a consistent comparator, and the others hold of
    every permutation. *)
Fixpoint sort (l : list A) : list A :=
  match l with
  | [] => []
  | x :: l' => insert x (sort l')
  end.
End Sort.

(** [Array.prototype.slice(0, n)] *)
Definition slice0 (A : Type) (n : nat) (l : list A) : list A := firstn n l.

(** [haystack.includes(needle)] *)
Definition includes (needle haystack : string) : bool :=
  match String.index 0 needle haystack with
  | Some _ => true
  | None => false
  end.

(** [s.split(c)] for a one-character separator [c]: the pieces between
    the occurrences of [c]; never empty. *)
Fixpoint split (c : ascii) (s : string) : list string :=
  match s with
  | EmptyString => [EmptyString]
  | String a s' =>
      if Ascii.eqb a c then EmptyString :: split c s'
      else match split c s' with
           | [] => [String a EmptyString]
           | piece :: rest => String a piece :: rest
           end
  end.

(** The number of occurrences of a character. *)
Fixpoint occurrences (c : ascii) (s : string) : nat :=
  match s with
  | EmptyString => 0
  | String a s' => (if Ascii.eqb a c then 1 else 0) + occurrences c s'
  end.

(** Values thrown by the module: either a plain string (the module
    throws string constants) or an error object, identified by its
    message. *)
Inductive Error : Type :=
| ErrString (s : string)
| ErrObject (message : string).

Definition TypeError : Error := ErrObject "TypeError".

End Js.

(* ================================================================== *)
(** ** Data model *)

(** The collection names of [allCollections]; [getCollectionQuery]
    knows a query for exactly these. *)
Inductive CollectionName : Type :=
| users
| customers
| tags
| templatesOwned
| templatesShared
| templatesEveryone.

Definition allCollections : list CollectionName :=
  [users; customers; tags; templatesOwned; templatesShared; templatesEveryone].

(** The storage key (and event-name stem) of a collection. *)
Definition collectionKey (c : CollectionName) : string :=
  match c with
  | users => "users"
  | customers => "customers"
  | tags => "tags"
  | templatesOwned => "templatesOwned"
  | templatesShared => "templatesShared"
  | templatesEveryone => "templatesEveryone"
  end.

Definition CollectionName_eqb (a b : CollectionName) : bool :=
  match a, b with
  | users, users | customers, customers | tags, tags
  | templatesOwned, templatesOwned | templatesShared, templatesShared
  | templatesEveryone, templatesEveryone => true
  | _, _ => false
  end.

(** A row of the remote store.  One record covers the four tables; a
    field a table does not have is absent ([None], or the empty list).
    Only the fields the module reads are kept, plus [title] and [owner]
    as payload. *)
Record Row : Type := {
  row_id : string;
  row_owner : option string;
  row_title : option string;
  (* templates *)
  row_body : option string;
  row_tags : list string;
  row_created_datetime : option string;
  row_modified_datetime : option string;
  row_deleted_datetime : option string;
  (* users: [customers], the memberships *)
  row_customers : option (list string);
  (* customers: [subscription?.plan] *)
  row_plan : option string
}.

(** A collection: the mapping from record id to record. *)
Definition Collection := Js.Obj Row.

(** The result of a remote query: [{ data, error }]. *)
Record Response : Type := {
  data : option (list Row);
  error : option Js.Error
}.

(** [{ id, customer }]: the signed-in user handed to the queries. *)
Record User : Type := {
  user_id : string;
  user_customer : option string
}.

(** The persisted auth session; [session_user] is the user the auth
    client signs in when the session is restored ([None] when the
    token is no longer accepted). *)
Record Session : Type := {
  access_token : option string;
  session_user : option string
}.

(** Modelled from the spec: the ExtensionData record of
    [extension-data.js], which is not among the sources.  It holds the
    cumulative usage statistics [words], the [lastSync] timestamp and
    the per-template last-used timestamps.  A timestamp written with
    [toISOString] is kept as its millisecond value. *)
Record ExtensionData : Type := {
  words : Js.Scalar;
  lastSync : Js.Scalar;
  templatesLastUsed : option (Js.Obj Z)
}.

(** The argument of [setExtensionData]: the fields to overwrite. *)
Record ExtensionPatch : Type := {
  set_words : option Js.Scalar;
  set_lastSync : option Js.Scalar;
  set_templatesLastUsed : option (Js.Obj Z)
}.

Definition noExtensionData : ExtensionData :=
  {| words := Js.Undefined; lastSync := Js.Undefined; templatesLastUsed := None |}.

Definition patchExtensionData (p : ExtensionPatch) (d : ExtensionData) : ExtensionData :=
  {| words := match set_words p with Some v => v | None => words d end;
     lastSync := match set_lastSync p with Some v => v | None => lastSync d end;
     templatesLastUsed :=
       match set_templatesLastUsed p with
       | Some v => Some v
       | None => templatesLastUsed d
       end |}.

(** A row after [convertToNativeDates]: the three date properties are
    [Date] objects when the row had a string there, and are left as
    they were ([None]) otherwise. *)
Record NativeDates : Type := {
  row : Row;
  created_datetime : option Js.Date;
  modified_datetime : option Js.Date;
  deleted_datetime : option Js.Date
}.

(** An element of the list [getTemplates] returns. *)
Record Template : Type := {
  parsed : NativeDates;
  id : string;
  _body_plaintext : string
}.

(** An element of the list [getTags] returns: [{id, ...fields}]. *)
Record Tag : Type := {
  tag_id : string;
  tag_title : option string
}.

(** An element of the list handed to the fuzzy search. *)
Record SearchItem : Type := {
  item : Template;
  body : string;
  item_tags : list (option string)
}.

(** [{ query, results }] *)
Record SearchResult : Type := {
  query : string;
  results : list Template
}.

(** The collaborators of the module that are not among the sources. *)
Record Collaborators : Type := {
  (* the time value of [new Date(s)] for a string [s] *)
  Date_parse : string -> Js.Number;
  (* [html-to-text.js], applied to [template.body] *)
  htmlToText : option string -> string;
  (* [search.js] *)
  fuzzySearch : list Template -> list SearchItem -> string -> list Template;
  (* [default-data.js] *)
  getDefaultTemplates : list Template;
  defaultTags : list Tag
}.

(* ================================================================== *)
(** ** The synchronous callbacks *)

Section Pure.
Variable env : Collaborators.

(** [new Date(v)] for a string [v]. *)
Definition new_Date_string (v : string) : Js.Date :=
  Js.TimeClip (Date_parse env v).

(** [convertToNativeDates]: a string in one of the three date
    properties becomes a [Date]; anything else is left alone. *)
Definition convertToNativeDates (obj : Row) : NativeDates :=
  {| row := obj;
     created_datetime := option_map new_Date_string (row_created_datetime obj);
     modified_datetime := option_map new_Date_string (row_modified_datetime obj);
     deleted_datetime := option_map new_Date_string (row_deleted_datetime obj) |}.

(** The loop of [refreshLocalData]: [data[doc.id] = doc.data()]. *)
Definition snapshotData (docs : list Row) : Collection :=
  fold_left (fun data doc => Js.set (row_id doc) doc data) docs [].

(** The event [updateCache] emits for a collection. *)
Definition eventName (c : CollectionName) : string :=
  if Js.includes "templates" (collectionKey c)
  then "templates-updated"
  else collectionKey c ++ "-updated".

Definition LOGGED_OUT_ERR : Js.Error := Js.ErrString "logged-out".

(** [err === LOGGED_OUT_ERR] *)
Definition isLoggedOut (err : Js.Error) : bool :=
  match err with
  | Js.ErrString s => String.eqb s "logged-out"
  | Js.ErrObject _ => false
  end.

(** Truthiness of an optional string property: absent and the empty
    string are falsy. *)
Definition truthy (v : option string) : bool :=
  match v with
  | Some s => negb (String.eqb s "")
  | None => false
  end.

(** [a === b] on optional strings. *)
Definition same (a b : option string) : bool :=
  match a, b with
  | Some x, Some y => String.eqb x y
  | None, None => true
  | _, _ => false
  end.

(** The filter of [refetchCollections] for free customers. *)
Definition withoutShared (cs : list CollectionName) : list CollectionName :=
  filter (fun c => negb (existsb (CollectionName_eqb c)
                           [templatesShared; templatesEveryone])) cs.

(** The callback of [isFree]: [customers[user.customer]] and its
    [subscription?.plan === 'free']; reading a property of a missing
    customer throws. *)
Definition isFreeCustomer (user : User) (customerRows : Collection)
  : Js.Error + bool :=
  match user_customer user with
  | None => inl Js.TypeError
  | Some cid =>
      match Js.get cid customerRows with
      | None => inl Js.TypeError
      | Some customer => inr (same (row_plan customer) (Some "free"))
      end
  end.

(** The body of [getActiveCustomer] after the [users] collection is
    there: keep the stored customer while it is still a membership,
    else take the first membership. *)
Definition activeCustomer (user : User) (userRows : Collection)
  : Js.Error + option string :=
  match Js.get (user_id user) userRows with
  | None => inl Js.TypeError
  | Some userData =>
      match row_customers userData with
      | None => inl Js.TypeError
      | Some memberships =>
          if truthy (user_customer user)
             && existsb (fun m => same (Some m) (user_customer user)) memberships
          then inr (user_customer user)
          else inr (hd_error memberships)
      end
  end.

(** The [.then] callbacks of [getTemplates]. *)

(** [Object.assign({}, ...res)] *)
Definition mergeTemplates (res : list Collection) : Collection :=
  Js.assign [] res.

Definition templateOf (key : string) (template : Row) : Template :=
  {| parsed := convertToNativeDates template;
     id := key;
     _body_plaintext := htmlToText env (row_body template) |}.

(** [Object.keys(templates).map((id) => ...)] *)
Definition templateList (templates : Collection) : list Template :=
  flat_map (fun key => match Js.get key templates with
                       | Some template => [templateOf key template]
                       | None => []
                       end)
           (Js.keys templates).

(** [new Date(t.created_datetime || 0)]: a [Date] is truthy even when
    invalid; a missing property gives the epoch. *)
Definition createdTime (t : Template) : Js.Date :=
  match created_datetime (parsed t) with
  | Some d => d
  | None => Js.Num 0
  end.

(** The sort comparator of [getTemplates]. *)
Definition byCreated (a b : Template) : Js.Number :=
  Js.sub (createdTime a) (createdTime b).

Definition templatesFreeLimit : nat := 30.

Definition limitFree (freeCustomer : bool) (templates : list Template)
  : list Template :=
  if freeCustomer
  then Js.slice0 templatesFreeLimit (Js.sort byCreated templates)
  else templates.

(** The whole chain after [Promise.all(templateCollections)]. *)
Definition projectTemplates (freeCustomer : bool) (res : list Collection)
  : list Template :=
  limitFree freeCustomer (templateList (mergeTemplates res)).

(** The callback of [getTags]: [Object.assign({id: id}, tags[id])]; the
    row's own [id] is the key it is stored under. *)
Definition tagList (tagRows : Collection) : list Tag :=
  flat_map (fun key => match Js.get key tagRows with
                       | Some r => [{| tag_id := row_id r; tag_title := row_title r |}]
                       | None => []
                       end)
           (Js.keys tagRows).

Definition parseTags (tagIds : list string) (allTags : list Tag) : list Tag :=
  flat_map (fun tagId =>
              match find (fun t => String.eqb (tag_id t) tagId) allTags with
              | Some t => [t]
              | None => []
              end)
           tagIds.

Definition getSearchList (templates : list Template) (allTags : list Tag)
  : list SearchItem :=
  map (fun template =>
         {| item := template;
            body := _body_plaintext template;
            item_tags := map tag_title
                           (parseTags (row_tags (row (parsed template))) allTags) |})
      templates.

(** [(_body_plaintext || '').split(' ').length] *)
Definition wordCount (plaintext : string) : Z :=
  Z.of_nat (List.length (Js.split " "%char plaintext)).

Definition SEARCH_CANCELED : SearchResult :=
  {| query := "_SEARCH_CANCELED"; results := [] |}.

(** three hours *)
Definition defaultSyncTimeout : Z := 3 * 60 * 60 * 1000.

(** The test of [autosync]: [new Date() - lastSync > timeout]. *)
Definition syncDue (now : Z) (data : ExtensionData) (timeout : Js.Number) : bool :=
  Js.gt (Js.sub (Js.TimeClip (Js.Num now)) (Js.new_Date (lastSync data))) timeout.

End Pure.

(* ================================================================== *)
(** ** Asynchronous functions as interaction programs *)

(** What a promise settles with. *)
Inductive Outcome (A : Type) : Type :=
| Resolved (a : A)
| Rejected (e : Js.Error).
Arguments Rejected {A} e.

(** The values the promises of the module resolve with. *)
Inductive Value : Type :=
| VUndefined
| VBool (b : bool)
| VUser (u : User)
| VCollection (c : Collection)
| VCollections (cs : list Collection)
| VTemplates (ts : list Template)
| VTags (ts : list Tag)
| VSearch (r : SearchResult).

(** Asynchronous requests to the collaborators; the caller is suspended
    until the request completes. *)
Inductive Request : Type -> Type :=
(* browser.storage.local *)
| storage_get_collection (c : CollectionName) : Request (option Collection)
| storage_set_collections (kv : list (CollectionName * option Collection)) : Request unit
| storage_get_user : Request (option User)
| storage_set_user (u : option User) : Request unit
| storage_get_session : Request (option Session)
| storage_set_session (s : option Session) : Request unit
| storage_clear : Request unit
(* extension-data.js *)
| getExtensionData : Request ExtensionData
| setExtensionData (params : ExtensionPatch) : Request unit
(* supabase.auth *)
| auth_getUser : Request (option string)
| auth_signOut : Request unit
| auth_setSession (s : Session) : Request unit
(* supabase.from(...).select('*')... : the query of a collection *)
| getCollectionQuery (name : CollectionName) (user : User) : Request Response.

(** Synchronous accesses: the module-level variables, the clock, and
    the collaborators that are called without being awaited. *)
Inductive Access : Type -> Type :=
| read_collectionRequestQueue (c : CollectionName) : Access (option nat)
| write_collectionRequestQueue (c : CollectionName) (p : option nat) : Access unit
| read_lastSearchQuery : Access string
| write_lastSearchQuery (q : string) : Access unit
| read_sessionLoaded : Access bool
| write_sessionLoaded (b : bool) : Access unit
| Date_now : Access Z
| trigger (event : string) : Access unit
| badgeUpdate (signedIn : bool) : Access unit
| call_fuzzySearch (templates : list Template) (searchList : list SearchItem)
    (q : string) : Access (list Template)
(* [refetchCollections(names)] called without being awaited from
   [setActiveCustomer]; the event loop launches it *)
| background_refetchCollections (names : list CollectionName) : Access unit.

(** An asynchronous function body.  [Start] calls an asynchronous
    function without awaiting it and yields its promise; [Join] awaits
    a promise; [JoinAll] is [Promise.all]. *)
Inductive Prog (A : Type) : Type :=
| Return (a : A)
| Throw (e : Js.Error)
| Sync (X : Type) (o : Access X) (k : X -> Prog A)
| Await (X : Type) (o : Request X) (k : X -> Prog A)
| Start (child : Prog Value) (k : nat -> Prog A)
| Join (promise : nat) (k : Outcome Value -> Prog A)
| JoinAll (promises : list nat) (k : Outcome (list Value) -> Prog A).
Arguments Throw {A} e.
Arguments Sync {A X} o k.
Arguments Await {A X} o k.
Arguments Start {A} child k.
Arguments Join {A} promise k.
Arguments JoinAll {A} promises k.

Fixpoint bind (A B : Type) (p : Prog A) (f : A -> Prog B) : Prog B :=
  match p with
  | Return a => f a
  | Throw e => Throw e
  | Sync o k => Sync o (fun x => bind (k x) f)
  | Await o k => Await o (fun x => bind (k x) f)
  | Start child k => Start child (fun promise => bind (k promise) f)
  | Join promise k => Join promise (fun o => bind (k o) f)
  | JoinAll promises k => JoinAll promises (fun o => bind (k o) f)
  end.

(** [try { p } catch (err) { handler err }], and [p.catch(handler)]. *)
Fixpoint try_catch (A : Type) (p : Prog A) (handler : Js.Error -> Prog A) : Prog A :=
  match p with
  | Return a => Return a
  | Throw e => handler e
  | Sync o k => Sync o (fun x => try_catch (k x) handler)
  | Await o k => Await o (fun x => try_catch (k x) handler)
  | Start child k => Start child (fun promise => try_catch (k promise) handler)
  | Join promise k => Join promise (fun o => try_catch (k o) handler)
  | JoinAll promises k => JoinAll promises (fun o => try_catch (k o) handler)
  end.

Declare Scope prog_scope.
Delimit Scope prog_scope with prog.
Notation "x <- p ;; q" := (bind p (fun x => q))
  (at level 61, p at next level, right associativity) : prog_scope.
Notation "p ;; q" := (bind p (fun _ => q))
  (at level 61, right associativity) : prog_scope.
Open Scope prog_scope.

Definition await (X : Type) (o : Request X) : Prog X := Await o (fun x => Return x).
Definition sync (X : Type) (o : Access X) : Prog X := Sync o (fun x => Return x).
Definition start (child : Prog Value) : Prog nat := Start child (fun p => Return p).

(** A thrown value or a result. *)
Definition lift (A : Type) (r : Js.Error + A) : Prog A :=
  match r with
  | inl e => Throw e
  | inr a => Return a
  end.

(** Awaiting a promise that resolves with a collection. *)
Definition join_collection (promise : nat) : Prog Collection :=
  Join promise (fun o =>
    match o with
    | Resolved (VCollection c) => Return c
    | Resolved _ => Throw Js.TypeError
    | Rejected e => Throw e
    end).

Fixpoint collections_of (vs : list Value) : option (list Collection) :=
  match vs with
  | [] => Some []
  | VCollection c :: vs' => option_map (cons c) (collections_of vs')
  | _ :: _ => None
  end.

(** [Promise.all] over promises of collections. *)
Definition join_collections (promises : list nat) : Prog (list Collection) :=
  JoinAll promises (fun o =>
    match o with
    | Resolved vs =>
        match collections_of vs with
        | Some cs => Return cs
        | None => Throw Js.TypeError
        end
    | Rejected e => Throw e
    end).

(* ================================================================== *)
(** ** The functions of the module *)

Section Api.
Variable env : Collaborators.

(** An asynchronous call as a promise of a [Value]. *)
Definition as_value (A : Type) (inj : A -> Value) (p : Prog A) : Prog Value :=
  a <- p ;; Return (inj a).

(** Calling several asynchronous functions one after the other, as an
    array literal or [map] does, and collecting their promises. *)
Fixpoint start_all (calls : list (Prog Value)) : Prog (list nat) :=
  match calls with
  | [] => Return []
  | call :: calls' =>
      promise <- start call ;;
      promises <- start_all calls' ;;
      Return (promise :: promises)
  end.

Definition saveSession (session : option Session) : Prog unit :=
  await (storage_set_session session).

Definition loadSession : Prog unit :=
  loaded <- sync read_sessionLoaded ;;
  if (loaded : bool) then Return tt
  else
    stored <- await storage_get_session ;;
    (match stored with
     | Some s =>
         if truthy (access_token s)
         then try_catch (await (auth_setSession s)) (fun _ => Return tt)
         else Return tt
     | None => Return tt
     end) ;;
    sync (write_sessionLoaded true).

Definition clearDataCache : Prog unit :=
  extensionData <- await getExtensionData ;;
  let words := words extensionData in
  await storage_clear ;;
  await (setExtensionData
           {| set_words := Some words;
              set_lastSync := None;
              set_templatesLastUsed := None |}).

Definition updateCache (collection : CollectionName) (data : Collection)
  : Prog Collection :=
  await (storage_set_collections [(collection, Some data)]) ;;
  sync (trigger (eventName collection)) ;;
  now <- sync Date_now ;;
  await (setExtensionData
           {| set_words := None;
              set_lastSync := Some (Js.Val (Js.Num now));
              set_templatesLastUsed := None |}) ;;
  Return data.

Definition refreshLocalData (collectionName : CollectionName) (docs : list Row)
  : Prog Collection :=
  updateCache collectionName (snapshotData docs).

(** The promise [getCollection] stores in [collectionRequestQueue]:
    [Promise.resolve(query).then((res) => ...)]. *)
Definition collectionRequest (collection : CollectionName) (user : User)
  : Prog Value :=
  res <- await (getCollectionQuery collection user) ;;
  sync (write_collectionRequestQueue collection None) ;;
  match error res with
  | Some e => Throw e
  | None =>
      let docs := match data res with Some rows => rows | None => [] end in
      as_value VCollection (refreshLocalData collection docs)
  end.

(** The callback of [getCollection] that receives the stored value:
    a cache hit is returned; on a miss the query is started and its
    promise becomes the marker of the collection. *)
Definition getCollection_then (collection : CollectionName) (user : User)
  (res : option Collection) : Prog Collection :=
  match res with
  | Some cached => Return cached
  | None =>
      promise <- start (collectionRequest collection user) ;;
      sync (write_collectionRequestQueue collection (Some promise)) ;;
      join_collection promise
  end.

Definition getCollection (collection : CollectionName) (user : User)
  : Prog Collection :=
  inProgress <- sync (read_collectionRequestQueue collection) ;;
  match inProgress with
  | Some promise => join_collection promise
  | None =>
      res <- await (storage_get_collection collection) ;;
      getCollection_then collection user res
  end.

Definition setSignedInUser (user : option User) : Prog (option User) :=
  await (storage_set_user user) ;;
  Return user.

Definition getActiveCustomer (user : User) : Prog (option string) :=
  userRows <- getCollection users
                {| user_id := user_id user; user_customer := None |} ;;
  lift (activeCustomer user userRows).

Definition setActiveCustomer (customerId : option string) : Prog unit :=
  current <- await auth_getUser ;;
  match current with
  | None => Throw Js.TypeError
  | Some uid =>
      setSignedInUser (Some {| user_id := uid; user_customer := customerId |}) ;;
      sync (background_refetchCollections
              [templatesOwned; templatesShared; templatesEveryone; tags])
  end.

Definition getFirebaseUser : Prog (option string) :=
  loadSession ;;
  await auth_getUser.

Definition getSignedInUser : Prog User :=
  storedUser <- await storage_get_user ;;
  firebaseUser <- getFirebaseUser ;;
  match firebaseUser, storedUser with
  | Some fid, Some user =>
      if String.eqb (user_id user) fid
      then
        customer <- getActiveCustomer user ;;
        (if truthy (user_customer user) && negb (same (user_customer user) customer)
         then p <- start (as_value (fun _ => VUndefined) (setActiveCustomer customer)) ;;
              Return tt
         else Return tt) ;;
        Return {| user_id := user_id user; user_customer := customer |}
      else Throw LOGGED_OUT_ERR
  | Some _, None => Throw LOGGED_OUT_ERR
  | None, Some _ =>
      sync (badgeUpdate false) ;;
      start (as_value (fun _ => VUndefined) clearDataCache) ;;
      setSignedInUser None ;;
      sync (trigger "logout") ;;
      Throw LOGGED_OUT_ERR
  | None, None => Throw LOGGED_OUT_ERR
  end.

Definition isFree (user : User) : Prog bool :=
  customerRows <- getCollection customers user ;;
  lift (isFreeCustomer user customerRows).

(** [collections.length ? collections : allCollections] *)
Definition collectionsToClear (collections : list CollectionName)
  : list CollectionName :=
  match collections with
  | [] => allCollections
  | _ :: _ => collections
  end.

(** The [try] block of [refetchCollections] once the user is known: the
    plan is resolved, the shared collections are left out for a free
    customer, and the [getCollection] calls are started. *)
Definition refetchCollections_plan (toClear : list CollectionName) (user : User)
  : Prog (list nat) :=
  free <- isFree user ;;
  let collectionsToRefetch :=
    if (free : bool) then withoutShared toClear else toClear in
  start_all (map (fun c => as_value VCollection (getCollection c user))
                 collectionsToRefetch).

(** The [try] block of [refetchCollections], up to its [return]: the
    promises of the started [getCollection] calls. *)
Definition refetchCollections_try (toClear : list CollectionName)
  : Prog (list nat) :=
  user <- getSignedInUser ;;
  refetchCollections_plan toClear user.

(** The [catch] block: logged-out is not an error here. *)
Definition refetchCollections_catch (err : Js.Error) : Prog (option (list nat)) :=
  if isLoggedOut err then Return None else Throw err.

(** What the function returns: nothing after the [catch] block, or
    [Promise.all] of the started calls. *)
Definition refetchCollections_return (pending : option (list nat)) : Prog Value :=
  match pending with
  | None => Return VUndefined
  | Some promises => as_value VCollections (join_collections promises)
  end.

(** [refetchCollections] once the cache entries are set to [null].
    The [try] block returns [Promise.all(...)] without awaiting it, so
    the [catch] covers the user and plan resolution only. *)
Definition refetchCollections_resolve (toClear : list CollectionName)
  : Prog Value :=
  pending <-
    try_catch
      (promises <- refetchCollections_try toClear ;; Return (Some promises))
      refetchCollections_catch ;;
  refetchCollections_return pending.

Definition refetchCollections (collections : list CollectionName) : Prog Value :=
  let toClear := collectionsToClear collections in
  await (storage_set_collections (map (fun c => (c, None)) toClear)) ;;
  refetchCollections_resolve toClear.

Definition autosync (timeout : Js.Number) : Prog Value :=
  data <- await getExtensionData ;;
  now <- sync Date_now ;;
  if syncDue now data timeout
  then refetchCollections []
  else Return VUndefined.

(** The end of the chain of [getTemplates]: [Promise.all] over the
    requested collections, then merge, projection and free-plan limit. *)
Definition getTemplates_merge (freeCustomer : bool) (templateCollections : list nat)
  : Prog (list Template) :=
  res <- join_collections templateCollections ;;
  Return (projectTemplates env freeCustomer res).

(** The callback of [getTemplates] that receives [[user, freeCustomer]]:
    it requests [templatesOwned], and the two shared collections
    unless the customer is on the free plan. *)
Definition getTemplates_request (user : User) (freeCustomer : bool)
  : Prog (list Template) :=
  owned <- start (as_value VCollection (getCollection templatesOwned user)) ;;
  if freeCustomer
  then getTemplates_merge freeCustomer [owned]
  else
    shared <- start (as_value VCollection (getCollection templatesShared user)) ;;
    everyone <- start (as_value VCollection (getCollection templatesEveryone user)) ;;
    getTemplates_merge freeCustomer [owned; shared; everyone].

Definition getTemplates_catch (err : Js.Error) : Prog (list Template) :=
  if isLoggedOut err then Return (getDefaultTemplates env) else Throw err.

Definition getTemplates : Prog (list Template) :=
  try_catch
    (user <- getSignedInUser ;;
     freeCustomer <- isFree user ;;
     getTemplates_request user freeCustomer)
    getTemplates_catch.

Definition logout : Prog bool :=
  await auth_signOut ;;
  setSignedInUser None ;;
  sync (badgeUpdate false) ;;
  start (as_value (fun _ => VUndefined) clearDataCache) ;;
  sync (trigger "logout") ;;
  await (storage_set_session None) ;;
  Return true.

Definition updateTemplateStats (id : string) (_body_plaintext : string)
  : Prog unit :=
  data <- await getExtensionData ;;
  let lastuseCache :=
    match templatesLastUsed data with
    | Some cache => cache
    | None => []
    end in
  now <- sync Date_now ;;
  let lastuseCache := Js.set id now lastuseCache in
  let words := Js.add (Js.ToNumber (words data)) (Js.Num (wordCount _body_plaintext)) in
  await (setExtensionData
           {| set_words := Some (Js.Val words);
              set_lastSync := None;
              set_templatesLastUsed := Some lastuseCache |}).

Definition getTags : Prog (list Tag) :=
  try_catch
    (user <- getSignedInUser ;;
     tagRows <- getCollection tags user ;;
     Return (tagList tagRows))
    (fun err => if isLoggedOut err then Return (defaultTags env) else Throw err).

(** The callback of [searchTemplates] that receives
    [[templates, tags]]. *)
Definition searchTemplates_then (query : string) (o : Outcome (list Value))
  : Prog SearchResult :=
  match o with
  | Resolved [VTemplates templates; VTags allTags] =>
      lastSearchQuery <- sync read_lastSearchQuery ;;
      if negb (String.eqb query lastSearchQuery)
      then Return SEARCH_CANCELED
      else
        let templateSearchList := getSearchList templates allTags in
        found <- sync (call_fuzzySearch templates templateSearchList query) ;;
        Return {| query := query; results := found |}
  | Resolved _ => Throw Js.TypeError
  | Rejected e => Throw e
  end.

Definition searchTemplates (query : string) : Prog SearchResult :=
  sync (write_lastSearchQuery query) ;;
  templatesPromise <- start (as_value VTemplates getTemplates) ;;
  tagsPromise <- start (as_value VTags getTags) ;;
  JoinAll [templatesPromise; tagsPromise] (searchTemplates_then query).

End Api.

(* ================================================================== *)
(** ** The event loop *)

(** [browser.storage.local]: one key per collection, the signed-in
    user, the auth session, and the extension data.  A collection key
    that is absent or [null] reads as [None]. *)
Record Storage : Type := {
  cache : CollectionName -> option Collection;
  firebaseUser : option User;
  supabaseSession : option Session;
  extensionData : ExtensionData
}.

(** The store after [browser.storage.local.clear()]. *)
Definition clearedStorage : Storage :=
  {| cache := fun _ => None;
     firebaseUser := None;
     supabaseSession := None;
     extensionData := noExtensionData |}.

(** What the collaborators see of the module. *)
Inductive Effect : Type :=
| Fetch (c : CollectionName) (u : User)   (* a remote query is issued *)
| Emitted (event : string)                (* [trigger(event, ...)] *)
| Badge (signedIn : bool)                 (* [badgeUpdate] *)
| Ranked (q : string).                    (* [fuzzySearch] is invoked *)

(** The state of one extension process: persistent storage, the
    module-level variables, the auth client, the clock, what has been
    observed so far (most recent first), and the promises: settled ones
    with their outcome, pending ones with the suspended function. *)
Record World : Type := {
  storage : Storage;
  collectionRequestQueue : CollectionName -> option nat;
  lastSearchQuery : string;
  _sessionLoaded : bool;
  currentUser : option string;
  clock : Z;
  deferred : list (list CollectionName);
  trace : list Effect;
  settled : list (nat * Outcome Value);
  tasks : list (nat * Prog Value);
  nextPromise : nat
}.

Definition with_storage (f : Storage -> Storage) (w : World) : World :=
  {| storage := f (storage w);
     collectionRequestQueue := collectionRequestQueue w;
     lastSearchQuery := lastSearchQuery w;
     _sessionLoaded := _sessionLoaded w;
     currentUser := currentUser w;
     clock := clock w;
     deferred := deferred w;
     trace := trace w;
     settled := settled w;
     tasks := tasks w;
     nextPromise := nextPromise w |}.

Definition with_queue (c : CollectionName) (p : option nat) (w : World) : World :=
  {| storage := storage w;
     collectionRequestQueue :=
       fun c' => if CollectionName_eqb c' c then p else collectionRequestQueue w c';
     lastSearchQuery := lastSearchQuery w;
     _sessionLoaded := _sessionLoaded w;
     currentUser := currentUser w;
     clock := clock w;
     deferred := deferred w;
     trace := trace w;
     settled := settled w;
     tasks := tasks w;
     nextPromise := nextPromise w |}.

Definition with_lastSearchQuery (q : string) (w : World) : World :=
  {| storage := storage w;
     collectionRequestQueue := collectionRequestQueue w;
     lastSearchQuery := q;
     _sessionLoaded := _sessionLoaded w;
     currentUser := currentUser w;
     clock := clock w;
     deferred := deferred w;
     trace := trace w;
     settled := settled w;
     tasks := tasks w;
     nextPromise := nextPromise w |}.

Definition with_sessionLoaded (b : bool) (w : World) : World :=
  {| storage := storage w;
     collectionRequestQueue := collectionRequestQueue w;
     lastSearchQuery := lastSearchQuery w;
     _sessionLoaded := b;
     currentUser := currentUser w;
     clock := clock w;
     deferred := deferred w;
     trace := trace w;
     settled := settled w;
     tasks := tasks w;
     nextPromise := nextPromise w |}.

Definition with_currentUser (u : option string) (w : World) : World :=
  {| storage := storage w;
     collectionRequestQueue := collectionRequestQueue w;
     lastSearchQuery := lastSearchQuery w;
     _sessionLoaded := _sessionLoaded w;
     currentUser := u;
     clock := clock w;
     deferred := deferred w;
     trace := trace w;
     settled := settled w;
     tasks := tasks w;
     nextPromise := nextPromise w |}.

Definition with_clock (t : Z) (w : World) : World :=
  {| storage := storage w;
     collectionRequestQueue := collectionRequestQueue w;
     lastSearchQuery := lastSearchQuery w;
     _sessionLoaded := _sessionLoaded w;
     currentUser := currentUser w;
     clock := t;
     deferred := deferred w;
     trace := trace w;
     settled := settled w;
     tasks := tasks w;
     nextPromise := nextPromise w |}.

Definition with_deferred (d : list (list CollectionName)) (w : World) : World :=
  {| storage := storage w;
     collectionRequestQueue := collectionRequestQueue w;
     lastSearchQuery := lastSearchQuery w;
     _sessionLoaded := _sessionLoaded w;
     currentUser := currentUser w;
     clock := clock w;
     deferred := d;
     trace := trace w;
     settled := settled w;
     tasks := tasks w;
     nextPromise := nextPromise w |}.

Definition observe (e : Effect) (w : World) : World :=
  {| storage := storage w;
     collectionRequestQueue := collectionRequestQueue w;
     lastSearchQuery := lastSearchQuery w;
     _sessionLoaded := _sessionLoaded w;
     currentUser := currentUser w;
     clock := clock w;
     deferred := deferred w;
     trace := e :: trace w;
     settled := settled w;
     tasks := tasks w;
     nextPromise := nextPromise w |}.

(** Settling promise [p] with outcome [o]. *)
Definition settle (p : nat) (o : Outcome Value) (w : World) : World :=
  {| storage := storage w;
     collectionRequestQueue := collectionRequestQueue w;
     lastSearchQuery := lastSearchQuery w;
     _sessionLoaded := _sessionLoaded w;
     currentUser := currentUser w;
     clock := clock w;
     deferred := deferred w;
     trace := trace w;
     settled := (p, o) :: settled w;
     tasks := tasks w;
     nextPromise := nextPromise w |}.

(** Suspending the function behind promise [p] at [body]. *)
Definition suspend (p : nat) (body : Prog Value) (w : World) : World :=
  {| storage := storage w;
     collectionRequestQueue := collectionRequestQueue w;
     lastSearchQuery := lastSearchQuery w;
     _sessionLoaded := _sessionLoaded w;
     currentUser := currentUser w;
     clock := clock w;
     deferred := deferred w;
     trace := trace w;
     settled := settled w;
     tasks := (p, body) :: tasks w;
     nextPromise := nextPromise w |}.

Definition with_tasks (ts : list (nat * Prog Value)) (w : World) : World :=
  {| storage := storage w;
     collectionRequestQueue := collectionRequestQueue w;
     lastSearchQuery := lastSearchQuery w;
     _sessionLoaded := _sessionLoaded w;
     currentUser := currentUser w;
     clock := clock w;
     deferred := deferred w;
     trace := trace w;
     settled := settled w;
     tasks := ts;
     nextPromise := nextPromise w |}.

(** A fresh promise. *)
Definition fresh (w : World) : World :=
  {| storage := storage w;
     collectionRequestQueue := collectionRequestQueue w;
     lastSearchQuery := lastSearchQuery w;
     _sessionLoaded := _sessionLoaded w;
     currentUser := currentUser w;
     clock := clock w;
     deferred := deferred w;
     trace := trace w;
     settled := settled w;
     tasks := tasks w;
     nextPromise := S (nextPromise w) |}.

Section Lookup.
Variable A : Type.

Fixpoint lookup (p : nat) (l : list (nat * A)) : option A :=
  match l with
  | [] => None
  | (q, a) :: l' => if Nat.eqb p q then Some a else lookup p l'
  end.

Fixpoint discard (p : nat) (l : list (nat * A)) : list (nat * A) :=
  match l with
  | [] => []
  | (q, a) :: l' => if Nat.eqb p q then l' else (q, a) :: discard p l'
  end.
End Lookup.

(** The state of [Promise.all(promises)]: rejected once one of them is,
    resolved with all values once all of them are. *)
Fixpoint gather (promises : list nat) (done : list (nat * Outcome Value))
  : option (Outcome (list Value)) :=
  match promises with
  | [] => Some (Resolved [])
  | p :: ps =>
      match lookup p done with
      | Some (Rejected e) => Some (Rejected e)
      | Some (Resolved v) =>
          match gather ps done with
          | Some (Resolved vs) => Some (Resolved (v :: vs))
          | other => other
          end
      | None =>
          match gather ps done with
          | Some (Rejected e) => Some (Rejected e)
          | _ => None
          end
      end
  end.

(** [browser.storage.local.set(entries)] on collection keys. *)
Definition set_collections (kv : list (CollectionName * option Collection))
  (s : Storage) : Storage :=
  {| cache := fun c =>
       fold_left (fun found entry =>
                    if CollectionName_eqb c (fst entry) then snd entry else found)
                 kv (cache s c);
     firebaseUser := firebaseUser s;
     supabaseSession := supabaseSession s;
     extensionData := extensionData s |}.

Definition set_user (u : option User) (s : Storage) : Storage :=
  {| cache := cache s;
     firebaseUser := u;
     supabaseSession := supabaseSession s;
     extensionData := extensionData s |}.

Definition set_session (v : option Session) (s : Storage) : Storage :=
  {| cache := cache s;
     firebaseUser := firebaseUser s;
     supabaseSession := v;
     extensionData := extensionData s |}.

(** Modelled from the spec: [setExtensionData] of [extension-data.js],
    which is not among the sources, persists the given fields into the
    ExtensionData record and keeps the others. *)
Definition set_extensionData (p : ExtensionPatch) (s : Storage) : Storage :=
  {| cache := cache s;
     firebaseUser := firebaseUser s;
     supabaseSession := supabaseSession s;
     extensionData := patchExtensionData p (extensionData s) |}.

Section Loop.
Variable env : Collaborators.

(** A synchronous access, carried out at once. *)
Definition access (X : Type) (o : Access X) (w : World) : X * World :=
  match o in Access X return X * World with
  | read_collectionRequestQueue c => (collectionRequestQueue w c, w)
  | write_collectionRequestQueue c p => (tt, with_queue c p w)
  | read_lastSearchQuery => (lastSearchQuery w, w)
  | write_lastSearchQuery q => (tt, with_lastSearchQuery q w)
  | read_sessionLoaded => (_sessionLoaded w, w)
  | write_sessionLoaded b => (tt, with_sessionLoaded b w)
  | Date_now => (clock w, w)
  | trigger event => (tt, observe (Emitted event) w)
  | badgeUpdate b => (tt, observe (Badge b) w)
  | call_fuzzySearch templates searchList q =>
      (fuzzySearch env templates searchList q, observe (Ranked q) w)
  | background_refetchCollections names =>
      (tt, with_deferred (deferred w ++ [names]) w)
  end.

(** Sending a request; a remote query is observed when it is sent. *)
Definition issue (X : Type) (o : Request X) (w : World) : World :=
  match o with
  | getCollectionQuery c u => observe (Fetch c u) w
  | _ => w
  end.

(** A request other than a remote query completes by itself; a remote
    query completes with the response the remote store sends. *)
Definition local (X : Type) (reply : option Response) (r : X * World)
  : option (X * World) :=
  match reply with
  | None => Some r
  | Some _ => None
  end.

(** A request completes: its result, and its effect on the store and
    on the auth client.
    Modelled from the spec: [getExtensionData] of [extension-data.js],
    which is not among the sources, reads the persisted ExtensionData
    record. *)
Definition perform (X : Type) (o : Request X) (reply : option Response)
  (w : World) : option (X * World) :=
  match o in Request X return option (X * World) with
  | storage_get_collection c => local reply (cache (storage w) c, w)
  | storage_set_collections kv =>
      local reply (tt, with_storage (set_collections kv) w)
  | storage_get_user => local reply (firebaseUser (storage w), w)
  | storage_set_user u => local reply (tt, with_storage (set_user u) w)
  | storage_get_session => local reply (supabaseSession (storage w), w)
  | storage_set_session v => local reply (tt, with_storage (set_session v) w)
  | storage_clear => local reply (tt, with_storage (fun _ => clearedStorage) w)
  | getExtensionData => local reply (extensionData (storage w), w)
  | setExtensionData p => local reply (tt, with_storage (set_extensionData p) w)
  | auth_getUser => local reply (currentUser w, w)
  | auth_signOut => local reply (tt, with_currentUser None w)
  | auth_setSession s =>
      local reply (tt, match session_user s with
                       | Some u => with_currentUser (Some u) w
                       | None => w
                       end)
  | getCollectionQuery _ _ =>
      match reply with
      | Some res => Some (res, w)
      | None => None
      end
  end.

(** Where a function stands after running as far as it can. *)
Inductive Status (A : Type) : Type :=
| Finished (o : Outcome A)
| Suspended (p : Prog A).

Definition park (p : nat) (st : Status Value) (w : World) : World :=
  match st with
  | Finished o => settle p o w
  | Suspended body => suspend p body w
  end.

(** Running a function until it returns, throws, or has to wait for a
    request or a pending promise.  A function started on the way runs
    to its own first suspension before its caller continues. *)
Fixpoint advance (A : Type) (p : Prog A) (w : World) {struct p}
  : Status A * World :=
  match p with
  | Return a => (Finished (Resolved a), w)
  | Throw e => (Finished (Rejected e), w)
  | Sync o k => let (x, w') := access o w in advance (k x) w'
  | Await o k => (Suspended (Await o k), issue o w)
  | Start child k =>
      let promise := nextPromise w in
      let (st, w') := advance child (fresh w) in
      advance (k promise) (park promise st w')
  | Join promise k =>
      match lookup promise (settled w) with
      | Some o => advance (k o) w
      | None => (Suspended (Join promise k), w)
      end
  | JoinAll promises k =>
      match gather promises (settled w) with
      | Some o => advance (k o) w
      | None => (Suspended (JoinAll promises k), w)
      end
  end.

(** Running the function behind promise [p] from [body]. *)
Definition resume (p : nat) (body : Prog Value) (w : World) : World :=
  let (st, w') := advance body w in park p st w'.

(** What can happen next. *)
Inductive Event : Type :=
(* a caller invokes an exported function *)
| Invoke (call : Prog Value)
(* the storage or auth request a function waits for completes *)
| Complete (task : nat)
(* the remote query a function waits for resolves with [res] *)
| Reply (task : nat) (res : Response)
(* a function waiting for settled promises resumes *)
| Wake (task : nat)
(* the oldest background [refetchCollections] call starts *)
| Launch
(* time passes *)
| Tick (t : Z)
(* the auth client reports a session change: [onAuthStateChange] *)
| AuthStateChange (session : option Session).

Definition completes (task : nat) (reply : option Response) (w : World)
  : option World :=
  match lookup task (tasks w) with
  | Some (Await o k) =>
      match perform o reply (with_tasks (discard task (tasks w)) w) with
      | Some (x, w') => Some (resume task (k x) w')
      | None => None
      end
  | _ => None
  end.

Definition step (w : World) (e : Event) : option World :=
  match e with
  | Invoke call => Some (resume (nextPromise w) call (fresh w))
  | Complete task => completes task None w
  | Reply task res => completes task (Some res) w
  | Wake task =>
      match lookup task (tasks w) with
      | Some (Join promise k) =>
          match lookup promise (settled w) with
          | Some o => Some (resume task (k o) (with_tasks (discard task (tasks w)) w))
          | None => None
          end
      | Some (JoinAll promises k) =>
          match gather promises (settled w) with
          | Some o => Some (resume task (k o) (with_tasks (discard task (tasks w)) w))
          | None => None
          end
      | _ => None
      end
  | Launch =>
      match deferred w with
      | names :: rest =>
          Some (resume (nextPromise w) (refetchCollections names)
                  (fresh (with_deferred rest w)))
      | [] => None
      end
  | Tick t => Some (with_clock t w)
  | AuthStateChange session =>
      let w' := with_currentUser
                  (match session with
                   | Some s => session_user s
                   | None => None
                   end) w in
      Some (resume (nextPromise w')
              (as_value (fun _ => VUndefined) (saveSession session))
              (fresh w'))
  end.

Fixpoint run (w : World) (events : list Event) : option World :=
  match events with
  | [] => Some w
  | e :: events' =>
      match step w e with
      | Some w' => run w' events'
      | None => None
      end
  end.

End Loop.

(** A process that has just started, over a given store. *)
Definition boot (s : Storage) (live : option string) (t : Z) : World :=
  {| storage := s;
     collectionRequestQueue := fun _ => None;
     lastSearchQuery := "";
     _sessionLoaded := false;
     currentUser := live;
     clock := t;
     deferred := [];
     trace := [];
     settled := [];
     tasks := [];
     nextPromise := 0 |}.

(** The outcome of the call behind promise [p], once settled. *)
Definition outcome (p : nat) (w : World) : option (Outcome Value) :=
  lookup p (settled w).

(** The remote queries issued so far for collection [c]. *)
Definition fetches (c : CollectionName) (w : World) : nat :=
  List.length
    (filter (fun e => match e with
                      | Fetch c' _ => CollectionName_eqb c c'
                      | _ => false
                      end)
            (trace w)).

(* ================================================================== *)
(** ** Sample data *)

(** Sample date strings are decimal millisecond counts. *)
Fixpoint decimal (acc : Z) (s : string) : Js.Number :=
  match s with
  | EmptyString => Js.Num acc
  | String a s' =>
      let d := Z.of_nat (nat_of_ascii a) - 48 in
      if (0 <=? d) && (d <=? 9) then decimal (10 * acc + d) s' else Js.NaN
  end.

Definition sampleCollaborators : Collaborators :=
  {| Date_parse := fun s => match s with
                            | EmptyString => Js.NaN
                            | _ => decimal 0 s
                            end;
     htmlToText := fun b => match b with Some s => s | None => "" end;
     fuzzySearch := fun templates _ _ => templates;
     getDefaultTemplates := [];
     defaultTags := [] |}.

(** The same collaborators reading dates in the format of
    [toISOString]. *)
Definition isoCollaborators : Collaborators :=
  {| Date_parse := Js.parseISO;
     htmlToText := htmlToText sampleCollaborators;
     fuzzySearch := fuzzySearch sampleCollaborators;
     getDefaultTemplates := [];
     defaultTags := [] |}.

Definition sampleRow (key title : string) (created : option string) : Row :=
  {| row_id := key;
     row_owner := None;
     row_title := Some title;
     row_body := Some title;
     row_tags := [];
     row_created_datetime := created;
     row_modified_datetime := None;
     row_deleted_datetime := None;
     row_customers := None;
     row_plan := None |}.

Definition sampleUserRow : Row :=
  {| row_id := "u1";
     row_owner := None;
     row_title := None;
     row_body := None;
     row_tags := [];
     row_created_datetime := None;
     row_modified_datetime := None;
     row_deleted_datetime := None;
     row_customers := Some ["c1"];
     row_plan := None |}.

Definition sampleCustomerRow (plan : string) : Row :=
  {| row_id := "c1";
     row_owner := None;
     row_title := None;
     row_body := None;
     row_tags := [];
     row_created_datetime := None;
     row_modified_datetime := None;
     row_deleted_datetime := None;
     row_customers := None;
     row_plan := Some plan |}.

Definition sampleUser : User :=
  {| user_id := "u1"; user_customer := Some "c1" |}.

(** A store of a signed-in user: every collection is cached; the
    template [t1] is both owned and shared with everyone. *)
Definition sampleStorage (plan : string) (stats : ExtensionData) : Storage :=
  {| cache := fun c =>
       match c with
       | users => Some [("u1", sampleUserRow)]
       | customers => Some [("c1", sampleCustomerRow plan)]
       | tags => Some []
       | templatesOwned => Some [("t1", sampleRow "t1" "mine" (Some "20"))]
       | templatesShared => Some []
       | templatesEveryone => Some [("t1", sampleRow "t1" "theirs" (Some "10"))]
       end;
     firebaseUser := Some sampleUser;
     supabaseSession := None;
     extensionData := stats |}.

Definition sampleStats : ExtensionData :=
  {| words := Js.Val (Js.Num 5);
     lastSync := Js.Undefined;
     templatesLastUsed := None |}.

(** The process of a signed-in user at time 1000. *)
Definition sampleWorld (plan : string) : World :=
  boot (sampleStorage plan sampleStats) (Some "u1") 1000.

(** The process of a signed-out user: nothing stored, no live session. *)
Definition signedOutWorld : World :=
  boot clearedStorage None 1000.

(** The world after one more call. *)
Definition calling (call : Prog Value) (w : World) : World :=
  resume sampleCollaborators (nextPromise w) call (fresh w).

(* ================================================================== *)
(** ** Statements of the specification the code is compared with *)

(** The specification on a missing [lastSync]: the call goes on with a
    full [refetchCollections()]. *)
Definition autosync_refetches (env : Collaborators) (w : World) (task : nat)
  : Prop :=
  exists w',
    step env w (Complete task) = Some w'
    /\ lookup task (tasks w') = Some (refetchCollections []).

(** A signed-in process in which [autosync()] has just been called;
    the extension data has no [lastSync]. *)
Definition neverSynced : World :=
  calling (autosync (Js.Num defaultSyncTimeout)) (sampleWorld "free").

(** The same call when the last synchronisation is four hours old. *)
Definition staleSync : World :=
  calling (autosync (Js.Num defaultSyncTimeout))
    (boot (sampleStorage "free"
             {| words := Js.Val (Js.Num 5);
                lastSync := Js.Val (Js.Num 0);
                templatesLastUsed := None |})
          (Some "u1") (4 * 60 * 60 * 1000)).

(** Whitespace-delimited tokens, as the specification counts words:
    the maximal runs of characters that are not whitespace. *)
Definition isWhitespace (a : ascii) : bool :=
  existsb (Nat.eqb (nat_of_ascii a)) [9; 10; 11; 12; 13; 32]%nat.

Fixpoint tokensFrom (inToken : bool) (s : string) : nat :=
  match s with
  | EmptyString => 0
  | String a s' =>
      if isWhitespace a then tokensFrom false s'
      else ((if inToken then 0 else 1) + tokensFrom true s')%nat
  end.

Definition whitespaceTokens (s : string) : nat := tokensFrom false s.

(** The specification of [updateTemplateStats]: the persisted word
    count grows by the number of whitespace-delimited tokens. *)
Definition updateTemplateStats_adds_tokens (env : Collaborators) (w : World)
  (task : nat) (plaintext : string) : Prop :=
  exists w' n,
    run env w [Complete task; Complete task] = Some w'
    /\ words (extensionData (storage w)) = Js.Val (Js.Num n)
    /\ words (extensionData (storage w'))
       = Js.Val (Js.Num (n + Z.of_nat (whitespaceTokens plaintext))).

(** [updateTemplateStats] as a call. *)
Definition call_updateTemplateStats (id plaintext : string) : Prog Value :=
  as_value (fun _ => VUndefined) (updateTemplateStats id plaintext).

(** A process in which a template with an empty body has just been
    used; five words were counted so far. *)
Definition usingEmptyTemplate : World :=
  calling (call_updateTemplateStats "t1" "") (sampleWorld "free").

(** [searchTemplates(query)] as a call, and the same call while it
    waits for its templates and tags. *)
Definition call_searchTemplates (env : Collaborators) (query : string)
  : Prog Value :=
  as_value VSearch (searchTemplates env query).

Definition searching (query : string) (templatesPromise tagsPromise : nat)
  : Prog Value :=
  as_value VSearch
    (JoinAll [templatesPromise; tagsPromise] (searchTemplates_then query)).

(** What a search that is not canceled resolves with. *)
Definition ranked (env : Collaborators) (query : string)
  (templates : list Template) (allTags : list Tag) : SearchResult :=
  {| query := query;
     results := fuzzySearch env templates (getSearchList templates allTags) query |}.

(** A signed-out process in which ['a'] and then ['ab'] were searched
    for, and the templates and tags of the first search have arrived
    (the built-in defaults, since nobody is signed in). *)
Definition typingAhead : option World :=
  run sampleCollaborators signedOutWorld
    [Invoke (call_searchTemplates sampleCollaborators "a");
     Invoke (call_searchTemplates sampleCollaborators "ab");
     Complete 1%nat; Complete 1%nat; Complete 1%nat;
     Complete 2%nat; Complete 2%nat].

(** The same with ['a'] searched for twice. *)
Definition searchingTwice : option World :=
  run sampleCollaborators signedOutWorld
    [Invoke (call_searchTemplates sampleCollaborators "a");
     Invoke (call_searchTemplates sampleCollaborators "a");
     Complete 1%nat; Complete 1%nat; Complete 1%nat;
     Complete 2%nat; Complete 2%nat;
     Complete 4%nat; Complete 4%nat;
     Complete 5%nat; Complete 5%nat].

(** The specification of a superseded search: once another query was
    searched for while the call [task] waits for its templates and
    tags, the call resolves canceled, whatever else happens before its
    templates and tags are there. *)
Definition superseded_search_canceled (env : Collaborators) (w : World)
  (task : nat) (q2 : string) : Prop :=
  forall later w',
    run env w (Invoke (call_searchTemplates env q2) :: later ++ [Wake task])
    = Some w' ->
    outcome task w'
    = Some (Resolved (VSearch {| query := "_SEARCH_CANCELED"; results := [] |})).

(** What happens after ['a'] and ['ab'] in the run below: ['a'] is
    searched for once more, then the templates and tags of the first
    search arrive. *)
Definition searchingAgain : list Event :=
  [Invoke (call_searchTemplates sampleCollaborators "a");
   Complete 1%nat; Complete 1%nat; Complete 1%nat;
   Complete 2%nat; Complete 2%nat].

(** A signed-out process in which ['a'], ['ab'] and ['a'] again were
    searched for, and the templates and tags of the first search have
    arrived. *)
Definition typingBack : option World :=
  run sampleCollaborators signedOutWorld
    (Invoke (call_searchTemplates sampleCollaborators "a")
     :: Invoke (call_searchTemplates sampleCollaborators "ab")
     :: searchingAgain).

Definition the (w : option World) : World :=
  match w with
  | Some w' => w'
  | None => signedOutWorld
  end.

(** Promise identifiers are handed out in order: an identifier that
    was not handed out yet is neither settled nor pending. *)
Definition wellFormed (w : World) : Prop :=
  forall p, (nextPromise w <= p)%nat ->
    lookup p (settled w) = None /\ lookup p (tasks w) = None.

(** [getCollection] as a call, and the same call while it waits for
    the request in progress. *)
Definition call_getCollection (c : CollectionName) (user : User) : Prog Value :=
  as_value VCollection (getCollection c user).

Definition awaitingRequest (promise : nat) : Prog Value :=
  as_value VCollection (join_collection promise).

(** The call while it reads the cache. *)
Definition readingCache (c : CollectionName) (user : User) : Prog Value :=
  as_value VCollection
    (res <- await (storage_get_collection c) ;; getCollection_then c user res).

(** A signed-out process without cache in which [getCollection] was
    called for the tags and its remote query is in flight: promise 0 is
    the caller, promise 1 the request. *)
Definition fetchingTags : option World :=
  run sampleCollaborators signedOutWorld
    [Invoke (call_getCollection tags sampleUser); Complete 0%nat].

Definition refused : Response :=
  {| data := None; error := Some (Js.ErrObject "permission denied") |}.

(** [getTemplates] as a call, and the same call while it waits for the
    collections it requested. *)
Definition call_getTemplates (env : Collaborators) : Prog Value :=
  as_value VTemplates (getTemplates env).

Definition mergingTemplates (env : Collaborators) (freeCustomer : bool)
  (templateCollections : list nat) : Prog Value :=
  as_value VTemplates
    (try_catch (getTemplates_merge env freeCustomer templateCollections)
       (getTemplates_catch env)).

(** The creation dates of a collection are valid: those that are set
    parse to a time value. *)
Definition validDates (env : Collaborators) (c : Collection) : Prop :=
  forall key r s,
    Js.get key c = Some r ->
    row_created_datetime r = Some s ->
    exists z, new_Date_string env s = Js.Num z.

(** The creation date of a template as the store has it: the time
    value of the [created_datetime] of the record it was built from;
    a record without one counts as created at the epoch. *)
Definition creationDate (env : Collaborators) (t : Template) : Js.Date :=
  match row_created_datetime (row (parsed t)) with
  | Some s => new_Date_string env s
  | None => Js.Num 0
  end.

(** [a] was not created after [b]; an invalid date is in no order with
    any other. *)
Definition notLater (env : Collaborators) (a b : Template) : Prop :=
  match creationDate env a, creationDate env b with
  | Js.Num x, Js.Num y => x <= y
  | _, _ => False
  end.

(** The specification of the free-plan list: ascending by creation
    date. *)
Definition sortedByCreation (env : Collaborators) (templates : list Template)
  : Prop :=
  StronglySorted (notLater env) templates.

(** The specification of the merge: for an id present in several of
    the three collections, the record of the earliest one is kept. *)
Definition merge_keeps_earlier (owned shared everyone : Collection) : Prop :=
  forall key r,
    (Js.get key owned = Some r ->
     Js.get key (mergeTemplates [owned; shared; everyone]) = Some r)
    /\ (Js.get key owned = None -> Js.get key shared = Some r ->
        Js.get key (mergeTemplates [owned; shared; everyone]) = Some r).

(** One full [getTemplates()] of the signed-in sample user, whose
    collections are all cached: the user, the session, the live user,
    the [users] and [customers] collections, then the requested
    template collections. *)
Definition templatesOfPaidUser : option World :=
  run sampleCollaborators (sampleWorld "pro")
    [Invoke (call_getTemplates sampleCollaborators);
     Complete 0%nat; Complete 0%nat; Complete 0%nat; Complete 0%nat;
     Complete 0%nat;
     Complete 1%nat; Complete 2%nat; Complete 3%nat].

Definition templatesOfFreeUser : option World :=
  run sampleCollaborators (sampleWorld "free")
    [Invoke (call_getTemplates sampleCollaborators);
     Complete 0%nat; Complete 0%nat; Complete 0%nat; Complete 0%nat;
     Complete 0%nat;
     Complete 1%nat].

(** Thirty-two owned templates, created one minute apart and stored
    newest first: [t31], created at 09:31, down to [t00], created at
    09:00. *)
Definition twoDigits (n : nat) : string :=
  String (ascii_of_nat (48 + n / 10))
    (String (ascii_of_nat (48 + n mod 10)) EmptyString).

Definition agedRow (n : nat) : string * Row :=
  ("t" ++ twoDigits n,
   sampleRow ("t" ++ twoDigits n) "mine"
     (Some ("2024-03-01T09:" ++ twoDigits n ++ ":00.000Z"))).

Definition agedTemplates : Collection := map agedRow (rev (seq 0 32)).

(** One full [getTemplates()] of a free-plan user who owns them. *)
Definition templatesOfLongTimeUser : option World :=
  run isoCollaborators
    (boot (set_collections [(templatesOwned, Some agedTemplates)]
             (sampleStorage "free" sampleStats))
          (Some "u1") 1000)
    [Invoke (call_getTemplates isoCollaborators);
     Complete 0%nat; Complete 0%nat; Complete 0%nat; Complete 0%nat;
     Complete 0%nat;
     Complete 1%nat].

(** Three owned templates: [c] of 2024, [x] whose creation date is the
    empty string, and [a] of 2020. *)
Definition misdatedTemplates : Collection :=
  [("c", sampleRow "c" "third" (Some "2024-03-01T09:30:00.000Z"));
   ("x", sampleRow "x" "undated" (Some ""));
   ("a", sampleRow "a" "first" (Some "2020-03-01T09:30:00.000Z"))].

Definition templatesOfMisdatedUser : option World :=
  run isoCollaborators
    (boot (set_collections [(templatesOwned, Some misdatedTemplates)]
             (sampleStorage "free" sampleStats))
          (Some "u1") 1000)
    [Invoke (call_getTemplates isoCollaborators);
     Complete 0%nat; Complete 0%nat; Complete 0%nat; Complete 0%nat;
     Complete 0%nat;
     Complete 1%nat].

(** [logout] and [getSignedInUser] as calls. *)
Definition call_logout : Prog Value := as_value VBool logout.

Definition call_getSignedInUser : Prog Value := as_value VUser getSignedInUser.

(** [clearDataCache()] as [logout] starts it, without awaiting it. *)
Definition clearing : Prog Value :=
  as_value (fun _ : unit => VUndefined) clearDataCache.

(** After [logout] has written the empty user and started
    [clearDataCache], two functions are left to run: [logout] itself,
    which has one storage write to wait for, and [clearDataCache] with
    its three requests.  These are the orders in which their requests
    can complete. *)
Definition logoutSchedules (n : nat) : list (list Event) :=
  [[Complete n; Complete (S n); Complete (S n); Complete (S n)];
   [Complete (S n); Complete n; Complete (S n); Complete (S n)];
   [Complete (S n); Complete (S n); Complete n; Complete (S n)];
   [Complete (S n); Complete (S n); Complete (S n); Complete n]].

(** Every collection cache entry is empty. *)
Definition cachesEmpty (w : World) : Prop :=
  forall c, cache (storage w) c = None.

(** The signed-in sample user logs out; the requests complete in the
    order they were sent, up to the moment [logout()] resolves. *)
Definition loggedOut : option World :=
  run sampleCollaborators (sampleWorld "free")
    [Invoke call_logout; Complete 0%nat; Complete 0%nat;
     Complete 1%nat; Complete 0%nat].

(** [refetchCollections] after the cache entries are reset, at a point
    [resolution] of the user resolution; it starts at
    [getSignedInUser]. *)
Definition refetchingAfter (toClear : list CollectionName) (resolution : Prog User)
  : Prog Value :=
  pending <-
    try_catch
      (promises <- (user <- resolution ;; refetchCollections_plan toClear user) ;;
       Return (Some promises))
      refetchCollections_catch ;;
  refetchCollections_return pending.

(** Whether a collection is among those to clear. *)
Definition cleared (c : CollectionName) (toClear : list CollectionName) : bool :=
  existsb (CollectionName_eqb c) toClear.

(** The specification on a logged-out refetch: the stored collections
    are what they were. *)
Definition cachesUnchanged (before after : World) : Prop :=
  forall c, cache (storage after) c = cache (storage before) c.

(** Nobody is signed in, but the collections of an earlier session are
    still cached. *)
Definition signedOutWithCache : World :=
  boot (set_user None (sampleStorage "free" sampleStats)) None 1000.

(** [refetchCollections()] there, to its end: the cache entries are
    reset, then the stored user, the session and the live user are
    read. *)
Definition refetchedSignedOut : option World :=
  run sampleCollaborators signedOutWithCache
    [Invoke (refetchCollections []);
     Complete 0%nat; Complete 0%nat; Complete 0%nat; Complete 0%nat].

(* ================================================================== *)
(** ** Further functions of the sources *)

(** [isCached] *)
Definition isCached : Prog bool :=
  cached <- await (storage_get_collection templatesOwned) ;;
  match cached with
  | Some _ => Return true
  | None => Return false
  end.

(** [isCached] and [getTags] as calls. *)
Definition call_isCached : Prog Value := as_value VBool isCached.

Definition call_getTags (env : Collaborators) : Prog Value :=
  as_value VTags (getTags env).

(** The decision of [getSignedInUser] once the stored user and the
    live user are known. *)
Definition getSignedInUser_resolve (storedUser : option User)
  (firebaseUser : option string) : Prog User :=
  match firebaseUser, storedUser with
  | Some fid, Some user =>
      if String.eqb (user_id user) fid
      then
        customer <- getActiveCustomer user ;;
        (if truthy (user_customer user) && negb (same (user_customer user) customer)
         then p <- start (as_value (fun _ => VUndefined) (setActiveCustomer customer)) ;;
              Return tt
         else Return tt) ;;
        Return {| user_id := user_id user; user_customer := customer |}
      else Throw LOGGED_OUT_ERR
  | Some _, None => Throw LOGGED_OUT_ERR
  | None, Some _ =>
      sync (badgeUpdate false) ;;
      start (as_value (fun _ => VUndefined) clearDataCache) ;;
      setSignedInUser None ;;
      sync (trigger "logout") ;;
      Throw LOGGED_OUT_ERR
  | None, None => Throw LOGGED_OUT_ERR
  end.

(** [config.js]: the configuration object, a map from property names
    to strings, for the build-time globals [ENV] and [VERSION]. *)
Module Config.

Definition defaults (VERSION : string) : Js.Obj string :=
  [("version", VERSION);
   ("websiteUrl", "https://www.philip.lol");
   ("functionsUrl", "https://app.philip.lol");
   ("helpUrl", "https://help.briskine.com/");
   ("dashboardTarget", "gt-dashboard");
   ("eventDestroy", "briskine-destroy");
   ("eventStatus", "briskine-status");
   ("eventSandboxCompile", "briskine-template-compile");
   ("eventShowDialog", "briskine-dialog");
   ("eventInsertTemplate", "briskine-insert-template")].

Definition staging : Js.Obj string :=
  [("functionsUrl", "https://staging.app.philip.lol")].

Definition production : Js.Obj string :=
  [("websiteUrl", "https://www.philip.lol");
   ("functionsUrl", "https://app.philip.lol")].

Definition Config (ENV VERSION : string) : Js.Obj string :=
  let Config := defaults VERSION in
  let Config :=
    if String.eqb ENV "staging" then Js.assign Config [staging] else Config in
  let Config :=
    if String.eqb ENV "production" then Js.assign Config [production] else Config in
  Config.

End Config.

(* ================================================================== *)
(** ** States and schedules of the further properties *)

(** The rows of a response: [res.data || []]. *)
Definition rowsOf (res : Response) : list Row :=
  match data res with
  | Some rows => rows
  | None => []
  end.

(** [updateCache] as the request of a collection runs it. *)
Definition updatingCache (c : CollectionName) (rows : Collection) : Prog Value :=
  as_value VCollection (updateCache c rows).

(** A response with two tags. *)
Definition sampleTagsResponse : Response :=
  {| data := Some [sampleRow "g1" "work" None; sampleRow "g2" "home" None];
     error := None |}.

(** The process of the signed-in sample user with two tags cached. *)
Definition taggedWorld : World :=
  boot (set_collections
          [(tags, Some [("g1", sampleRow "g1" "work" None);
                        ("g2", sampleRow "g2" "home" None)])]
          (sampleStorage "free" sampleStats))
       (Some "u1") 1000.

(** The session [loadSession] restores: the stored one when it has an
    access token, unless the session was loaded before. *)
Definition sessionToRestore (w : World) : option Session :=
  if _sessionLoaded w then None
  else match supabaseSession (storage w) with
       | Some s => if truthy (access_token s) then Some s else None
       | None => None
       end.

(** The user the auth client reports once [loadSession] has run. *)
Definition liveUser (w : World) : option string :=
  match sessionToRestore w with
  | Some s =>
      match session_user s with
      | Some u => Some u
      | None => currentUser w
      end
  | None => currentUser w
  end.

(** The requests the call behind [task] waits for, one after the other,
    while [getSignedInUser] resolves the identity: the stored user, the
    stored session unless it was loaded before, the restore of a
    session that has an access token, and the live user. *)
Definition identityEvents (w : World) (task : nat) : list Event :=
  Complete task
  :: (if _sessionLoaded w then []
      else Complete task
           :: match sessionToRestore w with
              | Some _ => [Complete task]
              | None => []
              end)
  ++ [Complete task].

(** What surrounds a call inside an asynchronous function: the code
    that goes on with its result ([bind]) and the handlers around it
    ([try_catch]).  The surroundings do nothing until the call returns
    or throws. *)
Record Surroundings (A B : Type) (F : Prog A -> Prog B) : Prop := {
  around_Sync : forall (X : Type) (o : Access X) (k : X -> Prog A),
    F (Sync o k) = Sync o (fun x => F (k x));
  around_Await : forall (X : Type) (o : Request X) (k : X -> Prog A),
    F (Await o k) = Await o (fun x => F (k x));
  around_Start : forall (child : Prog Value) (k : nat -> Prog A),
    F (Start child k) = Start child (fun p => F (k p));
  around_Join : forall (promise : nat) (k : Outcome Value -> Prog A),
    F (Join promise k) = Join promise (fun o => F (k o));
  around_JoinAll : forall (promises : list nat) (k : Outcome (list Value) -> Prog A),
    F (JoinAll promises k) = JoinAll promises (fun o => F (k o))
}.

(** The identity does not resolve and there is nothing to clean up:
    nobody is stored as signed in, or the stored user is not the one
    the auth client reports. *)
Definition otherIdentity (w : World) : Prop :=
  match firebaseUser (storage w), liveUser w with
  | Some user, Some live => user_id user <> live
  | Some _, None => False
  | None, _ => True
  end.

(** A process in which the stored user is not the live one. *)
Definition otherAccountWorld : World :=
  boot (sampleStorage "free" sampleStats) (Some "u2") 1000.

(** A process whose stored user has no live session any more. *)
Definition expiredWorld : World :=
  boot (sampleStorage "free" sampleStats) None 1000.

(** The test of [getSignedInUser] for a stored customer that is not
    the active one any more. *)
Definition customerChanged (user : User) (customer : option string) : bool :=
  truthy (user_customer user) && negb (same (user_customer user) customer).

(** [setActiveCustomer(customer)] as [getSignedInUser] starts it,
    without awaiting it. *)
Definition changingCustomer (customer : option string) : Prog Value :=
  as_value (fun _ : unit => VUndefined) (setActiveCustomer customer).

(** The signed-in user [getSignedInUser] resolves with. *)
Definition signedInAs (user : User) (customer : option string) : User :=
  {| user_id := user_id user; user_customer := customer |}.

(** The process of a signed-in user whose customer is not among the
    cached customers. *)
Definition unknownCustomerWorld : World :=
  boot (set_collections [(customers, Some [])] (sampleStorage "free" sampleStats))
       (Some "u1") 1000.

(** The collections [setActiveCustomer] refetches. *)
Definition customerCollections : list CollectionName :=
  [templatesOwned; templatesShared; templatesEveryone; tags].

(** [loadSession] as a call. *)
Definition loadingSession : Prog Value :=
  as_value (fun _ : unit => VUndefined) loadSession.

(** The requests [loadSession] waits for. *)
Definition sessionEvents (w : World) (task : nat) : list Event :=
  if _sessionLoaded w then []
  else Complete task
       :: match sessionToRestore w with
          | Some _ => [Complete task]
          | None => []
          end.

(** A stored session of the sample user. *)
Definition sampleSession : Session :=
  {| access_token := Some "token"; session_user := Some "u1" |}.

(** The world after [getCollection] was called for each collection of
    a list, none of which has a request in progress: every call waits
    for its storage read. *)
Fixpoint startedReading (cs : list CollectionName) (user : User) (w : World)
  : World :=
  match cs with
  | [] => w
  | c :: cs' =>
      startedReading cs' user
        (suspend (nextPromise w) (readingCache c user) (fresh w))
  end.

(** The collections [refetchCollections] fetches again. *)
Definition collectionsToRefetch (free : bool) (toClear : list CollectionName)
  : list CollectionName :=
  if free then withoutShared toClear else toClear.

(** The process of the signed-in sample user after the collections of
    [setActiveCustomer] were reset by [refetchCollections]. *)
Definition refetchingCustomerData (plan : string) : World :=
  the (run sampleCollaborators (sampleWorld plan)
         [Invoke (refetchCollections customerCollections); Complete 0%nat]).

(** A signed-out process without cache in which the owned templates
    are being fetched: promise 0 is the caller, promise 1 the request. *)
Definition fetchingOwnedTemplates : option World :=
  run sampleCollaborators signedOutWorld
    [Invoke (call_getCollection templatesOwned sampleUser); Complete 0%nat].

(** The response for an account that has no rows. *)
Definition noRows : Response := {| data := Some []; error := None |}.

(** The collections [getTemplates] requests. *)
Definition templateCollections (freeCustomer : bool) : list CollectionName :=
  if freeCustomer then [templatesOwned]
  else [templatesOwned; templatesShared; templatesEveryone].

(** The completion of the storage reads of the calls started from
    promise [first] on, in the order they were started. *)
Definition readsFrom (first : nat) (cs : list CollectionName) : list Event :=
  map Complete (seq first (List.length cs)).

(* ================================================================== *)
(** ** Properties of the JavaScript fragment *)

Module JsFacts.
Import Js.

Section Objects.
Variable V : Type.
Implicit Types (o target source : Obj V) (k : string).

Lemma get_set k k' (v : V) o :
  get k (set k' v o) = if String.eqb k k' then Some v else get k o.
Proof.
  induction o as [|[k0 v0] o IH]; simpl.
  - destruct (String.eqb k k'); reflexivity.
  - destruct (String.eqb k' k0) eqn:E0; simpl.
    + apply String.eqb_eq in E0; subst k0.
      destruct (String.eqb k k'); reflexivity.
    + destruct (String.eqb k k0) eqn:E1.
      * apply String.eqb_eq in E1; subst k0.
        rewrite String.eqb_sym, E0. reflexivity.
      * exact IH.
Qed.

Lemma get_in_keys k o : In k (keys o) <-> get k o <> None.
Proof.
  induction o as [|[k0 v0] o IH]; simpl.
  - split; [contradiction | congruence].
  - destruct (String.eqb k k0) eqn:E.
    + apply String.eqb_eq in E; subst. split; [congruence | auto].
    + apply String.eqb_neq in E. rewrite <- IH. split.
      * intros [H|H]; [congruence | exact H].
      * auto.
Qed.

(** Copying a list of keys from [source]. *)
Lemma get_copy_keys k source (ks : list string) target :
  get k (fold_left (fun t k' => match get k' source with
                                | Some v => set k' v t
                                | None => t
                                end) ks target)
  = if existsb (String.eqb k) ks
    then match get k source with Some v => Some v | None => get k target end
    else get k target.
Proof.
  revert target. induction ks as [|k0 ks IH]; intros target; simpl.
  - reflexivity.
  - rewrite IH. destruct (String.eqb k k0) eqn:E; simpl.
    + apply String.eqb_eq in E; subst k0.
      destruct (get k source) as [v|] eqn:G.
      * rewrite get_set, String.eqb_refl.
        destruct (existsb (String.eqb k) ks); reflexivity.
      * destruct (existsb (String.eqb k) ks); reflexivity.
    + destruct (get k0 source) as [v|] eqn:G.
      * rewrite get_set, E. reflexivity.
      * reflexivity.
Qed.

(** A property copied from a source shadows the target's. *)
Lemma get_assign1 k target source :
  get k (assign1 target source)
  = match get k source with
    | Some v => Some v
    | None => get k target
    end.
Proof.
  unfold assign1. rewrite get_copy_keys.
  destruct (existsb (String.eqb k) (keys source)) eqn:E.
  - reflexivity.
  - destruct (get k source) as [v|] eqn:G; [|reflexivity].
    assert (In k (keys source)) as Hin by (apply get_in_keys; congruence).
    assert (existsb (String.eqb k) (keys source) = true) as E'.
    { apply existsb_exists. exists k. split; [exact Hin | apply String.eqb_refl]. }
    congruence.
Qed.

Lemma assign_cons target source (sources : list (Obj V)) :
  assign target (source :: sources) = assign (assign1 target source) sources.
Proof. reflexivity. Qed.

End Objects.

(** The parser on the epoch, on a date of 2024, on the empty string
    and on a 29 February that does not exist. *)
Example parseISO_samples :
  parseISO "1970-01-01T00:00:00.000Z" = Num 0
  /\ parseISO "2024-03-01T09:30:00.000Z" = Num 1709285400000
  /\ parseISO "" = NaN
  /\ parseISO "2023-02-29T00:00:00.000Z" = NaN.
Proof. repeat split; vm_compute; reflexivity. Qed.

(** Safe integers add and subtract exactly. *)
Lemma roundInteger_safe (z : Z) :
  isSafeInteger z = true -> roundInteger z = Num z.
Proof.
  unfold isSafeInteger, MAX_SAFE_INTEGER, roundInteger. intros H.
  apply Z.leb_le in H.
  change (2 ^ 53) with 9007199254740992.
  destruct (Z.abs z <=? 9007199254740992) eqn:E; [reflexivity|].
  apply Z.leb_gt in E. lia.
Qed.

(** Rounding keeps the sign. *)
Lemma roundInteger_positive (z : Z) :
  gt (roundInteger z) (Num 0) = (0 <? z).
Proof.
  unfold roundInteger.
  change (2 ^ 53) with 9007199254740992.
  destruct (Z.abs z <=? 9007199254740992) eqn:E; [reflexivity|].
  apply Z.leb_gt in E.
  remember (2 ^ 1024) as huge eqn:Hhuge.
  remember (Z.abs z) as m eqn:Hm.
  assert (53 <= Z.log2 m) as Hlog.
  { change 53 with (Z.log2 9007199254740992). apply Z.log2_le_mono. lia. }
  remember (2 ^ (Z.log2 m - 52)) as ulp eqn:Hulp.
  assert (0 < ulp) as Hpos by (subst ulp; apply Z.pow_pos_nonneg; lia).
  assert (ulp <= m) as Hle.
  { transitivity (2 ^ Z.log2 m).
    - subst ulp. apply Z.pow_le_mono_r; lia.
    - apply Z.log2_spec. lia. }
  assert (1 <= m / ulp) as Hq by (apply Z.div_le_lower_bound; lia).
  remember (m / ulp) as q eqn:Hqd.
  remember (if 2 * (m mod ulp) <? ulp then q
            else if ulp <? 2 * (m mod ulp) then q + 1
                 else if Z.even q then q else q + 1) as q' eqn:Hq'.
  assert (1 <= q') as Hq1.
  { subst q'. destruct (2 * (m mod ulp) <? ulp); [lia|].
    destruct (ulp <? 2 * (m mod ulp)); [lia|].
    destruct (Z.even q); lia. }
  assert (0 < q' * ulp) as Hprod by (apply Z.mul_pos_pos; lia).
  remember (q' * ulp) as rounded eqn:Hr.
  destruct (huge <=? rounded).
  - destruct (z <? 0) eqn:Hneg; simpl; symmetry.
    + apply Z.ltb_lt in Hneg. apply Z.ltb_ge. lia.
    + apply Z.ltb_ge in Hneg. apply Z.ltb_lt. lia.
  - simpl. destruct (Z.ltb_spec 0 z) as [Hz|Hz].
    + apply Z.ltb_lt. rewrite Z.sgn_pos by exact Hz. lia.
    + apply Z.ltb_ge. assert (z < 0) as Hz' by lia.
      rewrite Z.sgn_neg by exact Hz'. lia.
Qed.

Lemma add_safe (a b : Z) :
  isSafeInteger (a + b) = true -> add (Num a) (Num b) = Num (a + b).
Proof. intros H. simpl. apply roundInteger_safe, H. Qed.

Lemma sub_safe (a b : Z) :
  isSafeInteger (a - b) = true -> sub (Num a) (Num b) = Num (a - b).
Proof. intros H. simpl. apply roundInteger_safe, H. Qed.

(** A difference is positive exactly when its first operand is the
    greater, rounded or not. *)
Lemma sub_positive (a b : Z) :
  gt (sub (Num a) (Num b)) (Num 0) = (b <? a).
Proof.
  simpl. rewrite roundInteger_positive.
  destruct (Z.ltb_spec b a); [apply Z.ltb_lt | apply Z.ltb_ge]; lia.
Qed.

Section Sorting.
Variable A : Type.
Variable comparefn : A -> A -> Number.

Lemma insert_In (x y : A) (l : list A) :
  In y (insert comparefn x l) <-> y = x \/ In y l.
Proof.
  induction l as [|z l IH]; simpl.
  - intuition.
  - destruct (after comparefn x z); simpl; rewrite ?IH; intuition.
Qed.

Lemma sort_In (y : A) (l : list A) : In y (sort comparefn l) <-> In y l.
Proof.
  induction l as [|x l IH]; simpl.
  - reflexivity.
  - rewrite insert_In, IH. intuition.
Qed.

Lemma insert_length (x : A) (l : list A) :
  List.length (insert comparefn x l) = S (List.length l).
Proof.
  induction l as [|z l IH]; simpl.
  - reflexivity.
  - destruct (after comparefn x z); simpl; [rewrite IH|]; reflexivity.
Qed.

Lemma sort_length (l : list A) : List.length (sort comparefn l) = List.length l.
Proof.
  induction l as [|x l IH]; simpl.
  - reflexivity.
  - rewrite insert_length, IH. reflexivity.
Qed.

(** When the comparator puts [x] after [y] exactly when the key of [x]
    is the greater, on the elements at hand, the sort orders them by
    key. *)
Variable key : A -> Z.

Definition by_key (l : list A) : Prop :=
  forall x y, In x l -> In y l -> after comparefn x y = (key y <? key x).

Lemma insert_sorted (x : A) (l : list A) :
  by_key (x :: l) ->
  StronglySorted (fun a b => key a <= key b) l ->
  StronglySorted (fun a b => key a <= key b) (insert comparefn x l).
Proof.
  intros Hk Hs. induction Hs as [|z l Hs IH Hz]; simpl.
  - constructor; constructor.
  - rewrite (Hk x z) by (simpl; auto).
    destruct (key z <? key x) eqn:E.
    + apply Z.ltb_lt in E. constructor.
      * apply IH. intros a b Ha Hb. apply Hk; simpl in *; intuition.
      * apply Forall_forall. intros y Hy. apply insert_In in Hy.
        destruct Hy as [->|Hy]; [lia|].
        rewrite Forall_forall in Hz. apply Hz, Hy.
    + apply Z.ltb_ge in E. constructor.
      * constructor; assumption.
      * constructor; [lia|].
        rewrite Forall_forall in Hz |- *. intros y Hy.
        specialize (Hz y Hy). lia.
Qed.

Lemma sort_sorted (l : list A) :
  by_key l -> StronglySorted (fun a b => key a <= key b) (sort comparefn l).
Proof.
  induction l as [|x l IH]; intros Hk; simpl.
  - constructor.
  - apply insert_sorted.
    + intros a b Ha Hb. apply Hk.
      * destruct Ha as [Ha|Ha]; [left; exact Ha | right; apply (proj1 (sort_In a l)), Ha].
      * destruct Hb as [Hb|Hb]; [left; exact Hb | right; apply (proj1 (sort_In b l)), Hb].
    + apply IH. intros a b Ha Hb. apply Hk; right; assumption.
Qed.

End Sorting.

Lemma firstn_In (A : Type) (y : A) (n : nat) (l : list A) :
  In y (firstn n l) -> In y l.
Proof.
  revert n. induction l as [|x l IH]; intros [|n]; simpl; try contradiction.
  intros [H|H]; [left; exact H | right; eapply IH, H].
Qed.

Lemma firstn_sorted (A : Type) (R : A -> A -> Prop) (n : nat) (l : list A) :
  StronglySorted R l -> StronglySorted R (firstn n l).
Proof.
  intros Hs. revert n. induction Hs as [|x l Hs IH Hx]; intros [|n]; simpl;
    try constructor.
  - apply IH.
  - rewrite Forall_forall in Hx |- *. intros y Hy.
    apply Hx. eapply firstn_In, Hy.
Qed.

(** [split] returns one piece more than there are separators. *)
Lemma split_length (c : ascii) (s : string) :
  List.length (split c s) = S (occurrences c s).
Proof.
  induction s as [|a s IH]; simpl.
  - reflexivity.
  - destruct (Ascii.eqb a c); simpl.
    + rewrite IH. reflexivity.
    + destruct (split c s); simpl in *; [discriminate | exact IH].
Qed.

End JsFacts.

(* ================================================================== *)
(** ** Reasoning about the event loop *)

Section LookupFacts.
Variable A : Type.

Lemma lookup_head (p : nat) (a : A) (l : list (nat * A)) :
  lookup p ((p, a) :: l) = Some a.
Proof. simpl. rewrite Nat.eqb_refl. reflexivity. Qed.

Lemma discard_head (p : nat) (a : A) (l : list (nat * A)) :
  discard p ((p, a) :: l) = l.
Proof. simpl. rewrite Nat.eqb_refl. reflexivity. Qed.

Lemma lookup_skip (p q : nat) (a : A) (l : list (nat * A)) :
  p <> q -> lookup p ((q, a) :: l) = lookup p l.
Proof.
  intros Hpq. simpl. destruct (Nat.eqb p q) eqn:E.
  - apply Nat.eqb_eq in E. contradiction.
  - reflexivity.
Qed.

Lemma discard_skip (p q : nat) (a : A) (l : list (nat * A)) :
  p <> q -> discard p ((q, a) :: l) = (q, a) :: discard p l.
Proof.
  intros Hpq. simpl. destruct (Nat.eqb p q) eqn:E.
  - apply Nat.eqb_eq in E. contradiction.
  - reflexivity.
Qed.

Lemma lookup_discard (p q : nat) (l : list (nat * A)) :
  p <> q -> lookup p (discard q l) = lookup p l.
Proof.
  intros Hpq. induction l as [|[r a] l IH]; simpl.
  - reflexivity.
  - destruct (Nat.eqb q r) eqn:Eq.
    + apply Nat.eqb_eq in Eq; subst r.
      destruct (Nat.eqb p q) eqn:Ep; [|reflexivity].
      apply Nat.eqb_eq in Ep. contradiction.
    + simpl. destruct (Nat.eqb p r); [reflexivity | exact IH].
Qed.
End LookupFacts.

Section Equations.
Variable env : Collaborators.

Lemma resume_eq (p : nat) (body : Prog Value) (w : World) :
  resume env p body w
  = park p (fst (advance env body w)) (snd (advance env body w)).
Proof. unfold resume. destruct (advance env body w). reflexivity. Qed.

Lemma advance_Return (A : Type) (a : A) (w : World) :
  advance env (Return a) w = (Finished (Resolved a), w).
Proof. reflexivity. Qed.

Lemma advance_Throw (A : Type) (e : Js.Error) (w : World) :
  advance env (@Throw A e) w = (Finished (Rejected e), w).
Proof. reflexivity. Qed.

Lemma advance_Sync (A X : Type) (o : Access X) (k : X -> Prog A) (w : World) :
  advance env (Sync o k) w
  = advance env (k (fst (access env o w))) (snd (access env o w)).
Proof. simpl. destruct (access env o w). reflexivity. Qed.

Lemma advance_Await (A X : Type) (o : Request X) (k : X -> Prog A) (w : World) :
  advance env (Await o k) w = (Suspended (Await o k), issue o w).
Proof. reflexivity. Qed.

Lemma advance_Start_suspended (A : Type) (child : Prog Value) (k : nat -> Prog A)
  (w : World) (body : Prog Value) (w' : World) :
  advance env child (fresh w) = (Suspended body, w') ->
  advance env (Start child k) w
  = advance env (k (nextPromise w)) (suspend (nextPromise w) body w').
Proof. intros H. simpl. rewrite H. reflexivity. Qed.

Lemma advance_Start_finished (A : Type) (child : Prog Value) (k : nat -> Prog A)
  (w : World) (o : Outcome Value) (w' : World) :
  advance env child (fresh w) = (Finished o, w') ->
  advance env (Start child k) w
  = advance env (k (nextPromise w)) (settle (nextPromise w) o w').
Proof. intros H. simpl. rewrite H. reflexivity. Qed.

Lemma advance_Join (A : Type) (p : nat) (k : Outcome Value -> Prog A) (w : World) :
  advance env (Join p k) w
  = match lookup p (settled w) with
    | Some o => advance env (k o) w
    | None => (Suspended (Join p k), w)
    end.
Proof. reflexivity. Qed.

Lemma advance_JoinAll (A : Type) (ps : list nat)
  (k : Outcome (list Value) -> Prog A) (w : World) :
  advance env (JoinAll ps k) w
  = match gather ps (settled w) with
    | Some o => advance env (k o) w
    | None => (Suspended (JoinAll ps k), w)
    end.
Proof. reflexivity. Qed.

End Equations.

Create Rewrite HintDb machine.
#[global] Hint Rewrite resume_eq advance_Return advance_Throw advance_Sync
  advance_Await advance_Join advance_JoinAll
  lookup_head discard_head : machine.

(** What starting a function of the module does: a database of
    equations [advance env f w = (Suspended f, w')]. *)
Create HintDb starting.

(** Projections of the world and of the store through their updates. *)
Ltac records :=
  cbn [bind try_catch await sync start as_value lift
       join_collection join_collections
       access issue perform local park
       storage collectionRequestQueue lastSearchQuery _sessionLoaded
       currentUser clock deferred trace settled tasks nextPromise
       with_storage with_queue with_lastSearchQuery with_sessionLoaded
       with_currentUser with_clock with_deferred observe settle suspend
       with_tasks fresh
       cache firebaseUser supabaseSession extensionData
       set_collections set_user set_session set_extensionData clearedStorage
       words lastSync templatesLastUsed
       set_words set_lastSync set_templatesLastUsed
       patchExtensionData noExtensionData
       fst snd].

(** Lookups among promises whose identifiers are known to differ. *)
Ltac promises :=
  repeat (rewrite lookup_head || rewrite discard_head
          || (rewrite lookup_skip by lia) || (rewrite discard_skip by lia)).

(** Running a function symbolically up to its next suspension; a
    function started on the way is run first. *)
Ltac machine :=
  repeat (progress (autorewrite with machine; unfold outcome; records;
                    try started))
with started :=
  first [ erewrite advance_Start_suspended
            by solve [ eauto 2 with starting nocore | machine; reflexivity ]
        | erewrite advance_Start_finished
            by solve [ machine; reflexivity ] ].

Unset Implicit Arguments.

(* ================================================================== *)
(** ** Promise identifiers *)

(** Well-formedness only looks at the promises. *)
Lemma wellFormed_same_promises (w w' : World) :
  settled w' = settled w -> tasks w' = tasks w -> nextPromise w' = nextPromise w ->
  wellFormed w -> wellFormed w'.
Proof.
  intros Hs Ht Hn Hwf p Hp. rewrite Hs, Ht. apply Hwf. rewrite <- Hn. exact Hp.
Qed.

Lemma wellFormed_pending (w : World) (task : nat) (body : Prog Value) :
  wellFormed w -> lookup task (tasks w) = Some body -> (task < nextPromise w)%nat.
Proof.
  intros Hwf Ht. destruct (Nat.lt_ge_cases task (nextPromise w)) as [H|H].
  - exact H.
  - destruct (Hwf task H) as [_ Hn]. congruence.
Qed.

Lemma access_promises (env : Collaborators) (X : Type) (o : Access X) (w : World) :
  settled (snd (access env o w)) = settled w
  /\ tasks (snd (access env o w)) = tasks w
  /\ nextPromise (snd (access env o w)) = nextPromise w.
Proof. destruct o; repeat split. Qed.

Lemma issue_promises (X : Type) (o : Request X) (w : World) :
  settled (issue o w) = settled w
  /\ tasks (issue o w) = tasks w
  /\ nextPromise (issue o w) = nextPromise w.
Proof. destruct o; repeat split. Qed.

Lemma perform_promises (X : Type) (o : Request X) (reply : option Response)
  (w w' : World) (x : X) :
  perform o reply w = Some (x, w') ->
  settled w' = settled w /\ tasks w' = tasks w /\ nextPromise w' = nextPromise w.
Proof.
  destruct o; destruct reply as [res|]; simpl; intros H;
    try discriminate; injection H as _ <-;
    try (destruct (session_user s)); repeat split.
Qed.

Lemma lookup_discard_none (A : Type) (p q : nat) (l : list (nat * A)) :
  lookup p l = None -> lookup p (discard q l) = None.
Proof.
  induction l as [|[r a] l IH]; simpl; intros H.
  - reflexivity.
  - destruct (Nat.eqb p r) eqn:Ep; [discriminate|].
    destruct (Nat.eqb q r); simpl.
    + exact H.
    + rewrite Ep. apply IH, H.
Qed.

Lemma park_wellFormed (p : nat) (st : Status Value) (w : World) :
  (p < nextPromise w)%nat -> wellFormed w -> wellFormed (park p st w).
Proof.
  intros Hp Hwf q Hq. destruct (Hwf q) as [Hs Ht].
  - destruct st; exact Hq.
  - destruct st as [o|body]; simpl in *.
    + split; [|exact Ht].
      destruct (Nat.eqb q p) eqn:E; [|exact Hs].
      apply Nat.eqb_eq in E. lia.
    + split; [exact Hs|].
      destruct (Nat.eqb q p) eqn:E; [|exact Ht].
      apply Nat.eqb_eq in E. lia.
Qed.

(** Running a function keeps the promises well formed and hands out
    identifiers in increasing order. *)
Lemma advance_wellFormed (env : Collaborators) (A : Type) (p : Prog A) :
  forall w : World,
    wellFormed w ->
    wellFormed (snd (advance env p w))
    /\ (nextPromise w <= nextPromise (snd (advance env p w)))%nat.
Proof.
  induction p as [A a|A e|A X o k IH|A X o k IH|A child IHchild k IH
                  |A promise k IH|A promises k IH];
    intros w Hwf.
  - split; [exact Hwf | apply Nat.le_refl].
  - split; [exact Hwf | apply Nat.le_refl].
  - rewrite advance_Sync.
    destruct (access_promises env X o w) as [Hs [Ht Hn]].
    destruct (IH (fst (access env o w)) (snd (access env o w))) as [H1 H2].
    + exact (wellFormed_same_promises w _ Hs Ht Hn Hwf).
    + split; [exact H1 | rewrite <- Hn; exact H2].
  - simpl. destruct (issue_promises X o w) as [Hs [Ht Hn]].
    split; [exact (wellFormed_same_promises w _ Hs Ht Hn Hwf) | rewrite Hn; apply Nat.le_refl].
  - simpl. destruct (advance env child (fresh w)) as [st w1] eqn:Echild.
    destruct (IHchild (fresh w)) as [H1 H2].
    + intros q Hq. apply Hwf. simpl in Hq. lia.
    + rewrite Echild in H1, H2. simpl in H1, H2.
      destruct (IH (nextPromise w) (park (nextPromise w) st w1)) as [H3 H4].
      * apply park_wellFormed; [lia | exact H1].
      * split; [exact H3|].
        assert (nextPromise (park (nextPromise w) st w1) = nextPromise w1) as E
          by (destruct st; reflexivity).
        rewrite E in H4. lia.
  - simpl. destruct (lookup promise (settled w)) as [o|].
    + apply IH, Hwf.
    + split; [exact Hwf | apply Nat.le_refl].
  - simpl. destruct (gather promises (settled w)) as [o|].
    + apply IH, Hwf.
    + split; [exact Hwf | apply Nat.le_refl].
Qed.

Lemma resume_wellFormed (env : Collaborators) (p : nat) (body : Prog Value)
  (w : World) :
  (p < nextPromise w)%nat -> wellFormed w -> wellFormed (resume env p body w).
Proof.
  intros Hp Hwf. rewrite resume_eq.
  destruct (advance_wellFormed env Value body w Hwf) as [H1 H2].
  apply park_wellFormed; [lia | exact H1].
Qed.

Lemma invoke_wellFormed (env : Collaborators) (call : Prog Value) (w : World) :
  wellFormed w -> wellFormed (resume env (nextPromise w) call (fresh w)).
Proof.
  intros Hwf. apply resume_wellFormed.
  - simpl. lia.
  - intros q Hq. apply Hwf. simpl in Hq. lia.
Qed.

Lemma discard_wellFormed (task : nat) (w : World) :
  wellFormed w -> wellFormed (with_tasks (discard task (tasks w)) w).
Proof.
  intros Hwf q Hq. destruct (Hwf q Hq) as [Hs Ht]. split.
  - exact Hs.
  - simpl. apply lookup_discard_none, Ht.
Qed.

(** Every event keeps the promises well formed: the hypothesis of the
    properties above holds in every state a process can reach. *)
Lemma step_wellFormed (env : Collaborators) (w w' : World) (e : Event) :
  wellFormed w -> step env w e = Some w' -> wellFormed w'.
Proof.
  intros Hwf Hstep.
  assert (forall task reply, completes env task reply w = Some w' -> wellFormed w')
    as Hcompletes.
  { intros task reply H. unfold completes in H.
    destruct (lookup task (tasks w)) as [body|] eqn:Ht; [|discriminate].
    destruct body as [| |X o k|X o k| | |]; try discriminate.
    destruct (perform o reply (with_tasks (discard task (tasks w)) w))
      as [[x w1]|] eqn:Hp; [|discriminate].
    injection H as <-.
    destruct (perform_promises X o reply _ _ x Hp) as [Hs [Htk Hn]].
    apply resume_wellFormed.
    - rewrite Hn. simpl. exact (wellFormed_pending w task _ Hwf Ht).
    - apply (wellFormed_same_promises (with_tasks (discard task (tasks w)) w));
        [exact Hs | exact Htk | exact Hn | apply discard_wellFormed, Hwf]. }
  destruct e as [call|task|task res|task| |t|session]; simpl in Hstep.
  - injection Hstep as <-. apply invoke_wellFormed, Hwf.
  - exact (Hcompletes task None Hstep).
  - exact (Hcompletes task (Some res) Hstep).
  - destruct (lookup task (tasks w)) as [body|] eqn:Ht; [|discriminate].
    destruct body as [| | | | |promise k|promises k]; try discriminate.
    + destruct (lookup promise (settled w)) as [o|]; [|discriminate].
      injection Hstep as <-. apply resume_wellFormed.
      * simpl. exact (wellFormed_pending w task _ Hwf Ht).
      * apply discard_wellFormed, Hwf.
    + destruct (gather promises (settled w)) as [o|]; [|discriminate].
      injection Hstep as <-. apply resume_wellFormed.
      * simpl. exact (wellFormed_pending w task _ Hwf Ht).
      * apply discard_wellFormed, Hwf.
  - destruct (deferred w) as [|names rest]; [discriminate|].
    injection Hstep as <-.
    apply (invoke_wellFormed env (refetchCollections names) (with_deferred rest w)).
    exact Hwf.
  - injection Hstep as <-. exact Hwf.
  - injection Hstep as <-.
    apply (invoke_wellFormed env _ (with_currentUser _ w)). exact Hwf.
Qed.

Lemma boot_wellFormed (s : Storage) (live : option string) (t : Z) :
  wellFormed (boot s live t).
Proof. intros p _. split; reflexivity. Qed.

(** Every state reached from a fresh process is well formed. *)
Theorem run_wellFormed (env : Collaborators) (events : list Event) :
  forall w w' : World,
    wellFormed w -> run env w events = Some w' -> wellFormed w'.
Proof.
  induction events as [|e events IH]; intros w w' Hwf Hrun; simpl in Hrun.
  - injection Hrun as <-. exact Hwf.
  - destruct (step env w e) as [w1|] eqn:Hstep; [|discriminate].
    exact (IH w1 w' (step_wellFormed env w w1 e Hwf Hstep) Hrun).
Qed.

(* ================================================================== *)
(** ** [autosync] *)

(** An invalid [lastSync] date is never past the timeout. *)
Lemma syncDue_undefined (now : Z) (data : ExtensionData) (timeout : Js.Number) :
  lastSync data = Js.Undefined -> syncDue now data timeout = false.
Proof.
  intros H. unfold syncDue. rewrite H. simpl.
  destruct (Z.abs now <=? Js.maxTime); reflexivity.
Qed.

(** C3, as the code has it.  For every timeout and at every time, when
    the extension data has no [lastSync] value, [autosync] resolves
    with [undefined] and changes nothing else: no cache entry is reset
    and no function is started, so [refetchCollections] is not called.
    ([new Date(undefined)] is an invalid date, and the comparison of
    NaN with the timeout is false.) *)
Theorem autosync_without_lastSync_returns :
  forall (env : Collaborators) (w : World) (task : nat) (timeout : Js.Number),
    lookup task (tasks w) = Some (autosync timeout) ->
    lastSync (extensionData (storage w)) = Js.Undefined ->
    step env w (Complete task)
    = Some (settle task (Resolved VUndefined)
              (with_tasks (discard task (tasks w)) w)).
Proof.
  intros env w task timeout Ht Hl.
  unfold step, completes. rewrite Ht. unfold autosync. machine.
  rewrite syncDue_undefined by exact Hl. machine. reflexivity.
Qed.

Lemma autosync_without_lastSync_returns_witness :
  step sampleCollaborators neverSynced (Complete 0%nat)
  = Some (settle 0%nat (Resolved VUndefined)
            (with_tasks (discard 0%nat (tasks neverSynced)) neverSynced)).
Proof.
  apply (autosync_without_lastSync_returns sampleCollaborators neverSynced 0%nat
           (Js.Num defaultSyncTimeout)); reflexivity.
Defined.

(** C3 as the specification states it fails: with no [lastSync], the
    default timeout and a full cache, the call resolves at once, the
    cached templates are still there, and the call does not continue
    with [refetchCollections()]. *)
Lemma autosync_without_lastSync_no_refetch :
  (exists w',
     step sampleCollaborators neverSynced (Complete 0%nat) = Some w'
     /\ outcome 0%nat w' = Some (Resolved VUndefined)
     /\ tasks w' = []
     /\ cache (storage w') templatesOwned
        = Some [("t1", sampleRow "t1" "mine" (Some "20"))])
  /\ ~ autosync_refetches sampleCollaborators neverSynced 0%nat.
Proof.
  split.
  - eexists. repeat split; vm_compute; reflexivity.
  - intros [w' [Hstep Htask]].
    vm_compute in Hstep. injection Hstep as <-.
    vm_compute in Htask. discriminate.
Qed.

(** The statement is met when there is a [lastSync] older than the
    timeout. *)
Example autosync_stale_refetches :
  autosync_refetches sampleCollaborators staleSync 0%nat.
Proof. eexists. split; reflexivity. Qed.

(* ================================================================== *)
(** ** [updateTemplateStats] *)

Lemma wordCount_spaces (plaintext : string) :
  wordCount plaintext = 1 + Z.of_nat (Js.occurrences " "%char plaintext).
Proof. unfold wordCount. rewrite JsFacts.split_length. lia. Qed.

(** C9, as the code has it.  For every template id and plaintext,
    [updateTemplateStats] records the current time as the last-used
    time of that id, and adds to the persisted word count the number of
    pieces of [plaintext.split(' ')], which is one more than the number
    of space characters in the plaintext.  The addition is that of
    doubles: the count grows by exactly that number as long as it stays
    a safe integer (at most 2^53 - 1). *)
Theorem updateTemplateStats_counts_pieces :
  forall (env : Collaborators) (w : World) (task : nat) (id plaintext : string),
    lookup task (tasks w) = Some (call_updateTemplateStats id plaintext) ->
    exists w' lastUsed,
      run env w [Complete task; Complete task] = Some w'
      /\ outcome task w' = Some (Resolved VUndefined)
      /\ templatesLastUsed (extensionData (storage w')) = Some lastUsed
      /\ Js.get id lastUsed = Some (clock w)
      /\ words (extensionData (storage w'))
         = Js.Val (Js.add (Js.ToNumber (words (extensionData (storage w))))
                     (Js.Num (1 + Z.of_nat (Js.occurrences " "%char plaintext))))
      /\ forall n, words (extensionData (storage w)) = Js.Val (Js.Num n) ->
           Js.isSafeInteger n = true ->
           Js.isSafeInteger (n + (1 + Z.of_nat (Js.occurrences " "%char plaintext)))
           = true ->
           words (extensionData (storage w'))
           = Js.Val (Js.Num (n + (1 + Z.of_nat (Js.occurrences " "%char plaintext)))).
Proof.
  intros env w task id plaintext Ht.
  eexists. eexists. split; [|split; [|split; [|split; [|split]]]].
  - unfold run, step, completes. rewrite Ht.
    unfold call_updateTemplateStats, updateTemplateStats. machine. reflexivity.
  - machine. reflexivity.
  - machine. reflexivity.
  - rewrite JsFacts.get_set, String.eqb_refl. reflexivity.
  - machine. rewrite wordCount_spaces. reflexivity.
  - intros n Hn _ Hsafe. machine. rewrite Hn, wordCount_spaces.
    cbn [Js.ToNumber]. rewrite JsFacts.add_safe by exact Hsafe. reflexivity.
Qed.

Lemma updateTemplateStats_counts_pieces_witness :
  exists w' lastUsed,
    run sampleCollaborators usingEmptyTemplate [Complete 0%nat; Complete 0%nat]
    = Some w'
    /\ outcome 0%nat w' = Some (Resolved VUndefined)
    /\ templatesLastUsed (extensionData (storage w')) = Some lastUsed
    /\ Js.get "t1" lastUsed = Some (clock usingEmptyTemplate)
    /\ words (extensionData (storage w'))
       = Js.Val (Js.add (Js.ToNumber
                           (words (extensionData (storage usingEmptyTemplate))))
                   (Js.Num (1 + Z.of_nat (Js.occurrences " "%char ""))))
    /\ forall n,
         words (extensionData (storage usingEmptyTemplate)) = Js.Val (Js.Num n) ->
         Js.isSafeInteger n = true ->
         Js.isSafeInteger (n + (1 + Z.of_nat (Js.occurrences " "%char ""))) = true ->
         words (extensionData (storage w'))
         = Js.Val (Js.Num (n + (1 + Z.of_nat (Js.occurrences " "%char "")))).
Proof.
  apply (updateTemplateStats_counts_pieces sampleCollaborators usingEmptyTemplate
           0%nat "t1" ""); reflexivity.
Defined.

(** C9 as the specification states it fails: using a template with an
    empty plaintext, which has no token, takes the count from 5 to 6. *)
Lemma updateTemplateStats_empty_plaintext_counts_one :
  (exists w',
     run sampleCollaborators usingEmptyTemplate [Complete 0%nat; Complete 0%nat]
     = Some w'
     /\ words (extensionData (storage usingEmptyTemplate)) = Js.Val (Js.Num 5)
     /\ words (extensionData (storage w')) = Js.Val (Js.Num 6)
     /\ whitespaceTokens "" = 0%nat)
  /\ ~ updateTemplateStats_adds_tokens sampleCollaborators usingEmptyTemplate
         0%nat "".
Proof.
  split.
  - eexists. repeat split; vm_compute; reflexivity.
  - intros [w' [n [Hrun [Hbefore Hafter]]]].
    vm_compute in Hrun. injection Hrun as <-.
    vm_compute in Hbefore. injection Hbefore as <-.
    vm_compute in Hafter. discriminate.
Qed.

(* ================================================================== *)
(** ** [searchTemplates] *)

(** Calling [searchTemplates(query)] records the query as the latest
    one, and leaves the calls that are waiting and the settled promises
    as they are. *)
Lemma searchTemplates_records_query (env : Collaborators) (w : World) (q : string) :
  wellFormed w ->
  exists w',
    step env w (Invoke (call_searchTemplates env q)) = Some w'
    /\ lastSearchQuery w' = q
    /\ settled w' = settled w
    /\ forall task, (task < nextPromise w)%nat ->
         lookup task (tasks w') = lookup task (tasks w).
Proof.
  intros Hwf.
  destruct (Hwf (S (nextPromise w))) as [H1 _]; [lia|].
  destruct (Hwf (S (S (nextPromise w)))) as [H2 _]; [lia|].
  eexists. split; [reflexivity|].
  unfold call_searchTemplates, searchTemplates, getTemplates, getTags,
    getSignedInUser.
  machine. unfold gather. rewrite H1, H2. machine. repeat split.
  intros task Hlt.
  rewrite !lookup_skip by lia. reflexivity.
Qed.

(** The callback of a waiting search, once its templates and tags are
    there, compares its query with the latest recorded one. *)
Lemma searching_wakes (env : Collaborators) (w : World) (task : nat) (q : string)
  (tp gp : nat) (templates : list Template) (allTags : list Tag) :
  lookup task (tasks w) = Some (searching q tp gp) ->
  lookup tp (settled w) = Some (Resolved (VTemplates templates)) ->
  lookup gp (settled w) = Some (Resolved (VTags allTags)) ->
  step env w (Wake task)
  = Some (if String.eqb q (lastSearchQuery w)
          then settle task (Resolved (VSearch (ranked env q templates allTags)))
                 (observe (Ranked q) (with_tasks (discard task (tasks w)) w))
          else settle task (Resolved (VSearch SEARCH_CANCELED))
                 (with_tasks (discard task (tasks w)) w)).
Proof.
  intros Ht Htp Hgp.
  unfold step. rewrite Ht. unfold searching. records.
  unfold gather. rewrite Htp, Hgp.
  unfold searchTemplates_then. machine.
  destruct (String.eqb q (lastSearchQuery w)); records; machine; reflexivity.
Qed.

(** C6, as the code has it.  While [searchTemplates(q1)] waits for its
    templates and tags, [searchTemplates(q2)] with another query is
    issued: it becomes the latest recorded query and the first call
    keeps waiting.  Staleness is decided when the templates and tags
    of the first call arrive: if the latest recorded query is then
    another string than [q1], the call resolves with exactly
    [{query: '_SEARCH_CANCELED', results: []}] and the fuzzy search is
    not invoked (nothing is added to what the collaborators observe);
    if it is [q1], because no other search was issued or because [q1]
    was searched for again, the call resolves with [{query, results}],
    the results being those of the fuzzy search. *)
Theorem searchTemplates_stale_query_canceled :
  forall (env : Collaborators) (w : World) (task : nat) (q1 q2 : string)
         (tp gp : nat),
    q1 <> q2 ->
    lookup task (tasks w) = Some (searching q1 tp gp) ->
    wellFormed w ->
    exists w2,
      step env w (Invoke (call_searchTemplates env q2)) = Some w2
      /\ lastSearchQuery w2 = q2
      /\ lookup task (tasks w2) = Some (searching q1 tp gp)
      /\ (forall w3 templates allTags,
            lastSearchQuery w3 <> q1 ->
            lookup task (tasks w3) = Some (searching q1 tp gp) ->
            lookup tp (settled w3) = Some (Resolved (VTemplates templates)) ->
            lookup gp (settled w3) = Some (Resolved (VTags allTags)) ->
            step env w3 (Wake task)
            = Some (settle task
                      (Resolved (VSearch {| query := "_SEARCH_CANCELED";
                                            results := [] |}))
                      (with_tasks (discard task (tasks w3)) w3)))
      /\ (forall w3 templates allTags,
            lastSearchQuery w3 = q1 ->
            lookup task (tasks w3) = Some (searching q1 tp gp) ->
            lookup tp (settled w3) = Some (Resolved (VTemplates templates)) ->
            lookup gp (settled w3) = Some (Resolved (VTags allTags)) ->
            step env w3 (Wake task)
            = Some (settle task
                      (Resolved (VSearch (ranked env q1 templates allTags)))
                      (observe (Ranked q1)
                         (with_tasks (discard task (tasks w3)) w3)))).
Proof.
  intros env w task q1 q2 tp gp Hq Ht Hwf.
  assert (task < nextPromise w)%nat as Hlt
    by exact (wellFormed_pending w task _ Hwf Ht).
  destruct (searchTemplates_records_query env w q2 Hwf) as [w2 [Hs [Hl [_ Hk]]]].
  exists w2. split; [exact Hs|]. split; [exact Hl|].
  split; [rewrite Hk by exact Hlt; exact Ht|]. split.
  - intros w3 templates allTags Hl3 Ht3 Htp Hgp.
    rewrite (searching_wakes env w3 task q1 tp gp templates allTags Ht3 Htp Hgp).
    assert (String.eqb q1 (lastSearchQuery w3) = false) as ->
      by (apply String.eqb_neq; congruence).
    reflexivity.
  - intros w3 templates allTags Hl3 Ht3 Htp Hgp.
    rewrite (searching_wakes env w3 task q1 tp gp templates allTags Ht3 Htp Hgp).
    rewrite Hl3, String.eqb_refl. reflexivity.
Qed.

Lemma searchTemplates_stale_query_canceled_witness :
  exists w2,
    step sampleCollaborators
      (calling (call_searchTemplates sampleCollaborators "a") signedOutWorld)
      (Invoke (call_searchTemplates sampleCollaborators "ab")) = Some w2
    /\ lastSearchQuery w2 = "ab"
    /\ lookup 0%nat (tasks w2) = Some (searching "a" 1 2)
    /\ (forall w3 templates allTags,
          lastSearchQuery w3 <> "a" ->
          lookup 0%nat (tasks w3) = Some (searching "a" 1 2) ->
          lookup 1%nat (settled w3) = Some (Resolved (VTemplates templates)) ->
          lookup 2%nat (settled w3) = Some (Resolved (VTags allTags)) ->
          step sampleCollaborators w3 (Wake 0%nat)
          = Some (settle 0%nat
                    (Resolved (VSearch {| query := "_SEARCH_CANCELED";
                                          results := [] |}))
                    (with_tasks (discard 0%nat (tasks w3)) w3)))
    /\ (forall w3 templates allTags,
          lastSearchQuery w3 = "a" ->
          lookup 0%nat (tasks w3) = Some (searching "a" 1 2) ->
          lookup 1%nat (settled w3) = Some (Resolved (VTemplates templates)) ->
          lookup 2%nat (settled w3) = Some (Resolved (VTags allTags)) ->
          step sampleCollaborators w3 (Wake 0%nat)
          = Some (settle 0%nat
                    (Resolved (VSearch (ranked sampleCollaborators "a"
                                          templates allTags)))
                    (observe (Ranked "a")
                       (with_tasks (discard 0%nat (tasks w3)) w3)))).
Proof.
  apply (searchTemplates_stale_query_canceled sampleCollaborators
           (calling (call_searchTemplates sampleCollaborators "a") signedOutWorld)
           0%nat "a" "ab" 1%nat 2%nat).
  - discriminate.
  - reflexivity.
  - intros p Hp. vm_compute in Hp.
    do 3 (destruct p as [|p]; [lia|]). split; reflexivity.
Defined.

(** C6 as the specification states it fails: ['a'], then ['ab'], then
    ['a'] again are searched for while signed out, before the templates
    and tags of the first search arrive.  When they do, the latest
    recorded query is ['a'] again, and the first call, though ['ab']
    was issued while it waited, is not canceled: it resolves with
    [{query: 'a', results}] and the fuzzy search is invoked. *)
Lemma searchTemplates_requeried_call_is_ranked :
  (outcome 0%nat (the (step sampleCollaborators (the typingBack) (Wake 0%nat)))
   = Some (Resolved (VSearch {| query := "a"; results := [] |}))
   /\ trace (the (step sampleCollaborators (the typingBack) (Wake 0%nat)))
      = [Ranked "a"]
   /\ lastSearchQuery (the typingBack) = "a")
  /\ ~ superseded_search_canceled sampleCollaborators
         (calling (call_searchTemplates sampleCollaborators "a") signedOutWorld)
         0%nat "ab".
Proof.
  split.
  - repeat split; vm_compute; reflexivity.
  - intros H.
    assert (outcome 0%nat
              (the (run sampleCollaborators
                      (calling (call_searchTemplates sampleCollaborators "a")
                         signedOutWorld)
                      (Invoke (call_searchTemplates sampleCollaborators "ab")
                       :: searchingAgain ++ [Wake 0%nat])))
            = Some (Resolved (VSearch {| query := "a"; results := [] |}))) as Hout
      by (vm_compute; reflexivity).
    destruct (run sampleCollaborators
                (calling (call_searchTemplates sampleCollaborators "a")
                   signedOutWorld)
                (Invoke (call_searchTemplates sampleCollaborators "ab")
                 :: searchingAgain ++ [Wake 0%nat])) as [w'|] eqn:Hrun.
    + cbn [the] in Hout. rewrite (H searchingAgain w' Hrun) in Hout. discriminate.
    + discriminate.
Qed.

(** The scenario of the specification, end to end: ['a'] then ['ab']
    while signed out; the first search is canceled without ranking. *)
Example searchTemplates_typing_ahead :
  outcome 0%nat (the (step sampleCollaborators (the typingAhead) (Wake 0%nat)))
  = Some (Resolved (VSearch SEARCH_CANCELED))
  /\ trace (the (step sampleCollaborators (the typingAhead) (Wake 0%nat))) = [].
Proof. split; vm_compute; reflexivity. Qed.

(** C10.  Staleness is string equality with the latest recorded query:
    when [searchTemplates(q)] is called again with the same string
    while an earlier call for [q] still waits, neither call is
    canceled; once their templates and tags have arrived, both resolve
    with [{query: q, results}], the results of the fuzzy search. *)
Theorem searchTemplates_same_query_not_canceled :
  forall (env : Collaborators) (w : World) (q : string)
         (first second tp1 gp1 tp2 gp2 : nat)
         (templates1 templates2 : list Template) (tags1 tags2 : list Tag),
    first <> second ->
    lookup first (tasks w) = Some (searching q tp1 gp1) ->
    lookup second (tasks w) = Some (searching q tp2 gp2) ->
    lookup first (settled w) = None ->
    lastSearchQuery w = q ->
    lookup tp1 (settled w) = Some (Resolved (VTemplates templates1)) ->
    lookup gp1 (settled w) = Some (Resolved (VTags tags1)) ->
    lookup tp2 (settled w) = Some (Resolved (VTemplates templates2)) ->
    lookup gp2 (settled w) = Some (Resolved (VTags tags2)) ->
    exists w',
      run env w [Wake first; Wake second] = Some w'
      /\ outcome first w'
         = Some (Resolved (VSearch (ranked env q templates1 tags1)))
      /\ outcome second w'
         = Some (Resolved (VSearch (ranked env q templates2 tags2))).
Proof.
  intros env w q first second tp1 gp1 tp2 gp2 templates1 templates2 tags1 tags2
    Hne H1 H2 Hpending Hl Htp1 Hgp1 Htp2 Hgp2.
  assert (tp2 <> first) as Ntp by (intros ->; congruence).
  assert (gp2 <> first) as Ngp by (intros ->; congruence).
  unfold run.
  rewrite (searching_wakes env w first q tp1 gp1 templates1 tags1 H1 Htp1 Hgp1).
  rewrite Hl, String.eqb_refl.
  erewrite (searching_wakes env _ second q tp2 gp2 templates2 tags2).
  - records. rewrite Hl, String.eqb_refl.
    eexists. split; [reflexivity|]. unfold outcome. records.
    rewrite lookup_head. rewrite lookup_skip by exact Hne.
    rewrite lookup_head. split; reflexivity.
  - records. rewrite lookup_discard by (intros E; apply Hne; symmetry; exact E).
    exact H2.
  - records. rewrite lookup_skip by exact Ntp. exact Htp2.
  - records. rewrite lookup_skip by exact Ngp. exact Hgp2.
Qed.

Lemma searchTemplates_same_query_not_canceled_witness :
  exists w',
    run sampleCollaborators (the searchingTwice) [Wake 0%nat; Wake 3%nat] = Some w'
    /\ outcome 0%nat w'
       = Some (Resolved (VSearch (ranked sampleCollaborators "a" [] [])))
    /\ outcome 3%nat w'
       = Some (Resolved (VSearch (ranked sampleCollaborators "a" [] []))).
Proof.
  apply (searchTemplates_same_query_not_canceled sampleCollaborators
           (the searchingTwice) "a" 0%nat 3%nat 1%nat 2%nat 4%nat 5%nat
           [] [] [] []);
    try reflexivity.
  discriminate.
Defined.

(* ================================================================== *)
(** ** [getCollection] *)

Lemma CollectionName_eqb_refl (c : CollectionName) : CollectionName_eqb c c = true.
Proof. destruct c; reflexivity. Qed.

Lemma CollectionName_eqb_eq (a b : CollectionName) :
  CollectionName_eqb a b = true <-> a = b.
Proof. destruct a, b; simpl; split; intros H; congruence. Qed.

Lemma fetches_observe_Fetch (c : CollectionName) (u : User) (w : World) :
  fetches c (observe (Fetch c u) w) = S (fetches c w).
Proof. unfold fetches. simpl. rewrite CollectionName_eqb_refl. reflexivity. Qed.

(** Starting a request sends its remote query. *)
Lemma advance_collectionRequest (env : Collaborators) (c : CollectionName)
  (user : User) (w : World) :
  advance env (collectionRequest c user) w
  = (Suspended (collectionRequest c user), observe (Fetch c user) w).
Proof. reflexivity. Qed.

#[global] Hint Resolve advance_collectionRequest : starting.

(** A call that arrives while the marker of its collection is set
    issues nothing: it waits for the request in progress. *)
Lemma getCollection_joins_request_in_progress (env : Collaborators) (w : World)
  (c : CollectionName) (user : User) (promise : nat) :
  collectionRequestQueue w c = Some promise ->
  lookup promise (settled w) = None ->
  step env w (Invoke (call_getCollection c user))
  = Some (suspend (nextPromise w) (awaitingRequest promise) (fresh w)).
Proof.
  intros Hq Hp. unfold step, call_getCollection, getCollection. machine.
  rewrite Hq. machine. rewrite Hp. machine. reflexivity.
Qed.

Lemma run_cons (env : Collaborators) (w w' : World) (e : Event) (es : list Event) :
  step env w e = Some w' -> run env w (e :: es) = run env w' es.
Proof. intros H. simpl. rewrite H. reflexivity. Qed.

(** A call that finds no marker reads the cache. *)
Lemma getCollection_called (env : Collaborators) (w : World)
  (c : CollectionName) (user : User) :
  collectionRequestQueue w c = None ->
  step env w (Invoke (call_getCollection c user))
  = Some (suspend (nextPromise w) (readingCache c user) (fresh w)).
Proof.
  intros Hq. unfold step, call_getCollection, getCollection. machine.
  rewrite Hq. machine. reflexivity.
Qed.

(** When the storage read of a call completes with nothing cached, the
    call sends a remote query, sets the marker to the request, and
    waits for it; the marker is not looked at again. *)
Lemma readingCache_miss (env : Collaborators) (w : World) (task : nat)
  (c : CollectionName) (user : User) :
  lookup task (tasks w) = Some (readingCache c user) ->
  cache (storage w) c = None ->
  lookup (nextPromise w) (settled w) = None ->
  step env w (Complete task)
  = Some (suspend task (awaitingRequest (nextPromise w))
            (with_queue c (Some (nextPromise w))
               (suspend (nextPromise w) (collectionRequest c user)
                  (observe (Fetch c user)
                     (fresh (with_tasks (discard task (tasks w)) w)))))).
Proof.
  intros Ht Hc Hp. unfold step, completes. rewrite Ht.
  unfold readingCache, getCollection_then. machine. rewrite Hc. machine.
  rewrite Hp. machine. reflexivity.
Qed.

(** When the storage read completes with a cached value, the call
    resolves with it and nothing is sent. *)
Lemma readingCache_hit (env : Collaborators) (w : World) (task : nat)
  (c : CollectionName) (user : User) (cached : Collection) :
  lookup task (tasks w) = Some (readingCache c user) ->
  cache (storage w) c = Some cached ->
  step env w (Complete task)
  = Some (settle task (Resolved (VCollection cached))
            (with_tasks (discard task (tasks w)) w)).
Proof.
  intros Ht Hc. unfold step, completes. rewrite Ht.
  unfold readingCache, getCollection_then. machine. rewrite Hc. machine.
  reflexivity.
Qed.

(** A call that finds neither a marker nor a cached value sends a
    remote query once its storage read completes, sets the marker to
    the request, and waits for it. *)
Lemma getCollection_miss (env : Collaborators) (w : World)
  (c : CollectionName) (user : User) :
  collectionRequestQueue w c = None ->
  cache (storage w) c = None ->
  lookup (S (nextPromise w)) (settled w) = None ->
  run env w [Invoke (call_getCollection c user); Complete (nextPromise w)]
  = Some (suspend (nextPromise w) (awaitingRequest (S (nextPromise w)))
            (with_queue c (Some (S (nextPromise w)))
               (suspend (S (nextPromise w)) (collectionRequest c user)
                  (observe (Fetch c user) (fresh (fresh w)))))).
Proof.
  intros Hq Hc Hp.
  rewrite (run_cons env w _ _ _ (getCollection_called env w c user Hq)).
  erewrite run_cons.
  2:{ apply readingCache_miss.
      - records. apply lookup_head.
      - exact Hc.
      - exact Hp. }
  records. rewrite discard_head. reflexivity.
Qed.

(** The response of a failed remote query: the marker is cleared and
    the request rejects with the error of the response. *)
Lemma collectionRequest_fails (env : Collaborators) (w : World) (request : nat)
  (c : CollectionName) (user : User) (res : Response) (e : Js.Error) :
  lookup request (tasks w) = Some (collectionRequest c user) ->
  error res = Some e ->
  step env w (Reply request res)
  = Some (settle request (Rejected e)
            (with_queue c None (with_tasks (discard request (tasks w)) w))).
Proof.
  intros Hreq He. unfold step, completes. rewrite Hreq.
  unfold collectionRequest at 1. machine. rewrite He. machine. reflexivity.
Qed.

(** A caller waiting for a request that was rejected rejects with the
    same error. *)
Lemma awaitingRequest_rejects (env : Collaborators) (w : World)
  (caller request : nat) (e : Js.Error) :
  lookup caller (tasks w) = Some (awaitingRequest request) ->
  lookup request (settled w) = Some (Rejected e) ->
  step env w (Wake caller)
  = Some (settle caller (Rejected e) (with_tasks (discard caller (tasks w)) w)).
Proof.
  intros Hcaller Hreq. unfold step. rewrite Hcaller.
  unfold awaitingRequest. records. rewrite Hreq. machine. reflexivity.
Qed.

(** C7.  A remote query of [getCollection] that fails: the response
    carries an error.  When it arrives, the in-flight marker of the
    collection is cleared and the request rejects with that very error,
    nothing being stored; the caller waiting for the request rejects
    with the same error; and since the marker is cleared and the cache
    still empty, the next [getCollection] call for the name sends a
    new remote query and sets the marker to its request. *)
Theorem getCollection_query_error_propagates :
  forall (env : Collaborators) (w : World) (request caller : nat)
         (c : CollectionName) (user user' : User) (res : Response) (e : Js.Error),
    wellFormed w ->
    lookup request (tasks w) = Some (collectionRequest c user) ->
    lookup caller (tasks w) = Some (awaitingRequest request) ->
    error res = Some e ->
    cache (storage w) c = None ->
    exists w1 w2 w3,
      step env w (Reply request res) = Some w1
      /\ collectionRequestQueue w1 c = None
      /\ outcome request w1 = Some (Rejected e)
      /\ storage w1 = storage w
      /\ step env w1 (Wake caller) = Some w2
      /\ outcome caller w2 = Some (Rejected e)
      /\ run env w2 [Invoke (call_getCollection c user');
                     Complete (nextPromise w2)] = Some w3
      /\ fetches c w3 = S (fetches c w)
      /\ collectionRequestQueue w3 c = Some (S (nextPromise w2))
      /\ lookup (S (nextPromise w2)) (tasks w3) = Some (collectionRequest c user').
Proof.
  intros env w request caller c user user' res e Hwf Hreq Hcaller He Hc.
  assert (caller <> request) as Hne.
  { intros E. rewrite E, Hreq in Hcaller. discriminate Hcaller. }
  destruct (Hwf (S (nextPromise w))) as [Hfresh _]; [lia|].
  assert (request < nextPromise w)%nat as Hlt
    by exact (wellFormed_pending w request _ Hwf Hreq).
  assert (caller < nextPromise w)%nat as Hlt'
    by exact (wellFormed_pending w caller _ Hwf Hcaller).
  pose (w1 := settle request (Rejected e)
                (with_queue c None (with_tasks (discard request (tasks w)) w))).
  pose (w2 := settle caller (Rejected e)
                (with_tasks (discard caller (tasks w1)) w1)).
  exists w1, w2.
  eexists.
  split; [exact (collectionRequest_fails env w request c user res e Hreq He)|].
  split; [unfold w1; records; rewrite CollectionName_eqb_refl; reflexivity|].
  split; [unfold w1, outcome; records; apply lookup_head|].
  split; [reflexivity|].
  split.
  { apply (awaitingRequest_rejects env w1 caller request e).
    - unfold w1. records. rewrite lookup_discard by exact Hne. exact Hcaller.
    - unfold w1. records. apply lookup_head. }
  split; [unfold w2, outcome; records; apply lookup_head|].
  split.
  { apply getCollection_miss.
    - unfold w2, w1. records. rewrite CollectionName_eqb_refl. reflexivity.
    - exact Hc.
    - unfold w2, w1. records. rewrite !lookup_skip by lia. exact Hfresh. }
  split.
  { unfold fetches. records. simpl filter.
    rewrite CollectionName_eqb_refl. reflexivity. }
  split.
  { records. rewrite CollectionName_eqb_refl. reflexivity. }
  records. rewrite lookup_skip by lia. apply lookup_head.
Qed.

Lemma getCollection_query_error_propagates_witness :
  exists w1 w2 w3,
    step sampleCollaborators (the fetchingTags) (Reply 1%nat refused) = Some w1
    /\ collectionRequestQueue w1 tags = None
    /\ outcome 1%nat w1 = Some (Rejected (Js.ErrObject "permission denied"))
    /\ storage w1 = storage (the fetchingTags)
    /\ step sampleCollaborators w1 (Wake 0%nat) = Some w2
    /\ outcome 0%nat w2 = Some (Rejected (Js.ErrObject "permission denied"))
    /\ run sampleCollaborators w2
         [Invoke (call_getCollection tags sampleUser);
          Complete (nextPromise w2)] = Some w3
    /\ fetches tags w3 = S (fetches tags (the fetchingTags))
    /\ collectionRequestQueue w3 tags = Some (S (nextPromise w2))
    /\ lookup (S (nextPromise w2)) (tasks w3)
       = Some (collectionRequest tags sampleUser).
Proof.
  apply (getCollection_query_error_propagates sampleCollaborators
           (the fetchingTags) 1%nat 0%nat tags sampleUser sampleUser refused
           (Js.ErrObject "permission denied")).
  - intros p Hp. vm_compute in Hp.
    do 2 (destruct p as [|p]; [lia|]). split; reflexivity.
  - reflexivity.
  - reflexivity.
  - reflexivity.
  - reflexivity.
Defined.

(** C1, where the code departs from it.  Two [getCollection] calls for
    the same collection are made one after the other while nothing is
    cached and no request is in progress.  Both pass the marker test
    before either has set the marker, since the marker is only set
    after the storage read.  When the two storage reads have completed,
    two remote queries have been sent, each caller waits for a request
    of its own, and the marker names the second request only. *)
Theorem getCollection_early_callers_fetch_twice :
  forall (env : Collaborators) (w : World) (c : CollectionName) (u1 u2 : User),
    wellFormed w ->
    collectionRequestQueue w c = None ->
    cache (storage w) c = None ->
    exists w',
      run env w [Invoke (call_getCollection c u1);
                 Invoke (call_getCollection c u2);
                 Complete (nextPromise w);
                 Complete (S (nextPromise w))] = Some w'
      /\ fetches c w' = S (S (fetches c w))
      /\ lookup (nextPromise w) (tasks w')
         = Some (awaitingRequest (S (S (nextPromise w))))
      /\ lookup (S (nextPromise w)) (tasks w')
         = Some (awaitingRequest (S (S (S (nextPromise w)))))
      /\ lookup (S (S (nextPromise w))) (tasks w')
         = Some (collectionRequest c u1)
      /\ lookup (S (S (S (nextPromise w)))) (tasks w')
         = Some (collectionRequest c u2)
      /\ collectionRequestQueue w' c = Some (S (S (S (nextPromise w)))).
Proof.
  intros env w c u1 u2 Hwf Hq Hc.
  destruct (Hwf (S (S (nextPromise w)))) as [H2 _]; [lia|].
  destruct (Hwf (S (S (S (nextPromise w))))) as [H3 _]; [lia|].
  eexists.
  split.
  { rewrite (run_cons env w _ _ _ (getCollection_called env w c u1 Hq)).
    erewrite run_cons.
    2:{ apply getCollection_called. exact Hq. }
    erewrite run_cons.
    2:{ apply readingCache_miss.
        - records. rewrite lookup_skip by lia. apply lookup_head.
        - exact Hc.
        - exact H2. }
    erewrite run_cons.
    2:{ apply readingCache_miss.
        - records. rewrite discard_skip by lia. rewrite discard_head.
          rewrite !lookup_skip by lia. apply lookup_head.
        - exact Hc.
        - records. exact H3. }
    reflexivity. }
  split.
  { unfold fetches. records. simpl filter.
    rewrite CollectionName_eqb_refl. reflexivity. }
  records. promises. rewrite CollectionName_eqb_refl.
  repeat split.
Qed.

Lemma getCollection_early_callers_fetch_twice_witness :
  exists w',
    run sampleCollaborators signedOutWorld
      [Invoke (call_getCollection tags sampleUser);
       Invoke (call_getCollection tags sampleUser);
       Complete (nextPromise signedOutWorld);
       Complete (S (nextPromise signedOutWorld))] = Some w'
    /\ fetches tags w' = S (S (fetches tags signedOutWorld))
    /\ lookup (nextPromise signedOutWorld) (tasks w')
       = Some (awaitingRequest (S (S (nextPromise signedOutWorld))))
    /\ lookup (S (nextPromise signedOutWorld)) (tasks w')
       = Some (awaitingRequest (S (S (S (nextPromise signedOutWorld)))))
    /\ lookup (S (S (nextPromise signedOutWorld))) (tasks w')
       = Some (collectionRequest tags sampleUser)
    /\ lookup (S (S (S (nextPromise signedOutWorld)))) (tasks w')
       = Some (collectionRequest tags sampleUser)
    /\ collectionRequestQueue w' tags = Some (S (S (S (nextPromise signedOutWorld)))).
Proof.
  apply (getCollection_early_callers_fetch_twice sampleCollaborators
           signedOutWorld tags sampleUser sampleUser).
  - intros p Hp. split; reflexivity.
  - reflexivity.
  - reflexivity.
Defined.

(* ================================================================== *)
(** ** [getTemplates] *)

(** Once the requested collections are there, the call resolves with
    their projection. *)
Lemma mergingTemplates_wakes (env : Collaborators) (w : World) (task : nat)
  (freeCustomer : bool) (promises : list nat) (values : list Value)
  (res : list Collection) :
  lookup task (tasks w) = Some (mergingTemplates env freeCustomer promises) ->
  gather promises (settled w) = Some (Resolved values) ->
  collections_of values = Some res ->
  step env w (Wake task)
  = Some (settle task
            (Resolved (VTemplates (projectTemplates env freeCustomer res)))
            (with_tasks (discard task (tasks w)) w)).
Proof.
  intros Ht Hg Hc. unfold step. rewrite Ht.
  unfold mergingTemplates, getTemplates_merge. records.
  rewrite Hg. machine. rewrite Hc. machine. reflexivity.
Qed.

(** The elements of the projected list are the projections of the
    merged entries. *)
Lemma templateList_In (env : Collaborators) (templates : Collection) (t : Template) :
  In t (templateList env templates)
  <-> exists key r, Js.get key templates = Some r /\ t = templateOf env key r.
Proof.
  unfold templateList. rewrite in_flat_map. split.
  - intros [key [_ Hin]].
    destruct (Js.get key templates) as [r|] eqn:G; simpl in Hin.
    + destruct Hin as [<-|[]]. exists key, r. split; [exact G | reflexivity].
    + contradiction.
  - intros [key [r [G ->]]]. exists key. split.
    + apply JsFacts.get_in_keys. congruence.
    + rewrite G. left. reflexivity.
Qed.

(** In the merge, a later collection overrides an earlier one. *)
Lemma mergeTemplates_get (owned shared everyone : Collection) (key : string) :
  Js.get key (mergeTemplates [owned; shared; everyone])
  = match Js.get key everyone with
    | Some r => Some r
    | None =>
        match Js.get key shared with
        | Some r => Some r
        | None => Js.get key owned
        end
    end.
Proof.
  unfold mergeTemplates, Js.assign. simpl fold_left.
  rewrite !JsFacts.get_assign1. simpl.
  destruct (Js.get key owned); reflexivity.
Qed.

Lemma mergeTemplates_owned (owned : Collection) (key : string) :
  Js.get key (mergeTemplates [owned]) = Js.get key owned.
Proof.
  unfold mergeTemplates, Js.assign. simpl fold_left.
  rewrite JsFacts.get_assign1. simpl.
  destruct (Js.get key owned); reflexivity.
Qed.

Lemma StronglySorted_weaken (A : Type) (R R' : A -> A -> Prop) (l : list A) :
  (forall a b, In a l -> In b l -> R a b -> R' a b) ->
  StronglySorted R l -> StronglySorted R' l.
Proof.
  intros Himp Hs. induction Hs as [|x l Hs IH Hx].
  - constructor.
  - constructor.
    + apply IH. intros a b Ha Hb. apply Himp; right; assumption.
    + rewrite Forall_forall in Hx |- *. intros y Hy.
      apply Himp; [left; reflexivity | right; exact Hy | exact (Hx y Hy)].
Qed.

(** The time value of a template's creation date when it is valid. *)
Definition createdMs (env : Collaborators) (t : Template) : Z :=
  match creationDate env t with
  | Js.Num z => z
  | _ => 0
  end.

(** With valid dates, the date the comparator reads off a projected
    template is the creation date of its record. *)
Lemma createdTime_valid (env : Collaborators) (owned : Collection) (t : Template) :
  validDates env owned ->
  In t (templateList env (mergeTemplates [owned])) ->
  createdTime t = Js.Num (createdMs env t)
  /\ creationDate env t = Js.Num (createdMs env t).
Proof.
  intros Hv Hin. apply templateList_In in Hin. destruct Hin as [key [r [G ->]]].
  rewrite mergeTemplates_owned in G.
  unfold createdMs, creationDate, createdTime, templateOf, convertToNativeDates.
  simpl.
  destruct (row_created_datetime r) as [s|] eqn:E; simpl.
  - destruct (Hv key r s G E) as [z Hz]. rewrite Hz. split; reflexivity.
  - split; reflexivity.
Qed.

(** With valid dates, the comparator of [getTemplates] orders by
    creation date. *)
Lemma byCreated_by_key (env : Collaborators) (owned : Collection) :
  validDates env owned ->
  JsFacts.by_key byCreated (createdMs env)
    (templateList env (mergeTemplates [owned])).
Proof.
  intros Hv x y Hx Hy. unfold Js.after, byCreated.
  rewrite (proj1 (createdTime_valid env owned x Hv Hx)).
  rewrite (proj1 (createdTime_valid env owned y Hv Hy)).
  apply JsFacts.sub_positive.
Qed.

Lemma validDates_check (env : Collaborators) (c : Collection) :
  forallb (fun entry =>
             match row_created_datetime (snd entry) with
             | Some s => match new_Date_string env s with
                         | Js.Num _ => true
                         | _ => false
                         end
             | None => true
             end) c = true ->
  validDates env c.
Proof.
  intros H key r s Hget Hcreated.
  rewrite forallb_forall in H.
  assert (exists k, In (k, r) c) as [k Hin].
  { clear H. induction c as [|[k' r'] c IH]; simpl in Hget; [discriminate|].
    destruct (String.eqb key k').
    - injection Hget as ->. exists k'. left. reflexivity.
    - destruct (IH Hget) as [k Hk]. exists k. right. exact Hk. }
  specialize (H _ Hin). simpl in H. rewrite Hcreated in H.
  destruct (new_Date_string env s) as [| |z|]; try discriminate.
  exists z. reflexivity.
Qed.

(** The free-plan list: at most thirty templates, all of them
    projections of owned records, and in creation order when the
    creation dates are valid. *)
Lemma limitFree_owned (env : Collaborators) (owned : Collection) :
  (List.length (projectTemplates env true [owned]) <= 30)%nat
  /\ (forall t, In t (projectTemplates env true [owned]) ->
        exists r, Js.get (id t) owned = Some r /\ t = templateOf env (id t) r)
  /\ (validDates env owned ->
      sortedByCreation env (projectTemplates env true [owned])).
Proof.
  unfold projectTemplates, limitFree, Js.slice0, templatesFreeLimit.
  set (l := templateList env (mergeTemplates [owned])).
  assert (forall t, In t (firstn 30 (Js.sort byCreated l)) -> In t l) as Hsub.
  { intros t Ht. apply JsFacts.firstn_In in Ht.
    apply JsFacts.sort_In in Ht. exact Ht. }
  split; [apply firstn_le_length|]. split.
  - intros t Ht. apply Hsub in Ht. apply templateList_In in Ht.
    destruct Ht as [key [r [G ->]]]. rewrite mergeTemplates_owned in G.
    exists r. split; [exact G | reflexivity].
  - intros Hv. unfold sortedByCreation.
    apply StronglySorted_weaken
      with (R := fun a b => createdMs env a <= createdMs env b).
    + intros a b Ha Hb Hab. unfold notLater.
      rewrite (proj2 (createdTime_valid env owned a Hv (Hsub a Ha))).
      rewrite (proj2 (createdTime_valid env owned b Hv (Hsub b Hb))). exact Hab.
    + apply JsFacts.firstn_sorted. apply JsFacts.sort_sorted.
      apply byCreated_by_key. exact Hv.
Qed.

(** C5, as the code has it.  For a free-plan customer, the callback of
    [getTemplates] requests the [templatesOwned] collection and nothing
    else, and merges that collection alone.  Once it is there, the call
    resolves with a list of at most 30 elements, each of which is the
    projection of a record of the owned collection: none comes from
    [templatesShared] or [templatesEveryone].  The list is in ascending
    order of the creation dates of the records when these are valid
    dates; on a date that is not, the comparator is NaN and the sort
    does not order the list. *)
Theorem getTemplates_free_plan_owned_only :
  forall (env : Collaborators) (w : World) (task : nat) (user : User)
         (promise : nat) (owned : Collection),
    lookup task (tasks w) = Some (mergingTemplates env true [promise]) ->
    lookup promise (settled w) = Some (Resolved (VCollection owned)) ->
    getTemplates_request env user true
    = Start (call_getCollection templatesOwned user)
        (fun requested => getTemplates_merge env true [requested])
    /\ exists templates,
         step env w (Wake task)
         = Some (settle task (Resolved (VTemplates templates))
                   (with_tasks (discard task (tasks w)) w))
         /\ (List.length templates <= 30)%nat
         /\ (forall t, In t templates ->
               exists r, Js.get (id t) owned = Some r
                         /\ t = templateOf env (id t) r)
         /\ (validDates env owned -> sortedByCreation env templates).
Proof.
  intros env w task user promise owned Ht Hp.
  split; [reflexivity|].
  exists (projectTemplates env true [owned]). split.
  - apply (mergingTemplates_wakes env w task true [promise] [VCollection owned]).
    + exact Ht.
    + simpl. rewrite Hp. reflexivity.
    + reflexivity.
  - apply limitFree_owned.
Qed.

(** C2, as the code has it.  For a customer who is not on the free
    plan, the callback of [getTemplates] requests the owned, shared and
    everyone collections in this order and merges them with
    [Object.assign({}, ...res)].  Once they are there, the call
    resolves with one element per id, and for an id present in several
    collections the element is the projection of the record of the
    latest collection that has it: everyone overrides shared, which
    overrides owned (last write wins). *)
Theorem getTemplates_merge_later_wins :
  forall (env : Collaborators) (w : World) (task : nat) (user : User)
         (p1 p2 p3 : nat) (owned shared everyone : Collection),
    lookup task (tasks w) = Some (mergingTemplates env false [p1; p2; p3]) ->
    lookup p1 (settled w) = Some (Resolved (VCollection owned)) ->
    lookup p2 (settled w) = Some (Resolved (VCollection shared)) ->
    lookup p3 (settled w) = Some (Resolved (VCollection everyone)) ->
    getTemplates_request env user false
    = Start (call_getCollection templatesOwned user) (fun o =>
        Start (call_getCollection templatesShared user) (fun s =>
          Start (call_getCollection templatesEveryone user) (fun e =>
            getTemplates_merge env false [o; s; e])))
    /\ exists templates,
         step env w (Wake task)
         = Some (settle task (Resolved (VTemplates templates))
                   (with_tasks (discard task (tasks w)) w))
         /\ forall t, In t templates <->
              exists key r,
                t = templateOf env key r
                /\ match Js.get key everyone with
                   | Some r' => r' = r
                   | None =>
                       match Js.get key shared with
                       | Some r' => r' = r
                       | None => Js.get key owned = Some r
                       end
                   end.
Proof.
  intros env w task user p1 p2 p3 owned shared everyone Ht H1 H2 H3.
  split; [reflexivity|].
  exists (projectTemplates env false [owned; shared; everyone]). split.
  - apply (mergingTemplates_wakes env w task false [p1; p2; p3]
             [VCollection owned; VCollection shared; VCollection everyone]).
    + exact Ht.
    + simpl. rewrite H1, H2, H3. reflexivity.
    + reflexivity.
  - intros t. unfold projectTemplates, limitFree. rewrite templateList_In.
    split.
    + intros [key [r [G ->]]]. exists key, r. split; [reflexivity|].
      rewrite mergeTemplates_get in G.
      destruct (Js.get key everyone) as [r'|]; [congruence|].
      destruct (Js.get key shared) as [r'|]; [congruence | exact G].
    + intros [key [r [-> G]]]. exists key, r. split; [|reflexivity].
      rewrite mergeTemplates_get.
      destruct (Js.get key everyone) as [r'|]; [congruence|].
      destruct (Js.get key shared) as [r'|]; [congruence | exact G].
Qed.

Lemma getTemplates_free_plan_owned_only_witness :
  getTemplates_request isoCollaborators sampleUser true
  = Start (call_getCollection templatesOwned sampleUser)
      (fun requested => getTemplates_merge isoCollaborators true [requested])
  /\ exists templates,
       step isoCollaborators (the templatesOfLongTimeUser) (Wake 0%nat)
       = Some (settle 0%nat (Resolved (VTemplates templates))
                 (with_tasks (discard 0%nat (tasks (the templatesOfLongTimeUser)))
                    (the templatesOfLongTimeUser)))
       /\ (List.length templates <= 30)%nat
       /\ (forall t, In t templates ->
             exists r, Js.get (id t) agedTemplates = Some r
                       /\ t = templateOf isoCollaborators (id t) r)
       /\ sortedByCreation isoCollaborators templates.
Proof.
  destruct (getTemplates_free_plan_owned_only isoCollaborators
              (the templatesOfLongTimeUser) 0%nat sampleUser 1%nat agedTemplates)
    as [Hrequest [templates [Hstep [Hlength [Hsource Hsorted]]]]].
  - reflexivity.
  - reflexivity.
  - split; [exact Hrequest|]. exists templates.
    split; [exact Hstep|]. split; [exact Hlength|]. split; [exact Hsource|].
    apply Hsorted. apply validDates_check. reflexivity.
Defined.

(** The free-plan sample user, whose template [t1] is also shared with
    everyone, gets the owned record. *)
Example getTemplates_free_plan_sample :
  outcome 0%nat
    (the (step sampleCollaborators (the templatesOfFreeUser) (Wake 0%nat)))
  = Some (Resolved (VTemplates
            [templateOf sampleCollaborators "t1"
               (sampleRow "t1" "mine" (Some "20"))])).
Proof. vm_compute. reflexivity. Qed.

(** The thirty-two templates of the sample, stored newest first, come
    back as the thirty oldest, oldest first. *)
Example getTemplates_free_plan_thirty_oldest :
  option_map (fun o => match o with
                       | Resolved (VTemplates templates) => map id templates
                       | _ => []
                       end)
    (outcome 0%nat
       (the (step isoCollaborators (the templatesOfLongTimeUser) (Wake 0%nat))))
  = Some (map (fun n => "t" ++ twoDigits n) (seq 0 30)).
Proof. vm_compute. reflexivity. Qed.

(** C5 as the specification states it fails: a free-plan user owns the
    templates [c] of 2024, [x] whose creation date is not a date, and
    [a] of 2020, stored in this order.  Every comparison with [x] is
    NaN, which the sort reads as "equal", and [c] is never moved behind
    [a]: the list comes back as it was stored, the template of 2024
    before the one of 2020. *)
Lemma getTemplates_free_plan_invalid_date_unsorted :
  (outcome 0%nat
     (the (step isoCollaborators (the templatesOfMisdatedUser) (Wake 0%nat)))
   = Some (Resolved (VTemplates
        [templateOf isoCollaborators "c"
           (sampleRow "c" "third" (Some "2024-03-01T09:30:00.000Z"));
         templateOf isoCollaborators "x" (sampleRow "x" "undated" (Some ""));
         templateOf isoCollaborators "a"
           (sampleRow "a" "first" (Some "2020-03-01T09:30:00.000Z"))]))
   /\ creationDate isoCollaborators
        (templateOf isoCollaborators "c"
           (sampleRow "c" "third" (Some "2024-03-01T09:30:00.000Z")))
      = Js.Num 1709285400000
   /\ creationDate isoCollaborators
        (templateOf isoCollaborators "x" (sampleRow "x" "undated" (Some "")))
      = Js.NaN
   /\ creationDate isoCollaborators
        (templateOf isoCollaborators "a"
           (sampleRow "a" "first" (Some "2020-03-01T09:30:00.000Z")))
      = Js.Num 1583055000000)
  /\ ~ sortedByCreation isoCollaborators
         [templateOf isoCollaborators "c"
            (sampleRow "c" "third" (Some "2024-03-01T09:30:00.000Z"));
          templateOf isoCollaborators "x" (sampleRow "x" "undated" (Some ""));
          templateOf isoCollaborators "a"
            (sampleRow "a" "first" (Some "2020-03-01T09:30:00.000Z"))].
Proof.
  split.
  - repeat split; vm_compute; reflexivity.
  - intros H. inversion H as [|t l _ Hfirst]; subst.
    inversion Hfirst as [|t' l' _ Hrest]; subst.
    inversion Hrest as [|t'' l'' Hlater _]; subst.
    vm_compute in Hlater. apply Hlater. reflexivity.
Qed.

Lemma getTemplates_merge_later_wins_witness :
  getTemplates_request sampleCollaborators sampleUser false
  = Start (call_getCollection templatesOwned sampleUser) (fun o =>
      Start (call_getCollection templatesShared sampleUser) (fun s =>
        Start (call_getCollection templatesEveryone sampleUser) (fun e =>
          getTemplates_merge sampleCollaborators false [o; s; e])))
  /\ exists templates,
       step sampleCollaborators (the templatesOfPaidUser) (Wake 0%nat)
       = Some (settle 0%nat (Resolved (VTemplates templates))
                 (with_tasks (discard 0%nat (tasks (the templatesOfPaidUser)))
                    (the templatesOfPaidUser)))
       /\ forall t, In t templates <->
            exists key r,
              t = templateOf sampleCollaborators key r
              /\ match Js.get key [("t1", sampleRow "t1" "theirs" (Some "10"))] with
                 | Some r' => r' = r
                 | None =>
                     match Js.get key (@nil (string * Row)) with
                     | Some r' => r' = r
                     | None =>
                         Js.get key [("t1", sampleRow "t1" "mine" (Some "20"))]
                         = Some r
                     end
                 end.
Proof.
  apply (getTemplates_merge_later_wins sampleCollaborators
           (the templatesOfPaidUser) 0%nat sampleUser 1%nat 2%nat 3%nat
           [("t1", sampleRow "t1" "mine" (Some "20"))] []
           [("t1", sampleRow "t1" "theirs" (Some "10"))]);
    reflexivity.
Defined.

(** C2 as the specification states it fails: the template [t1] is both
    owned and shared with everyone; a paid user's [getTemplates()]
    returns the record shared with everyone, not the owned one. *)
Lemma getTemplates_merge_earlier_record_overridden :
  outcome 0%nat
    (the (step sampleCollaborators (the templatesOfPaidUser) (Wake 0%nat)))
  = Some (Resolved (VTemplates
            [templateOf sampleCollaborators "t1"
               (sampleRow "t1" "theirs" (Some "10"))]))
  /\ ~ merge_keeps_earlier
         [("t1", sampleRow "t1" "mine" (Some "20"))] []
         [("t1", sampleRow "t1" "theirs" (Some "10"))].
Proof.
  split.
  - vm_compute. reflexivity.
  - intros H.
    destruct (H "t1" (sampleRow "t1" "mine" (Some "20"))) as [Howned _].
    specialize (Howned eq_refl). vm_compute in Howned. discriminate.
Qed.

(* ================================================================== *)
(** ** [logout] *)

Lemma advance_clearing (env : Collaborators) (w : World) :
  advance env clearing w = (Suspended clearing, w).
Proof. reflexivity. Qed.

#[global] Hint Resolve advance_clearing : starting.

(** One event of a schedule, run symbolically. *)
Ltac event :=
  erewrite run_cons;
  [ | unfold step, completes; records; promises;
      repeat progress (machine; promises); reflexivity ].

(** C8, as the code has it.  [logout] starts [clearDataCache] without
    awaiting it.  In whatever order their remaining requests complete,
    once both have run to completion [logout] has resolved with [true],
    every collection cache entry is empty, the persisted word count is
    what it was before the logout, and a [getSignedInUser()] call made
    then rejects with the logged-out sentinel. *)
Theorem logout_then_signed_out :
  forall (env : Collaborators) (w : World) (schedule : list Event),
    wellFormed w ->
    In schedule (logoutSchedules (nextPromise w)) ->
    exists w',
      run env w ([Invoke call_logout;
                  Complete (nextPromise w); Complete (nextPromise w)]
                 ++ schedule) = Some w'
      /\ outcome (nextPromise w) w' = Some (Resolved (VBool true))
      /\ outcome (S (nextPromise w)) w' = Some (Resolved VUndefined)
      /\ cachesEmpty w'
      /\ words (extensionData (storage w')) = words (extensionData (storage w))
      /\ exists w'',
           run env w'
             (Invoke call_getSignedInUser
              :: Complete (nextPromise w')
              :: (if _sessionLoaded w then [] else [Complete (nextPromise w')])
              ++ [Complete (nextPromise w')]) = Some w''
           /\ outcome (nextPromise w') w'' = Some (Rejected LOGGED_OUT_ERR).
Proof.
  intros env w schedule Hwf Hin.
  destruct (Hwf (S (nextPromise w))) as [Hfresh _]; [lia|].
  simpl in Hin.
  destruct Hin as [<-|[<-|[<-|[<-|[]]]]]; cbn [app];
    (eexists; split;
     [ unfold call_logout, logout, setSignedInUser;
       event; event; event;
       unfold clearing at 1, clearDataCache;
       event; event; event; event; reflexivity
     | split; [machine; promises; reflexivity|];
       split; [machine; promises; reflexivity|];
       split; [intros c; reflexivity|];
       split; [reflexivity|];
       unfold call_getSignedInUser, getSignedInUser, getFirebaseUser,
         loadSession;
       destruct (_sessionLoaded w) eqn:Hloaded; cbn [app];
       (eexists; split;
        [ repeat (event; try rewrite Hloaded); reflexivity
        | machine; promises; reflexivity ]) ]).
Qed.

Lemma logout_then_signed_out_witness :
  exists w',
    run sampleCollaborators (sampleWorld "free")
      ([Invoke call_logout;
        Complete (nextPromise (sampleWorld "free"));
        Complete (nextPromise (sampleWorld "free"))]
       ++ [Complete 1%nat; Complete 0%nat; Complete 1%nat; Complete 1%nat])
    = Some w'
    /\ outcome (nextPromise (sampleWorld "free")) w' = Some (Resolved (VBool true))
    /\ outcome (S (nextPromise (sampleWorld "free"))) w' = Some (Resolved VUndefined)
    /\ cachesEmpty w'
    /\ words (extensionData (storage w'))
       = words (extensionData (storage (sampleWorld "free")))
    /\ exists w'',
         run sampleCollaborators w'
           (Invoke call_getSignedInUser
            :: Complete (nextPromise w')
            :: (if _sessionLoaded (sampleWorld "free")
                then []
                else [Complete (nextPromise w')])
            ++ [Complete (nextPromise w')]) = Some w''
         /\ outcome (nextPromise w') w'' = Some (Rejected LOGGED_OUT_ERR).
Proof.
  apply (logout_then_signed_out sampleCollaborators (sampleWorld "free")
           [Complete 1%nat; Complete 0%nat; Complete 1%nat; Complete 1%nat]).
  - intros p Hp. split; reflexivity.
  - simpl. right. left. reflexivity.
Defined.

(** C8 as the specification states it fails: when the requests complete
    in the order they were sent, [logout()] has resolved while the
    cache clear it started has not cleared anything yet; the owned
    templates are still cached at that moment. *)
Lemma logout_resolves_before_cache_clear :
  outcome 0%nat (the loggedOut) = Some (Resolved (VBool true))
  /\ cache (storage (the loggedOut)) templatesOwned
     = Some [("t1", sampleRow "t1" "mine" (Some "20"))]
  /\ ~ cachesEmpty (the loggedOut).
Proof.
  split; [vm_compute; reflexivity|].
  split; [vm_compute; reflexivity|].
  intros H. specialize (H templatesOwned). vm_compute in H. discriminate.
Qed.

(* ================================================================== *)
(** ** [refetchCollections] *)

(** Sequencing: [bind p f] runs as [p] does, and goes on with [f] when
    [p] returns. *)
Lemma advance_bind (env : Collaborators) (A : Type) (p : Prog A) :
  forall (B : Type) (f : A -> Prog B) (w : World),
    advance env (bind p f) w
    = match advance env p w with
      | (Finished (Resolved a), w') => advance env (f a) w'
      | (Finished (Rejected e), w') => (Finished (Rejected e), w')
      | (Suspended p', w') => (Suspended (bind p' f), w')
      end.
Proof.
  induction p as [A a|A e|A X o k IH|A X o k IH|A child IHchild k IH
                  |A promise k IH|A promises k IH];
    intros B f w.
  - reflexivity.
  - reflexivity.
  - simpl. destruct (access env o w) as [x w']. apply IH.
  - reflexivity.
  - simpl. destruct (advance env child (fresh w)) as [st w']. apply IH.
  - simpl. destruct (lookup promise (settled w)) as [o|].
    + apply IH.
    + reflexivity.
  - simpl. destruct (gather promises (settled w)) as [o|].
    + apply IH.
    + reflexivity.
Qed.

(** Exceptions: [try_catch p handler] runs as [p] does, and goes on
    with the handler when [p] throws. *)
Lemma advance_try_catch (env : Collaborators) (A : Type) (p : Prog A) :
  forall (handler : Js.Error -> Prog A) (w : World),
    advance env (try_catch p handler) w
    = match advance env p w with
      | (Finished (Resolved a), w') => (Finished (Resolved a), w')
      | (Finished (Rejected e), w') => advance env (handler e) w'
      | (Suspended p', w') => (Suspended (try_catch p' handler), w')
      end.
Proof.
  induction p as [A a|A e|A X o k IH|A X o k IH|A child IHchild k IH
                  |A promise k IH|A promises k IH];
    intros handler w.
  - reflexivity.
  - simpl. destruct (advance env (handler e) w) as [[[a|e']|p'] w']; reflexivity.
  - simpl. destruct (access env o w) as [x w']. apply IH.
  - reflexivity.
  - simpl. destruct (advance env child (fresh w)) as [st w']. apply IH.
  - simpl. destruct (lookup promise (settled w)) as [o|].
    + apply IH.
    + reflexivity.
  - simpl. destruct (gather promises (settled w)) as [o|].
    + apply IH.
    + reflexivity.
Qed.

(** Setting collection keys to [null] empties exactly these keys. *)
Lemma set_collections_null (toClear : list CollectionName) (s : Storage)
  (c : CollectionName) :
  cache (set_collections (map (fun c' => (c', None)) toClear) s) c
  = if cleared c toClear then None else cache s c.
Proof.
  unfold set_collections, cleared. simpl.
  generalize (cache s c) as found.
  induction toClear as [|c' toClear IH]; intros found; simpl.
  - reflexivity.
  - destruct (CollectionName_eqb c c') eqn:E; simpl.
    + rewrite IH. destruct (existsb (CollectionName_eqb c) toClear); reflexivity.
    + apply IH.
Qed.

(** The refetch after the reset is the user resolution wrapped in the
    [try] block: it waits where the user resolution waits; when the
    user resolution throws, the [catch] block decides. *)
Lemma refetchingAfter_advance (env : Collaborators) (toClear : list CollectionName)
  (resolution : Prog User) (w : World) :
  advance env (refetchingAfter toClear resolution) w
  = match advance env resolution w with
    | (Suspended resolution', w') =>
        (Suspended (refetchingAfter toClear resolution'), w')
    | (Finished (Rejected e), w') =>
        (Finished (if isLoggedOut e then Resolved VUndefined else Rejected e), w')
    | (Finished (Resolved user), w') =>
        advance env (refetchingAfter toClear (Return user)) w'
    end.
Proof.
  unfold refetchingAfter.
  rewrite advance_bind, advance_try_catch, advance_bind, advance_bind.
  destruct (advance env resolution w) as [[[user|e]|resolution'] w'].
  - rewrite advance_bind, advance_try_catch, advance_bind. reflexivity.
  - unfold refetchCollections_catch. destruct (isLoggedOut e); reflexivity.
  - reflexivity.
Qed.

(** C4, as the code has it.  [refetchCollections] first sets the cache
    entries of the collections to clear (all six by default) to
    [null], whoever is signed in; this is its first request, and the
    other stored values are left alone.  From then on it is the user
    resolution inside the [try] block: it waits where the user
    resolution waits and has the same effects; when the user
    resolution fails with the logged-out sentinel, the whole operation
    resolves with [undefined] at once, refetching nothing; when it
    fails with anything else, the operation rejects with that error. *)
Theorem refetchCollections_logged_out_resolves :
  forall (env : Collaborators) (w : World) (task : nat)
         (collections : list CollectionName),
    lookup task (tasks w) = Some (refetchCollections collections) ->
    (exists w1,
       step env w (Complete task) = Some w1
       /\ lookup task (tasks w1)
          = Some (refetchingAfter (collectionsToClear collections) getSignedInUser)
       /\ (forall c,
             cache (storage w1) c
             = if cleared c (collectionsToClear collections)
               then None
               else cache (storage w) c)
       /\ firebaseUser (storage w1) = firebaseUser (storage w)
       /\ supabaseSession (storage w1) = supabaseSession (storage w)
       /\ extensionData (storage w1) = extensionData (storage w)
       /\ trace w1 = trace w
       /\ settled w1 = settled w)
    /\ forall (resolution : Prog User) (w' : World),
         advance env (refetchingAfter (collectionsToClear collections) resolution) w'
         = match advance env resolution w' with
           | (Suspended resolution', w'') =>
               (Suspended
                  (refetchingAfter (collectionsToClear collections) resolution'),
                w'')
           | (Finished (Rejected e), w'') =>
               (Finished (if isLoggedOut e
                          then Resolved VUndefined
                          else Rejected e), w'')
           | (Finished (Resolved user), w'') =>
               advance env
                 (refetchingAfter (collectionsToClear collections) (Return user))
                 w''
           end.
Proof.
  intros env w task collections Ht. split.
  - eexists. split.
    + unfold step, completes. rewrite Ht. unfold refetchCollections. machine.
      change (refetchCollections_resolve (collectionsToClear collections))
        with (refetchingAfter (collectionsToClear collections) getSignedInUser).
      rewrite refetchingAfter_advance.
      unfold getSignedInUser at 1. machine. reflexivity.
    + split; [machine; reflexivity|].
      split; [intros c; records; apply set_collections_null|].
      repeat split.
  - intros resolution w'. apply refetchingAfter_advance.
Qed.

Lemma refetchCollections_logged_out_resolves_witness :
  (exists w1,
     step sampleCollaborators (calling (refetchCollections []) signedOutWithCache)
       (Complete 0%nat) = Some w1
     /\ lookup 0%nat (tasks w1)
        = Some (refetchingAfter (collectionsToClear []) getSignedInUser)
     /\ (forall c,
           cache (storage w1) c
           = if cleared c (collectionsToClear [])
             then None
             else cache (storage (calling (refetchCollections [])
                                    signedOutWithCache)) c)
     /\ firebaseUser (storage w1)
        = firebaseUser (storage (calling (refetchCollections []) signedOutWithCache))
     /\ supabaseSession (storage w1)
        = supabaseSession (storage (calling (refetchCollections [])
                                      signedOutWithCache))
     /\ extensionData (storage w1)
        = extensionData (storage (calling (refetchCollections [])
                                    signedOutWithCache))
     /\ trace w1 = trace (calling (refetchCollections []) signedOutWithCache)
     /\ settled w1 = settled (calling (refetchCollections []) signedOutWithCache))
  /\ forall (resolution : Prog User) (w' : World),
       advance sampleCollaborators
         (refetchingAfter (collectionsToClear []) resolution) w'
       = match advance sampleCollaborators resolution w' with
         | (Suspended resolution', w'') =>
             (Suspended (refetchingAfter (collectionsToClear []) resolution'), w'')
         | (Finished (Rejected e), w'') =>
             (Finished (if isLoggedOut e
                        then Resolved VUndefined
                        else Rejected e), w'')
         | (Finished (Resolved user), w'') =>
             advance sampleCollaborators
               (refetchingAfter (collectionsToClear []) (Return user)) w''
         end.
Proof.
  apply (refetchCollections_logged_out_resolves sampleCollaborators
           (calling (refetchCollections []) signedOutWithCache) 0%nat []).
  reflexivity.
Defined.

(** C4 as the specification states it fails: nobody is signed in and
    the templates of an earlier session are cached; [refetchCollections()]
    resolves with [undefined], and the cached templates are gone. *)
Lemma refetchCollections_logged_out_clears_cache :
  outcome 0%nat (the refetchedSignedOut) = Some (Resolved VUndefined)
  /\ cache (storage signedOutWithCache) templatesOwned
     = Some [("t1", sampleRow "t1" "mine" (Some "20"))]
  /\ cache (storage (the refetchedSignedOut)) templatesOwned = None
  /\ ~ cachesUnchanged signedOutWithCache (the refetchedSignedOut).
Proof.
  split; [vm_compute; reflexivity|].
  split; [vm_compute; reflexivity|].
  split; [vm_compute; reflexivity|].
  intros H. specialize (H templatesOwned). vm_compute in H. discriminate.
Qed.

(* ================================================================== *)
(** ** Further properties of the JavaScript fragment *)

Lemma keys_set_NoDup (V : Type) (k : string) (v : V) (o : Js.Obj V) :
  NoDup (Js.keys o) -> NoDup (Js.keys (Js.set k v o)).
Proof.
  induction o as [|[k0 v0] o IH]; simpl; intros Hnd.
  - constructor; [intros [] | constructor].
  - inversion Hnd as [|x l Hx Hl]; subst.
    destruct (String.eqb k k0) eqn:E; simpl.
    + constructor; assumption.
    + constructor; [|apply IH, Hl].
      intros H. apply Hx. clear IH Hnd Hl Hx.
      induction o as [|[k1 v1] o IH]; simpl in *.
      * destruct H as [H|[]]. apply String.eqb_neq in E. congruence.
      * destruct (String.eqb k k1); simpl in H.
        -- exact H.
        -- destruct H as [H|H]; [left; exact H | right; apply IH, H].
Qed.

Lemma keys_assign1_NoDup (V : Type) (target source : Js.Obj V) :
  NoDup (Js.keys target) -> NoDup (Js.keys (Js.assign1 target source)).
Proof.
  unfold Js.assign1. generalize (Js.keys source) as ks. intros ks. revert target.
  induction ks as [|k ks IH]; intros target Hnd; simpl.
  - exact Hnd.
  - apply IH. destruct (Js.get k source); [apply keys_set_NoDup|]; exact Hnd.
Qed.

Lemma keys_assign_NoDup (V : Type) (sources : list (Js.Obj V)) :
  forall target, NoDup (Js.keys target) -> NoDup (Js.keys (Js.assign target sources)).
Proof.
  unfold Js.assign. induction sources as [|s sources IH]; intros target Hnd; simpl.
  - exact Hnd.
  - apply IH, keys_assign1_NoDup, Hnd.
Qed.

Lemma find_last (A : Type) (p : A -> bool) (l : list A) (x : A) :
  find p (l ++ [x])
  = match find p l with
    | Some y => Some y
    | None => if p x then Some x else None
    end.
Proof.
  induction l as [|y l IH]; simpl.
  - reflexivity.
  - destruct (p y); [reflexivity | exact IH].
Qed.

Lemma insert_Permutation (A : Type) (comparefn : A -> A -> Js.Number) (x : A)
  (l : list A) :
  Permutation (Js.insert comparefn x l) (x :: l).
Proof.
  induction l as [|y l IH]; simpl.
  - apply Permutation_refl.
  - destruct (Js.after comparefn x y).
    + apply perm_trans with (y :: x :: l).
      * apply perm_skip, IH.
      * apply perm_swap.
    + apply Permutation_refl.
Qed.

(** Sorting rearranges: nothing is added, lost or repeated. *)
Lemma sort_Permutation (A : Type) (comparefn : A -> A -> Js.Number) (l : list A) :
  Permutation (Js.sort comparefn l) l.
Proof.
  induction l as [|x l IH]; simpl.
  - apply Permutation_refl.
  - apply perm_trans with (x :: Js.sort comparefn l).
    + apply insert_Permutation.
    + apply perm_skip, IH.
Qed.

Lemma firstn_NoDup_map (A B : Type) (f : A -> B) (n : nat) (l : list A) :
  NoDup (map f l) -> NoDup (map f (firstn n l)).
Proof.
  revert n. induction l as [|x l IH]; intros [|n] Hnd; simpl; try constructor.
  - inversion Hnd as [|y l' Hx Hl]; subst.
    intros H. apply Hx. apply in_map_iff in H. destruct H as [z [Hz Hin]].
    apply in_map_iff. exists z. split; [exact Hz|].
    eapply JsFacts.firstn_In, Hin.
  - inversion Hnd; subst. apply IH. assumption.
Qed.

Lemma sorted_firstn_skipn (A : Type) (R : A -> A -> Prop) (l : list A) :
  StronglySorted R l ->
  forall n a b, In a (firstn n l) -> In b (skipn n l) -> R a b.
Proof.
  intros Hs. induction Hs as [|x l Hs IH Hx]; intros [|n] a b Ha Hb; simpl in *;
    try contradiction.
  destruct Ha as [<-|Ha].
  - rewrite Forall_forall in Hx. apply Hx.
    rewrite <- (firstn_skipn n l). apply in_or_app. right. exact Hb.
  - exact (IH n a b Ha Hb).
Qed.

(* ================================================================== *)
(** ** The cache: [getCollection], [refreshLocalData], [updateCache] *)

(** [data[doc.id] = doc.data()] over the rows, from any starting
    object: the last row with an id is the one kept under it. *)
Lemma snapshot_get (docs : list Row) :
  forall (start : Collection) (key : string),
    Js.get key (fold_left (fun data doc => Js.set (row_id doc) doc data) docs start)
    = match find (fun doc => String.eqb key (row_id doc)) (rev docs) with
      | Some doc => Some doc
      | None => Js.get key start
      end.
Proof.
  induction docs as [|doc docs IH]; intros start key; simpl.
  - reflexivity.
  - rewrite IH, find_last, JsFacts.get_set.
    destruct (find (fun d => String.eqb key (row_id d)) (rev docs)); [reflexivity|].
    destruct (String.eqb key (row_id doc)); reflexivity.
Qed.

Lemma snapshot_NoDup (docs : list Row) :
  forall start : Collection,
    NoDup (Js.keys start) ->
    NoDup (Js.keys (fold_left (fun data doc => Js.set (row_id doc) doc data)
                      docs start)).
Proof.
  induction docs as [|doc docs IH]; intros start Hnd; simpl.
  - exact Hnd.
  - apply IH, keys_set_NoDup, Hnd.
Qed.

(** X5.  The mapping built from the rows of a response files every row
    under its own id: looking an id up yields the last row of the
    response with that id; every stored row is a row of the response and
    is found under its id; every row's id is a key; and no key occurs
    twice. *)
Theorem refreshLocalData_files_rows_by_id :
  forall docs : list Row,
    (forall key,
       Js.get key (snapshotData docs)
       = find (fun doc => String.eqb key (row_id doc)) (rev docs))
    /\ (forall key r, Js.get key (snapshotData docs) = Some r ->
          row_id r = key /\ In r docs)
    /\ (forall r, In r docs -> In (row_id r) (Js.keys (snapshotData docs)))
    /\ NoDup (Js.keys (snapshotData docs)).
Proof.
  intros docs.
  assert (forall key,
            Js.get key (snapshotData docs)
            = find (fun doc => String.eqb key (row_id doc)) (rev docs)) as Hget.
  { intros key. unfold snapshotData. rewrite snapshot_get.
    destruct (find _ (rev docs)); reflexivity. }
  split; [exact Hget|]. split; [|split].
  - intros key r H. rewrite Hget in H. apply find_some in H.
    destruct H as [Hin Heq]. apply String.eqb_eq in Heq. split.
    + symmetry. exact Heq.
    + apply in_rev. exact Hin.
  - intros r Hin. apply JsFacts.get_in_keys. rewrite Hget.
    destruct (find (fun doc => String.eqb (row_id r) (row_id doc)) (rev docs))
      as [r'|] eqn:F; [discriminate|].
    apply in_rev in Hin. pose proof (find_none _ _ F r Hin) as Hn.
    simpl in Hn. rewrite String.eqb_refl in Hn. discriminate.
  - apply snapshot_NoDup. constructor.
Qed.

Lemma collectionRequest_succeeds (env : Collaborators) (w : World) (request : nat)
  (c : CollectionName) (user : User) (res : Response) :
  lookup request (tasks w) = Some (collectionRequest c user) ->
  error res = None ->
  step env w (Reply request res)
  = Some (suspend request (updatingCache c (snapshotData (rowsOf res)))
            (with_queue c None (with_tasks (discard request (tasks w)) w))).
Proof.
  intros Hreq He. unfold step, completes. rewrite Hreq.
  unfold collectionRequest at 1. machine. rewrite He.
  unfold refreshLocalData, updateCache, updatingCache, rowsOf. machine. reflexivity.
Qed.

(** X1.  When the remote query of getCollection answers without an
    error, the request clears the in-flight marker of the collection,
    stores the rows as a mapping from row id to row under the
    collection's key (no rows when data is missing), emits the
    collection's update event once ('templates-updated' for the three
    template collections, '<name>-updated' for the others), records the
    current time as lastSync, and resolves with that mapping; the caller
    waiting for the request resolves with the same mapping. The other
    cached collections, the stored user and the word count are
    unchanged. *)
Theorem getCollection_fetch_fills_cache :
  forall (env : Collaborators) (w : World) (request caller : nat)
         (c : CollectionName) (user : User) (res : Response),
    lookup request (tasks w) = Some (collectionRequest c user) ->
    lookup caller (tasks w) = Some (awaitingRequest request) ->
    error res = None ->
    exists w',
      run env w [Reply request res; Complete request; Complete request;
                 Wake caller] = Some w'
      /\ outcome request w' = Some (Resolved (VCollection (snapshotData (rowsOf res))))
      /\ outcome caller w' = Some (Resolved (VCollection (snapshotData (rowsOf res))))
      /\ cache (storage w') c = Some (snapshotData (rowsOf res))
      /\ (forall c', c' <> c -> cache (storage w') c' = cache (storage w) c')
      /\ collectionRequestQueue w' c = None
      /\ lastSync (extensionData (storage w')) = Js.Val (Js.Num (clock w))
      /\ words (extensionData (storage w')) = words (extensionData (storage w))
      /\ firebaseUser (storage w') = firebaseUser (storage w)
      /\ trace w' = Emitted (eventName c) :: trace w
      /\ eventName c
         = match c with
           | templatesOwned | templatesShared | templatesEveryone =>
               "templates-updated"
           | _ => collectionKey c ++ "-updated"
           end.
Proof.
  intros env w request caller c user res Hreq Hcaller He.
  assert (caller <> request) as Hne.
  { intros E. rewrite E, Hreq in Hcaller. discriminate Hcaller. }
  eexists. split.
  { rewrite (run_cons env w _ _ _ (collectionRequest_succeeds env w request c user res Hreq He)).
    unfold updatingCache, updateCache.
    event. event.
    erewrite run_cons.
    2:{ unfold step. records. promises. rewrite lookup_discard by exact Hne.
        rewrite Hcaller. unfold awaitingRequest. records. promises.
        machine. reflexivity. }
    reflexivity. }
  split; [unfold outcome; records; rewrite lookup_skip by exact (not_eq_sym Hne); promises; reflexivity|].
  split; [unfold outcome; records; promises; reflexivity|].
  split; [records; simpl fold_left; cbn [fst snd];
          rewrite CollectionName_eqb_refl; reflexivity|].
  split.
  { intros c' Hc'. records. simpl fold_left. cbn [fst snd].
    destruct (CollectionName_eqb c' c) eqn:E; [|reflexivity].
    apply CollectionName_eqb_eq in E. contradiction. }
  split; [records; rewrite CollectionName_eqb_refl; reflexivity|].
  repeat split. destruct c; reflexivity.
Qed.

Lemma getCollection_fetch_fills_cache_witness :
  exists w',
    run sampleCollaborators (the fetchingTags)
      [Reply 1%nat sampleTagsResponse; Complete 1%nat; Complete 1%nat; Wake 0%nat] = Some w'
    /\ outcome 1%nat w' = Some (Resolved (VCollection (snapshotData (rowsOf sampleTagsResponse))))
    /\ outcome 0%nat w' = Some (Resolved (VCollection (snapshotData (rowsOf sampleTagsResponse))))
    /\ cache (storage w') tags = Some (snapshotData (rowsOf sampleTagsResponse))
    /\ (forall c', c' <> tags ->
          cache (storage w') c' = cache (storage (the fetchingTags)) c')
    /\ collectionRequestQueue w' tags = None
    /\ lastSync (extensionData (storage w'))
       = Js.Val (Js.Num (clock (the fetchingTags)))
    /\ words (extensionData (storage w'))
       = words (extensionData (storage (the fetchingTags)))
    /\ firebaseUser (storage w') = firebaseUser (storage (the fetchingTags))
    /\ trace w' = Emitted (eventName tags) :: trace (the fetchingTags)
    /\ eventName tags
       = match tags with
         | templatesOwned | templatesShared | templatesEveryone =>
             "templates-updated"
         | _ => collectionKey tags ++ "-updated"
         end.
Proof.
  apply (getCollection_fetch_fills_cache sampleCollaborators (the fetchingTags)
           1%nat 0%nat tags sampleUser sampleTagsResponse); reflexivity.
Defined.

(** X2.  With no request in progress for the collection and a value
    cached under its key, even an empty mapping, getCollection resolves
    with the cached value after its one storage read: no remote query is
    sent, nothing is stored, the marker stays unset and no other call is
    started. *)
Theorem getCollection_cached_is_not_fetched :
  forall (env : Collaborators) (w : World) (c : CollectionName) (user : User)
         (cached : Collection),
    collectionRequestQueue w c = None ->
    cache (storage w) c = Some cached ->
    exists w',
      run env w [Invoke (call_getCollection c user); Complete (nextPromise w)]
      = Some w'
      /\ outcome (nextPromise w) w' = Some (Resolved (VCollection cached))
      /\ trace w' = trace w
      /\ storage w' = storage w
      /\ collectionRequestQueue w' = collectionRequestQueue w
      /\ tasks w' = tasks w.
Proof.
  intros env w c user cached Hq Hc.
  eexists. split.
  { rewrite (run_cons env w _ _ _ (getCollection_called env w c user Hq)).
    erewrite run_cons.
    2:{ apply (readingCache_hit env _ (nextPromise w) c user cached).
        - records. apply lookup_head.
        - exact Hc. }
    reflexivity. }
  split; [unfold outcome; records; apply lookup_head|].
  records. rewrite discard_head. repeat split.
Qed.

Lemma getCollection_cached_is_not_fetched_witness :
  exists w',
    run sampleCollaborators (sampleWorld "free")
      [Invoke (call_getCollection templatesShared sampleUser);
       Complete (nextPromise (sampleWorld "free"))]
    = Some w'
    /\ outcome (nextPromise (sampleWorld "free")) w'
       = Some (Resolved (VCollection []))
    /\ trace w' = trace (sampleWorld "free")
    /\ storage w' = storage (sampleWorld "free")
    /\ collectionRequestQueue w' = collectionRequestQueue (sampleWorld "free")
    /\ tasks w' = tasks (sampleWorld "free").
Proof.
  apply (getCollection_cached_is_not_fetched sampleCollaborators
           (sampleWorld "free") templatesShared sampleUser []); reflexivity.
Defined.

Lemma awaitingRequest_resolves (env : Collaborators) (w : World)
  (caller request : nat) (rows : Collection) :
  lookup caller (tasks w) = Some (awaitingRequest request) ->
  lookup request (settled w) = Some (Resolved (VCollection rows)) ->
  step env w (Wake caller)
  = Some (settle caller (Resolved (VCollection rows))
            (with_tasks (discard caller (tasks w)) w)).
Proof.
  intros Hcaller Hreq. unfold step. rewrite Hcaller.
  unfold awaitingRequest. records. rewrite Hreq. machine. reflexivity.
Qed.

(** X3.  A getCollection call made while the marker of the collection
    names a pending request, for whatever user, reads nothing and sends
    nothing: it waits for that request and settles as the request does,
    with the same mapping or with the same error. *)
Theorem getCollection_late_caller_shares_request :
  forall (env : Collaborators) (w : World) (c : CollectionName) (user : User)
         (request : nat),
    collectionRequestQueue w c = Some request ->
    lookup request (settled w) = None ->
    exists w1,
      step env w (Invoke (call_getCollection c user)) = Some w1
      /\ lookup (nextPromise w) (tasks w1) = Some (awaitingRequest request)
      /\ trace w1 = trace w
      /\ storage w1 = storage w
      /\ collectionRequestQueue w1 = collectionRequestQueue w
      /\ (forall w2 rows,
            lookup (nextPromise w) (tasks w2) = Some (awaitingRequest request) ->
            lookup request (settled w2) = Some (Resolved (VCollection rows)) ->
            exists w3,
              step env w2 (Wake (nextPromise w)) = Some w3
              /\ outcome (nextPromise w) w3 = Some (Resolved (VCollection rows))
              /\ trace w3 = trace w2 /\ storage w3 = storage w2)
      /\ (forall w2 e,
            lookup (nextPromise w) (tasks w2) = Some (awaitingRequest request) ->
            lookup request (settled w2) = Some (Rejected e) ->
            exists w3,
              step env w2 (Wake (nextPromise w)) = Some w3
              /\ outcome (nextPromise w) w3 = Some (Rejected e)
              /\ trace w3 = trace w2 /\ storage w3 = storage w2).
Proof.
  intros env w c user request Hq Hp.
  eexists. split.
  { apply getCollection_joins_request_in_progress; [exact Hq | exact Hp]. }
  split; [records; apply lookup_head|].
  split; [reflexivity|]. split; [reflexivity|]. split; [reflexivity|].
  split.
  - intros w2 rows Ht Hs. eexists. split.
    + apply (awaitingRequest_resolves env w2 (nextPromise w) request rows Ht Hs).
    + unfold outcome. records. rewrite lookup_head. repeat split.
  - intros w2 e Ht Hs. eexists. split.
    + apply (awaitingRequest_rejects env w2 (nextPromise w) request e Ht Hs).
    + unfold outcome. records. rewrite lookup_head. repeat split.
Qed.

Lemma getCollection_late_caller_shares_request_witness :
  exists w1,
    step sampleCollaborators (the fetchingTags)
      (Invoke (call_getCollection tags sampleUser)) = Some w1
    /\ lookup (nextPromise (the fetchingTags)) (tasks w1) = Some (awaitingRequest 1)
    /\ trace w1 = trace (the fetchingTags)
    /\ storage w1 = storage (the fetchingTags)
    /\ collectionRequestQueue w1 = collectionRequestQueue (the fetchingTags)
    /\ (forall w2 rows,
          lookup (nextPromise (the fetchingTags)) (tasks w2)
          = Some (awaitingRequest 1) ->
          lookup 1%nat (settled w2) = Some (Resolved (VCollection rows)) ->
          exists w3,
            step sampleCollaborators w2 (Wake (nextPromise (the fetchingTags)))
            = Some w3
            /\ outcome (nextPromise (the fetchingTags)) w3
               = Some (Resolved (VCollection rows))
            /\ trace w3 = trace w2 /\ storage w3 = storage w2)
    /\ (forall w2 e,
          lookup (nextPromise (the fetchingTags)) (tasks w2)
          = Some (awaitingRequest 1) ->
          lookup 1%nat (settled w2) = Some (Rejected e) ->
          exists w3,
            step sampleCollaborators w2 (Wake (nextPromise (the fetchingTags)))
            = Some w3
            /\ outcome (nextPromise (the fetchingTags)) w3 = Some (Rejected e)
            /\ trace w3 = trace w2 /\ storage w3 = storage w2).
Proof.
  apply (getCollection_late_caller_shares_request sampleCollaborators
           (the fetchingTags) tags sampleUser 1%nat); reflexivity.
Defined.

(** X4.  The in-flight marker is cleared when the response arrives,
    before the rows are written to the cache. A getCollection call for
    the same collection made after a successful response arrived and
    before its cache write completed finds neither marker nor cached
    value, and sends a second remote query whose request becomes the
    marker. *)
Theorem getCollection_refetches_while_response_is_stored :
  forall (env : Collaborators) (w : World) (request : nat)
         (c : CollectionName) (user user' : User) (res : Response),
    wellFormed w ->
    lookup request (tasks w) = Some (collectionRequest c user) ->
    error res = None ->
    cache (storage w) c = None ->
    exists w',
      run env w [Reply request res;
                 Invoke (call_getCollection c user');
                 Complete (nextPromise w)] = Some w'
      /\ lookup request (tasks w')
         = Some (updatingCache c (snapshotData (rowsOf res)))
      /\ fetches c w' = S (fetches c w)
      /\ collectionRequestQueue w' c = Some (S (nextPromise w))
      /\ lookup (S (nextPromise w)) (tasks w') = Some (collectionRequest c user').
Proof.
  intros env w request c user user' res Hwf Hreq He Hc.
  destruct (Hwf (S (nextPromise w))) as [Hfresh _]; [lia|].
  assert (request < nextPromise w)%nat as Hlt
    by exact (wellFormed_pending w request _ Hwf Hreq).
  eexists. split.
  { rewrite (run_cons env w _ _ _
               (collectionRequest_succeeds env w request c user res Hreq He)).
    apply (getCollection_miss env
             (suspend request (updatingCache c (snapshotData (rowsOf res)))
                (with_queue c None (with_tasks (discard request (tasks w)) w)))
             c user').
    - records. rewrite CollectionName_eqb_refl. reflexivity.
    - exact Hc.
    - exact Hfresh. }
  split; [records; rewrite !lookup_skip by lia; apply lookup_head|].
  split.
  { unfold fetches. records. simpl filter.
    rewrite CollectionName_eqb_refl. reflexivity. }
  split; [records; rewrite CollectionName_eqb_refl; reflexivity|].
  records. rewrite lookup_skip by lia. apply lookup_head.
Qed.

Lemma getCollection_refetches_while_response_is_stored_witness :
  exists w',
    run sampleCollaborators (the fetchingTags)
      [Reply 1%nat sampleTagsResponse;
       Invoke (call_getCollection tags sampleUser);
       Complete (nextPromise (the fetchingTags))] = Some w'
    /\ lookup 1%nat (tasks w')
       = Some (updatingCache tags (snapshotData (rowsOf sampleTagsResponse)))
    /\ fetches tags w' = S (fetches tags (the fetchingTags))
    /\ collectionRequestQueue w' tags = Some (S (nextPromise (the fetchingTags)))
    /\ lookup (S (nextPromise (the fetchingTags))) (tasks w')
       = Some (collectionRequest tags sampleUser).
Proof.
  apply (getCollection_refetches_while_response_is_stored sampleCollaborators
           (the fetchingTags) 1%nat tags sampleUser sampleUser sampleTagsResponse).
  - intros p Hp. vm_compute in Hp.
    do 2 (destruct p as [|p]; [lia|]). split; reflexivity.
  - reflexivity.
  - reflexivity.
  - reflexivity.
Defined.

(* ================================================================== *)
(** ** The identity: [loadSession], [getSignedInUser], [setActiveCustomer] *)

Lemma run_app (env : Collaborators) (es1 es2 : list Event) :
  forall w w1 : World,
    run env w es1 = Some w1 -> run env w (es1 ++ es2) = run env w1 es2.
Proof.
  induction es1 as [|e es1 IH]; intros w w1 H; simpl in *.
  - injection H as <-. reflexivity.
  - destruct (step env w e) as [w'|]; [|discriminate]. exact (IH w' w1 H).
Qed.

Lemma getSignedInUser_eq :
  getSignedInUser
  = (storedUser <- await storage_get_user ;;
     firebaseUser <- getFirebaseUser ;;
     getSignedInUser_resolve storedUser firebaseUser).
Proof. reflexivity. Qed.

(** The cases of [loadSession]. *)
Ltac sessions w :=
  unfold identityEvents, liveUser, sessionToRestore in *;
  let Hl := fresh "Hloaded" in
  let Hs := fresh "Hsession" in
  let Ht := fresh "Htoken" in
  let Hu := fresh "Huser" in
  destruct (_sessionLoaded w) eqn:Hl;
  [ | destruct (supabaseSession (storage w)) as [?s|] eqn:Hs;
      [ match goal with
        | s : Session |- _ =>
            destruct (truthy (access_token s)) eqn:Ht;
            [ destruct (session_user s) as [?u|] eqn:Hu | ]
        end
      | ] ];
  cbn [app].

(** Running a call inside its surroundings. *)
Ltac inside HF :=
  repeat progress
    (records;
     rewrite ?(around_Sync HF), ?(around_Await HF), ?(around_Start HF),
       ?(around_Join HF), ?(around_JoinAll HF);
     machine; promises).

(** Resolving the identity: whatever surrounds [getSignedInUser], the
    call waits for the stored user, the session and the live user, and
    goes on with the decision on them; nothing is stored, observed or
    settled on the way. *)
Lemma getSignedInUser_identity (env : Collaborators) (F : Prog User -> Prog Value)
  (HF : Surroundings F) (w : World) (task : nat) :
  lookup task (tasks w) = Some (F getSignedInUser) ->
  exists w1,
    run env w (identityEvents w task)
    = Some (resume env task
              (F (getSignedInUser_resolve (firebaseUser (storage w)) (liveUser w)))
              w1)
    /\ storage w1 = storage w
    /\ collectionRequestQueue w1 = collectionRequestQueue w
    /\ lastSearchQuery w1 = lastSearchQuery w
    /\ _sessionLoaded w1 = true
    /\ currentUser w1 = liveUser w
    /\ clock w1 = clock w
    /\ deferred w1 = deferred w
    /\ trace w1 = trace w
    /\ settled w1 = settled w
    /\ tasks w1 = discard task (tasks w)
    /\ nextPromise w1 = nextPromise w.
Proof.
  intros Ht. rewrite getSignedInUser_eq in Ht.
  unfold getFirebaseUser, loadSession in Ht. cbn [bind await sync] in Ht.
  rewrite (around_Await HF) in Ht.
  sessions w.
  all: eexists; split;
    [ erewrite run_cons;
      [ | unfold step, completes; rewrite Ht; records; inside HF;
          rewrite ?Hloaded; inside HF; reflexivity ];
      repeat (erewrite run_cons;
              [ | unfold step, completes; records; promises;
                  rewrite ?Hsession, ?Htoken; inside HF; reflexivity ]);
      simpl run; rewrite <- resume_eq; rewrite ?Huser; reflexivity
    | ].
  all: records; rewrite ?Huser; records; repeat split; exact Hloaded.
Qed.

Lemma as_value_Surroundings (A : Type) (inj : A -> Value) :
  Surroundings (as_value inj).
Proof. constructor; reflexivity. Qed.

(** The same from the call on. *)
Lemma getSignedInUser_invoked (env : Collaborators) (F : Prog User -> Prog Value)
  (HF : Surroundings F) (w : World) :
  exists w1,
    run env w (Invoke (F getSignedInUser) :: identityEvents w (nextPromise w))
    = Some (resume env (nextPromise w)
              (F (getSignedInUser_resolve (firebaseUser (storage w)) (liveUser w)))
              w1)
    /\ storage w1 = storage w
    /\ collectionRequestQueue w1 = collectionRequestQueue w
    /\ lastSearchQuery w1 = lastSearchQuery w
    /\ _sessionLoaded w1 = true
    /\ currentUser w1 = liveUser w
    /\ clock w1 = clock w
    /\ deferred w1 = deferred w
    /\ trace w1 = trace w
    /\ settled w1 = settled w
    /\ tasks w1 = tasks w
    /\ nextPromise w1 = S (nextPromise w).
Proof.
  pose (w0 := suspend (nextPromise w) (F getSignedInUser) (fresh w)).
  assert (step env w (Invoke (F getSignedInUser)) = Some w0) as Hstep.
  { unfold step, w0. rewrite getSignedInUser_eq. cbn [bind await].
    rewrite (around_Await HF). machine. reflexivity. }
  destruct (getSignedInUser_identity env F HF w0 (nextPromise w)) as [w1 H].
  { unfold w0. records. apply lookup_head. }
  destruct H as [Hrun [H1 [H2 [H3 [H4 [H5 [H6 [H7 [H8 [H9 [H10 H11]]]]]]]]]]].
  exists w1. rewrite (run_cons env w _ _ _ Hstep).
  split; [exact Hrun|].
  unfold w0 in H10. cbn [tasks suspend] in H10. rewrite discard_head in H10.
  repeat split; assumption.
Qed.

Lemma otherIdentity_resolve (w : World) :
  otherIdentity w ->
  getSignedInUser_resolve (firebaseUser (storage w)) (liveUser w)
  = Throw LOGGED_OUT_ERR.
Proof.
  unfold otherIdentity, getSignedInUser_resolve.
  destruct (firebaseUser (storage w)) as [user|], (liveUser w) as [live|];
    intros H; try reflexivity; try contradiction.
  apply String.eqb_neq in H. rewrite H. reflexivity.
Qed.

(** Picking the parts of what is known about the world reached. *)
Ltac reached H :=
  let Hrun := fresh "Hrun" in
  let Hstorage := fresh "Hstorage" in
  let Hqueue := fresh "Hqueue" in
  let Hquery := fresh "Hquery" in
  let Hflag := fresh "Hflag" in
  let Hlive := fresh "Hlive" in
  let Hclock := fresh "Hclock" in
  let Hdeferred := fresh "Hdeferred" in
  let Htrace := fresh "Htrace" in
  let Hsettled := fresh "Hsettled" in
  let Htasks := fresh "Htasks" in
  let Hnext := fresh "Hnext" in
  destruct H as [Hrun [Hstorage [Hqueue [Hquery [Hflag [Hlive [Hclock
                [Hdeferred [Htrace [Hsettled [Htasks Hnext]]]]]]]]]]].

Lemma advance_changingCustomer (env : Collaborators) (customer : option string)
  (w : World) :
  advance env (changingCustomer customer) w
  = (Suspended (changingCustomer customer), w).
Proof. reflexivity. Qed.

#[global] Hint Resolve advance_changingCustomer : starting.

(** The stored user is the live one and the [users] collection is
    cached: whatever surrounds [getSignedInUser], the call goes on with
    the user and the active customer after one more storage read;
    nothing is sent, stored or observed, and [setActiveCustomer] is
    started when the stored customer is not the active one. *)
Lemma getSignedInUser_signed_in (env : Collaborators) (F : Prog User -> Prog Value)
  (HF : Surroundings F) (w : World) (task : nat) (user : User)
  (userRows : Collection) (customer : option string) :
  lookup task (tasks w) = Some (F getSignedInUser) ->
  firebaseUser (storage w) = Some user ->
  liveUser w = Some (user_id user) ->
  collectionRequestQueue w users = None ->
  cache (storage w) users = Some userRows ->
  activeCustomer user userRows = inr customer ->
  exists w2,
    run env w (identityEvents w task ++ [Complete task])
    = Some (resume env task (F (Return (signedInAs user customer))) w2)
    /\ storage w2 = storage w
    /\ collectionRequestQueue w2 = collectionRequestQueue w
    /\ lastSearchQuery w2 = lastSearchQuery w
    /\ _sessionLoaded w2 = true
    /\ currentUser w2 = liveUser w
    /\ clock w2 = clock w
    /\ deferred w2 = deferred w
    /\ trace w2 = trace w
    /\ settled w2 = settled w
    /\ tasks w2
       = ((if customerChanged user customer
           then [(nextPromise w, changingCustomer customer)]
           else []) ++ discard task (tasks w))%list
    /\ nextPromise w2
       = if customerChanged user customer
         then S (nextPromise w)
         else nextPromise w.
Proof.
  intros Ht Hstored Hmatch Hq Hcache Hactive.
  destruct (getSignedInUser_identity env F HF w task Ht) as [w1 H1].
  reached H1. rewrite Hstored, Hmatch in Hrun.
  rewrite (run_app env _ _ w _ Hrun).
  unfold getSignedInUser_resolve. rewrite String.eqb_refl.
  unfold getActiveCustomer, getCollection.
  destruct (customerChanged user customer) eqn:Hchanged.
  all: pose proof Hchanged as Htest; unfold customerChanged in Htest.
  all: eexists; split;
    [ inside HF; rewrite Hqueue, Hq; inside HF;
      erewrite run_cons;
      [ | unfold step, completes; records; promises; records;
          rewrite Hstorage, Hcache; unfold getCollection_then; inside HF;
          rewrite Hactive; inside HF; rewrite Htest; inside HF;
          reflexivity ];
      simpl run; first [reflexivity | rewrite <- resume_eq; reflexivity]
    | ].
  all: records; rewrite ?Hnext; repeat split; try assumption.
  all: rewrite Htasks; reflexivity.
Qed.

(** The same from the call on. *)
Lemma getSignedInUser_signed_in_invoked (env : Collaborators)
  (F : Prog User -> Prog Value) (HF : Surroundings F) (w : World) (user : User)
  (userRows : Collection) (customer : option string) :
  firebaseUser (storage w) = Some user ->
  liveUser w = Some (user_id user) ->
  collectionRequestQueue w users = None ->
  cache (storage w) users = Some userRows ->
  activeCustomer user userRows = inr customer ->
  exists w2,
    run env w ((Invoke (F getSignedInUser) :: identityEvents w (nextPromise w))
               ++ [Complete (nextPromise w)])
    = Some (resume env (nextPromise w) (F (Return (signedInAs user customer))) w2)
    /\ storage w2 = storage w
    /\ collectionRequestQueue w2 = collectionRequestQueue w
    /\ lastSearchQuery w2 = lastSearchQuery w
    /\ _sessionLoaded w2 = true
    /\ currentUser w2 = liveUser w
    /\ clock w2 = clock w
    /\ deferred w2 = deferred w
    /\ trace w2 = trace w
    /\ settled w2 = settled w
    /\ tasks w2
       = ((if customerChanged user customer
           then [(S (nextPromise w), changingCustomer customer)]
           else []) ++ tasks w)%list
    /\ nextPromise w2
       = if customerChanged user customer
         then S (S (nextPromise w))
         else S (nextPromise w).
Proof.
  intros Hstored Hmatch Hq Hcache Hactive.
  pose (w0 := suspend (nextPromise w) (F getSignedInUser) (fresh w)).
  assert (step env w (Invoke (F getSignedInUser)) = Some w0) as Hstep.
  { unfold step, w0. rewrite getSignedInUser_eq. cbn [bind await].
    rewrite (around_Await HF). machine. reflexivity. }
  destruct (getSignedInUser_signed_in env F HF w0 (nextPromise w) user userRows
              customer) as [w2 H2]; try assumption.
  { unfold w0. records. apply lookup_head. }
  reached H2. exists w2.
  rewrite <- app_comm_cons. rewrite (run_cons env w _ _ _ Hstep).
  split; [exact Hrun|].
  unfold w0 in Htasks, Hnext. cbn [tasks nextPromise suspend fresh] in Htasks, Hnext.
  rewrite discard_head in Htasks.
  repeat split; assumption.
Qed.

(** X6.  When the stored user is the user the auth client reports (once
    the stored session was restored, if it had not been loaded yet) and
    the users collection is cached, getSignedInUser resolves, after
    reading the stored user, the session, the live user and the cached
    users collection, with {id, customer}: the stored id and the active
    customer computed from the user's row. It sends nothing and stores
    nothing, and it starts setActiveCustomer(customer), without awaiting
    it, exactly when the stored customer is non-empty and differs from
    the active one. *)
Theorem getSignedInUser_resolves_stored_user :
  forall (env : Collaborators) (w : World) (user : User) (userRows : Collection)
         (customer : option string),
    firebaseUser (storage w) = Some user ->
    liveUser w = Some (user_id user) ->
    collectionRequestQueue w users = None ->
    cache (storage w) users = Some userRows ->
    activeCustomer user userRows = inr customer ->
    exists w',
      run env w ((Invoke call_getSignedInUser :: identityEvents w (nextPromise w))
                 ++ [Complete (nextPromise w)]) = Some w'
      /\ outcome (nextPromise w) w'
         = Some (Resolved (VUser {| user_id := user_id user;
                                    user_customer := customer |}))
      /\ storage w' = storage w
      /\ trace w' = trace w
      /\ tasks w'
         = ((if customerChanged user customer
             then [(S (nextPromise w), changingCustomer customer)]
             else []) ++ tasks w)%list.
Proof.
  intros env w user userRows customer Hstored Hmatch Hq Hcache Hactive.
  destruct (getSignedInUser_signed_in_invoked env (as_value VUser)
              (as_value_Surroundings User VUser) w user userRows customer
              Hstored Hmatch Hq Hcache Hactive) as [w2 H2].
  reached H2.
  eexists. split; [exact Hrun|].
  machine. repeat split; assumption.
Qed.

Lemma getSignedInUser_resolves_stored_user_witness :
  exists w',
    run sampleCollaborators (sampleWorld "free")
      ((Invoke call_getSignedInUser
        :: identityEvents (sampleWorld "free") (nextPromise (sampleWorld "free")))
       ++ [Complete (nextPromise (sampleWorld "free"))]) = Some w'
    /\ outcome (nextPromise (sampleWorld "free")) w'
       = Some (Resolved (VUser {| user_id := user_id sampleUser;
                                  user_customer := Some "c1" |}))
    /\ storage w' = storage (sampleWorld "free")
    /\ trace w' = trace (sampleWorld "free")
    /\ tasks w'
       = ((if customerChanged sampleUser (Some "c1")
           then [(S (nextPromise (sampleWorld "free")), changingCustomer (Some "c1"))]
           else []) ++ tasks (sampleWorld "free"))%list.
Proof.
  apply (getSignedInUser_resolves_stored_user sampleCollaborators
           (sampleWorld "free") sampleUser [("u1", sampleUserRow)] (Some "c1"));
    reflexivity.
Defined.

(** X7.  When nobody is stored as signed in, or the stored user's id
    differs from the id of the user the auth client reports,
    getSignedInUser rejects with the logged-out sentinel and changes
    nothing: storage is untouched, no event is emitted and no cache
    clear is started. *)
Theorem getSignedInUser_other_account_is_logged_out :
  forall (env : Collaborators) (w : World),
    otherIdentity w ->
    exists w',
      run env w (Invoke call_getSignedInUser :: identityEvents w (nextPromise w))
      = Some w'
      /\ outcome (nextPromise w) w' = Some (Rejected LOGGED_OUT_ERR)
      /\ storage w' = storage w
      /\ trace w' = trace w
      /\ tasks w' = tasks w.
Proof.
  intros env w H.
  destruct (getSignedInUser_invoked env (as_value VUser)
              (as_value_Surroundings User VUser) w) as [w1 H1].
  reached H1. rewrite (otherIdentity_resolve w H) in Hrun.
  eexists. split; [exact Hrun|].
  machine. repeat split; assumption.
Qed.

Lemma getSignedInUser_other_account_is_logged_out_witness :
  exists w',
    run sampleCollaborators otherAccountWorld
      (Invoke call_getSignedInUser
       :: identityEvents otherAccountWorld (nextPromise otherAccountWorld))
    = Some w'
    /\ outcome (nextPromise otherAccountWorld) w' = Some (Rejected LOGGED_OUT_ERR)
    /\ storage w' = storage otherAccountWorld
    /\ trace w' = trace otherAccountWorld
    /\ tasks w' = tasks otherAccountWorld.
Proof.
  apply (getSignedInUser_other_account_is_logged_out sampleCollaborators
           otherAccountWorld).
  unfold otherIdentity. simpl. discriminate.
Defined.

(** X8.  When a user is stored but the auth client reports none,
    getSignedInUser performs the automatic logout: it updates the badge
    to signed-out, starts clearDataCache without awaiting it, overwrites
    the stored user with the empty user, emits 'logout', and rejects
    with the logged-out sentinel. At that moment the cached collections
    and the extension data are still what they were: the cache clear is
    pending. *)
Theorem getSignedInUser_automatic_logout :
  forall (env : Collaborators) (w : World) (user : User),
    firebaseUser (storage w) = Some user ->
    liveUser w = None ->
    exists w',
      run env w ((Invoke call_getSignedInUser :: identityEvents w (nextPromise w))
                 ++ [Complete (nextPromise w)]) = Some w'
      /\ outcome (nextPromise w) w' = Some (Rejected LOGGED_OUT_ERR)
      /\ firebaseUser (storage w') = None
      /\ (forall c, cache (storage w') c = cache (storage w) c)
      /\ extensionData (storage w') = extensionData (storage w)
      /\ trace w' = Emitted "logout" :: Badge false :: trace w
      /\ lookup (S (nextPromise w)) (tasks w') = Some clearing.
Proof.
  intros env w user Hstored Hnone.
  destruct (getSignedInUser_invoked env (as_value VUser)
              (as_value_Surroundings User VUser) w) as [w1 H1].
  reached H1. rewrite Hstored, Hnone in Hrun.
  rewrite (run_app env _ _ w _ Hrun).
  unfold getSignedInUser_resolve, setSignedInUser.
  eexists. split.
  { machine. rewrite Hnext. event. reflexivity. }
  machine. promises. rewrite Hstorage, Htrace.
  repeat split.
Qed.

Lemma getSignedInUser_automatic_logout_witness :
  exists w',
    run sampleCollaborators expiredWorld
      ((Invoke call_getSignedInUser
        :: identityEvents expiredWorld (nextPromise expiredWorld))
       ++ [Complete (nextPromise expiredWorld)]) = Some w'
    /\ outcome (nextPromise expiredWorld) w' = Some (Rejected LOGGED_OUT_ERR)
    /\ firebaseUser (storage w') = None
    /\ (forall c, cache (storage w') c = cache (storage expiredWorld) c)
    /\ extensionData (storage w') = extensionData (storage expiredWorld)
    /\ trace w' = Emitted "logout" :: Badge false :: trace expiredWorld
    /\ lookup (S (nextPromise expiredWorld)) (tasks w') = Some clearing.
Proof.
  apply (getSignedInUser_automatic_logout sampleCollaborators expiredWorld
           sampleUser); reflexivity.
Defined.

(** X9.  Whenever the computation of getActiveCustomer returns, the
    user's row exists and carries a membership list, and the result is
    one of the memberships (undefined only when the list is empty): the
    stored customer when it is non-empty and still a membership, the
    first membership otherwise. *)
Theorem getActiveCustomer_returns_a_membership :
  forall (user : User) (userRows : Collection) (active : option string),
    activeCustomer user userRows = inr active ->
    exists userData memberships,
      Js.get (user_id user) userRows = Some userData
      /\ row_customers userData = Some memberships
      /\ match active with
         | Some c => In c memberships
         | None => memberships = []
         end
      /\ (forall stored,
            user_customer user = Some stored -> stored <> "" ->
            In stored memberships -> active = Some stored)
      /\ ((forall stored, user_customer user = Some stored ->
             ~ In stored memberships) ->
          active = hd_error memberships).
Proof.
  intros user userRows active H. unfold activeCustomer in H.
  destruct (Js.get (user_id user) userRows) as [userData|]; [|discriminate].
  destruct (row_customers userData) as [memberships|] eqn:Hm; [|discriminate].
  exists userData, memberships. split; [reflexivity|]. split; [exact Hm|].
  destruct (truthy (user_customer user)
            && existsb (fun m => same (Some m) (user_customer user)) memberships)
    eqn:E; injection H as <-.
  - apply andb_prop in E. destruct E as [Et Ee].
    apply existsb_exists in Ee. destruct Ee as [m [Hin Hs]].
    destruct (user_customer user) as [stored|] eqn:Eu; [|discriminate].
    simpl in Hs. apply String.eqb_eq in Hs. subst m.
    split; [exact Hin|]. split.
    + intros s Hs _ _. exact Hs.
    + intros Hnot. exfalso. exact (Hnot stored eq_refl Hin).
  - split.
    + destruct memberships as [|m ms]; simpl; [reflexivity | left; reflexivity].
    + split; [|reflexivity].
      intros stored Hs Hne Hin. rewrite Hs in E. simpl in E.
      apply String.eqb_neq in Hne. rewrite Hne in E. simpl in E.
      assert (existsb (fun m => String.eqb m stored) memberships = true) as Hex.
      { apply existsb_exists. exists stored. split; [exact Hin | apply String.eqb_refl]. }
      congruence.
Qed.

Lemma getActiveCustomer_returns_a_membership_witness :
  exists userData memberships,
    Js.get (user_id sampleUser) [("u1", sampleUserRow)] = Some userData
    /\ row_customers userData = Some memberships
    /\ match Some "c1" with
       | Some c => In c memberships
       | None => memberships = []
       end
    /\ (forall stored,
          user_customer sampleUser = Some stored -> stored <> "" ->
          In stored memberships -> Some "c1" = Some stored)
    /\ ((forall stored, user_customer sampleUser = Some stored ->
           ~ In stored memberships) ->
        Some "c1" = hd_error memberships).
Proof.
  apply (getActiveCustomer_returns_a_membership sampleUser
           [("u1", sampleUserRow)] (Some "c1")).
  reflexivity.
Defined.

(** [getSignedInUser] starts by reading the stored user. *)
Lemma advance_getSignedInUser (env : Collaborators) (w : World) :
  advance env getSignedInUser w = (Suspended getSignedInUser, w).
Proof. reflexivity. Qed.

(** X10.  With a live user, setActiveCustomer(customer) stores {id: live
    id, customer} as the signed-in user and resolves with undefined, and
    the refetch it launches resets exactly templatesOwned,
    templatesShared, templatesEveryone and tags: the cached users and
    customers collections are kept. Without a live user it rejects with
    a TypeError, stores nothing and launches no refetch. *)
Theorem setActiveCustomer_refetches_customer_data :
  forall (env : Collaborators) (w : World) (customer : option string),
    deferred w = [] ->
    match currentUser w with
    | Some uid =>
        exists w',
          run env w [Invoke (changingCustomer customer);
                     Complete (nextPromise w); Complete (nextPromise w);
                     Launch; Complete (S (nextPromise w))] = Some w'
          /\ outcome (nextPromise w) w' = Some (Resolved VUndefined)
          /\ firebaseUser (storage w')
             = Some {| user_id := uid; user_customer := customer |}
          /\ (forall c, cache (storage w') c
                        = if cleared c customerCollections
                          then None
                          else cache (storage w) c)
          /\ lookup (S (nextPromise w)) (tasks w')
             = Some (refetchingAfter customerCollections getSignedInUser)
          /\ trace w' = trace w
    | None =>
        exists w',
          run env w [Invoke (changingCustomer customer); Complete (nextPromise w)]
          = Some w'
          /\ outcome (nextPromise w) w' = Some (Rejected Js.TypeError)
          /\ storage w' = storage w
          /\ deferred w' = []
          /\ trace w' = trace w
    end.
Proof.
  intros env w customer Hdeferred.
  unfold changingCustomer, setActiveCustomer, setSignedInUser.
  destruct (currentUser w) as [uid|] eqn:Hlive.
  - eexists. split.
    { event. event. rewrite Hlive. event.
      erewrite run_cons.
      2:{ unfold step. records. rewrite Hdeferred. cbn [app].
          unfold refetchCollections. machine. reflexivity. }
      erewrite run_cons.
      2:{ unfold step, completes. records. promises. machine.
          fold customerCollections.
          change (refetchCollections_resolve (collectionsToClear customerCollections))
            with (refetchingAfter (collectionsToClear customerCollections)
                    getSignedInUser).
          rewrite refetchingAfter_advance, advance_getSignedInUser.
          machine. reflexivity. }
      reflexivity. }
    split; [machine; promises; reflexivity|].
    split; [reflexivity|].
    split; [intros c; records; apply (set_collections_null customerCollections)|].
    split; [records; promises; reflexivity|].
    reflexivity.
  - eexists. split.
    { event. event. rewrite Hlive. reflexivity. }
    machine. promises. repeat split. exact Hdeferred.
Qed.

Lemma setActiveCustomer_refetches_customer_data_witness :
  match currentUser (sampleWorld "free") with
  | Some uid =>
      exists w',
        run sampleCollaborators (sampleWorld "free")
          [Invoke (changingCustomer (Some "c2"));
           Complete (nextPromise (sampleWorld "free"));
           Complete (nextPromise (sampleWorld "free"));
           Launch; Complete (S (nextPromise (sampleWorld "free")))] = Some w'
        /\ outcome (nextPromise (sampleWorld "free")) w' = Some (Resolved VUndefined)
        /\ firebaseUser (storage w')
           = Some {| user_id := uid; user_customer := Some "c2" |}
        /\ (forall c, cache (storage w') c
                      = if cleared c customerCollections
                        then None
                        else cache (storage (sampleWorld "free")) c)
        /\ lookup (S (nextPromise (sampleWorld "free"))) (tasks w')
           = Some (refetchingAfter customerCollections getSignedInUser)
        /\ trace w' = trace (sampleWorld "free")
  | None =>
      exists w',
        run sampleCollaborators (sampleWorld "free")
          [Invoke (changingCustomer (Some "c2"));
           Complete (nextPromise (sampleWorld "free"))]
        = Some w'
        /\ outcome (nextPromise (sampleWorld "free")) w' = Some (Rejected Js.TypeError)
        /\ storage w' = storage (sampleWorld "free")
        /\ deferred w' = []
        /\ trace w' = trace (sampleWorld "free")
  end.
Proof.
  apply (setActiveCustomer_refetches_customer_data sampleCollaborators
           (sampleWorld "free") (Some "c2")).
  reflexivity.
Defined.

(** X11.  loadSession reads the stored session only while the module's
    flag is unset, and hands it to the auth client only when it has an
    access token; afterwards the flag is set and storage is unchanged,
    and a later loadSession call resolves at once, without any request,
    and changes nothing. *)
Theorem loadSession_restores_once :
  forall (env : Collaborators) (w : World),
    exists w',
      run env w (Invoke loadingSession :: sessionEvents w (nextPromise w)) = Some w'
      /\ outcome (nextPromise w) w' = Some (Resolved VUndefined)
      /\ _sessionLoaded w' = true
      /\ currentUser w' = liveUser w
      /\ storage w' = storage w
      /\ trace w' = trace w
      /\ tasks w' = tasks w
      /\ exists w'',
           step env w' (Invoke loadingSession) = Some w''
           /\ outcome (nextPromise w') w'' = Some (Resolved VUndefined)
           /\ currentUser w'' = currentUser w'
           /\ storage w'' = storage w'
           /\ trace w'' = trace w'
           /\ tasks w'' = tasks w'.
Proof.
  intros env w. unfold loadingSession, loadSession, sessionEvents, liveUser.
  unfold sessionToRestore.
  destruct (_sessionLoaded w) eqn:Hloaded;
    [ | destruct (supabaseSession (storage w)) as [s|] eqn:Hsession;
        [ destruct (truthy (access_token s)) eqn:Htoken;
          [ destruct (session_user s) as [u|] eqn:Huser | ]
        | ] ].
  all: eexists; split;
    [ repeat (event; rewrite ?Hloaded, ?Hsession, ?Htoken); reflexivity | ].
  all: machine; promises; rewrite ?Huser; records.
  all: repeat (split; [rewrite ?Hloaded; reflexivity|]).
  all: eexists; split; [unfold step; machine; rewrite ?Hloaded; machine; reflexivity|].
  all: machine; promises; repeat split.
Qed.

(** X12.  Round trip of the session: a session with an access token that
    the auth client reports through onAuthStateChange is written to
    storage by saveSession; in a new process over that storage, with the
    flag unset and no live user, the first loadSession hands it back to
    the auth client, so that the live user is the session's user again. *)
Theorem saved_session_is_restored_after_restart :
  forall (env : Collaborators) (w : World) (s : Session) (t : Z),
    truthy (access_token s) = true ->
    exists w1 w2,
      run env w [AuthStateChange (Some s); Complete (nextPromise w)] = Some w1
      /\ supabaseSession (storage w1) = Some s
      /\ currentUser w1 = session_user s
      /\ run env (boot (storage w1) None t)
           [Invoke loadingSession; Complete 0%nat; Complete 0%nat] = Some w2
      /\ currentUser w2 = session_user s
      /\ _sessionLoaded w2 = true.
Proof.
  intros env w s t Htoken.
  eexists. eexists. split.
  { erewrite run_cons.
    2:{ unfold step, saveSession. machine. reflexivity. }
    event. reflexivity. }
  split; [reflexivity|]. split; [reflexivity|]. split.
  { unfold loadingSession, loadSession, boot.
    event. event. rewrite Htoken. event. reflexivity. }
  records. destruct (session_user s); split; reflexivity.
Qed.

Lemma saved_session_is_restored_after_restart_witness :
  exists w1 w2,
    run sampleCollaborators signedOutWorld
      [AuthStateChange (Some sampleSession); Complete (nextPromise signedOutWorld)]
    = Some w1
    /\ supabaseSession (storage w1) = Some sampleSession
    /\ currentUser w1 = session_user sampleSession
    /\ run sampleCollaborators (boot (storage w1) None 2000)
         [Invoke loadingSession; Complete 0%nat; Complete 0%nat] = Some w2
    /\ currentUser w2 = session_user sampleSession
    /\ _sessionLoaded w2 = true.
Proof.
  apply (saved_session_is_restored_after_restart sampleCollaborators
           signedOutWorld sampleSession 2000).
  reflexivity.
Defined.

(* ================================================================== *)
(** ** The projections: [getTemplates], [getTags], [getSearchList] *)

Lemma getTemplates_Surroundings (env : Collaborators) :
  Surroundings (fun resolution : Prog User =>
    as_value VTemplates
      (try_catch
         (user <- resolution ;;
          freeCustomer <- isFree user ;;
          getTemplates_request env user freeCustomer)
         (getTemplates_catch env))).
Proof. constructor; reflexivity. Qed.

Lemma getTags_Surroundings (env : Collaborators) :
  Surroundings (fun resolution : Prog User =>
    as_value VTags
      (try_catch
         (user <- resolution ;;
          tagRows <- getCollection tags user ;;
          Return (tagList tagRows))
         (fun err => if isLoggedOut err then Return (defaultTags env) else Throw err))).
Proof. constructor; reflexivity. Qed.

(** X13.  When nobody is stored as signed in, or the stored user is not
    the user the auth client reports, getTemplates resolves with the
    default templates and getTags with the default tags after the
    identity reads only: no remote query is sent and storage is
    untouched. *)
Theorem getTemplates_and_getTags_default_when_signed_out :
  forall (env : Collaborators) (w : World),
    otherIdentity w ->
    (exists w',
       run env w (Invoke (call_getTemplates env)
                  :: identityEvents w (nextPromise w)) = Some w'
       /\ outcome (nextPromise w) w'
          = Some (Resolved (VTemplates (getDefaultTemplates env)))
       /\ storage w' = storage w
       /\ trace w' = trace w
       /\ tasks w' = tasks w)
    /\ (exists w',
          run env w (Invoke (call_getTags env)
                     :: identityEvents w (nextPromise w)) = Some w'
          /\ outcome (nextPromise w) w' = Some (Resolved (VTags (defaultTags env)))
          /\ storage w' = storage w
          /\ trace w' = trace w
          /\ tasks w' = tasks w).
Proof.
  intros env w H. split.
  - destruct (getSignedInUser_invoked env _ (getTemplates_Surroundings env) w)
      as [w1 H1].
    reached H1. rewrite (otherIdentity_resolve w H) in Hrun.
    eexists. split; [exact Hrun|].
    machine. unfold getTemplates_catch.
    change (isLoggedOut LOGGED_OUT_ERR) with true. machine.
    repeat split; assumption.
  - destruct (getSignedInUser_invoked env _ (getTags_Surroundings env) w)
      as [w1 H1].
    reached H1. rewrite (otherIdentity_resolve w H) in Hrun.
    eexists. split; [exact Hrun|].
    machine. change (isLoggedOut LOGGED_OUT_ERR) with true. machine.
    repeat split; assumption.
Qed.

Lemma getTemplates_and_getTags_default_when_signed_out_witness :
  (exists w',
     run sampleCollaborators signedOutWithCache
       (Invoke (call_getTemplates sampleCollaborators)
        :: identityEvents signedOutWithCache (nextPromise signedOutWithCache))
     = Some w'
     /\ outcome (nextPromise signedOutWithCache) w'
        = Some (Resolved (VTemplates (getDefaultTemplates sampleCollaborators)))
     /\ storage w' = storage signedOutWithCache
     /\ trace w' = trace signedOutWithCache
     /\ tasks w' = tasks signedOutWithCache)
  /\ (exists w',
        run sampleCollaborators signedOutWithCache
          (Invoke (call_getTags sampleCollaborators)
           :: identityEvents signedOutWithCache (nextPromise signedOutWithCache))
        = Some w'
        /\ outcome (nextPromise signedOutWithCache) w'
           = Some (Resolved (VTags (defaultTags sampleCollaborators)))
        /\ storage w' = storage signedOutWithCache
        /\ trace w' = trace signedOutWithCache
        /\ tasks w' = tasks signedOutWithCache).
Proof.
  apply (getTemplates_and_getTags_default_when_signed_out sampleCollaborators
           signedOutWithCache).
  exact I.
Defined.

(** [isFree] fails with a [TypeError] only. *)
Lemma isFreeCustomer_error (user : User) (customerRows : Collection) (e : Js.Error) :
  isFreeCustomer user customerRows = inl e -> e = Js.TypeError.
Proof.
  unfold isFreeCustomer. destruct (user_customer user) as [cid|].
  - destruct (Js.get cid customerRows); intros H; [discriminate | congruence].
  - congruence.
Qed.

(** X14.  For a signed-in user whose active customer is missing from the
    cached customers collection, or who has no active customer at all
    (no membership), isFree reads a property of undefined: getTemplates
    rejects with a TypeError instead of falling back to the default
    templates, and sends nothing. *)
Theorem getTemplates_unknown_customer_rejects :
  forall (env : Collaborators) (w : World) (user : User)
         (userRows customerRows : Collection) (customer : option string),
    firebaseUser (storage w) = Some user ->
    liveUser w = Some (user_id user) ->
    collectionRequestQueue w users = None ->
    cache (storage w) users = Some userRows ->
    activeCustomer user userRows = inr customer ->
    collectionRequestQueue w customers = None ->
    cache (storage w) customers = Some customerRows ->
    match customer with
    | Some cid => Js.get cid customerRows = None
    | None => True
    end ->
    exists w',
      run env w ((Invoke (call_getTemplates env)
                  :: identityEvents w (nextPromise w))
                 ++ [Complete (nextPromise w); Complete (nextPromise w)]) = Some w'
      /\ outcome (nextPromise w) w' = Some (Rejected Js.TypeError)
      /\ storage w' = storage w
      /\ trace w' = trace w.
Proof.
  intros env w user userRows customerRows customer
    Hstored Hmatch Hq Hcache Hactive Hq' Hcache' Hunknown.
  destruct (getSignedInUser_signed_in_invoked env _ (getTemplates_Surroundings env)
              w user userRows customer Hstored Hmatch Hq Hcache Hactive)
    as [w2 H2].
  reached H2.
  assert (isFreeCustomer (signedInAs user customer) customerRows = inl Js.TypeError)
    as Hfree.
  { unfold isFreeCustomer, signedInAs. simpl.
    destruct customer as [cid|]; [rewrite Hunknown|]; reflexivity. }
  change [Complete (nextPromise w); Complete (nextPromise w)]
    with ([Complete (nextPromise w)] ++ [Complete (nextPromise w)])%list.
  rewrite app_assoc. rewrite (run_app env _ _ w _ Hrun).
  unfold isFree, getCollection.
  eexists. split.
  { machine. rewrite Hqueue, Hq'. machine.
    erewrite run_cons.
    2:{ unfold step, completes. records. promises. records.
        rewrite Hstorage, Hcache'. unfold getCollection_then. machine.
        rewrite Hfree. machine. unfold getTemplates_catch.
        change (isLoggedOut Js.TypeError) with false. machine. reflexivity. }
    reflexivity. }
  machine. repeat split; assumption.
Qed.

Lemma getTemplates_unknown_customer_rejects_witness :
  exists w',
    run sampleCollaborators unknownCustomerWorld
      ((Invoke (call_getTemplates sampleCollaborators)
        :: identityEvents unknownCustomerWorld (nextPromise unknownCustomerWorld))
       ++ [Complete (nextPromise unknownCustomerWorld);
           Complete (nextPromise unknownCustomerWorld)]) = Some w'
    /\ outcome (nextPromise unknownCustomerWorld) w' = Some (Rejected Js.TypeError)
    /\ storage w' = storage unknownCustomerWorld
    /\ trace w' = trace unknownCustomerWorld.
Proof.
  apply (getTemplates_unknown_customer_rejects sampleCollaborators
           unknownCustomerWorld sampleUser [("u1", sampleUserRow)] []
           (Some "c1")); reflexivity.
Defined.

(** A call that finds no marker waits for its storage read. *)
Lemma advance_getCollection_call (env : Collaborators) (c : CollectionName)
  (user : User) (w : World) :
  collectionRequestQueue w c = None ->
  advance env (as_value VCollection (getCollection c user)) w
  = (Suspended (readingCache c user), w).
Proof.
  intros Hq. unfold getCollection. machine. rewrite Hq. machine. reflexivity.
Qed.

Lemma templateList_ids (env : Collaborators) (templates : Collection) :
  map id (templateList env templates) = Js.keys templates.
Proof.
  unfold templateList.
  assert (forall ks, (forall k, In k ks -> Js.get k templates <> None) ->
            map id (flat_map (fun key => match Js.get key templates with
                                         | Some template => [templateOf env key template]
                                         | None => []
                                         end) ks) = ks) as H.
  { induction ks as [|k ks IH]; intros Hk; simpl.
    - reflexivity.
    - destruct (Js.get k templates) as [r|] eqn:G.
      + simpl. rewrite IH; [reflexivity|]. intros k' Hk'. apply Hk. right. exact Hk'.
      + exfalso. apply (Hk k); [left; reflexivity | exact G]. }
  apply H. intros k Hk. apply JsFacts.get_in_keys. exact Hk.
Qed.

(** The elements and the length of the projected list, whatever its
    order. *)
Lemma projectTemplates_In (env : Collaborators) (freeCustomer : bool)
  (res : list Collection) (t : Template) :
  In t (projectTemplates env freeCustomer res) ->
  exists key r, Js.get key (mergeTemplates res) = Some r /\ t = templateOf env key r.
Proof.
  unfold projectTemplates, limitFree, Js.slice0. intros Ht.
  apply templateList_In. destruct freeCustomer; [|exact Ht].
  apply JsFacts.firstn_In in Ht. apply JsFacts.sort_In in Ht. exact Ht.
Qed.

Lemma projectTemplates_complete (env : Collaborators) (res : list Collection)
  (key : string) (r : Row) :
  Js.get key (mergeTemplates res) = Some r ->
  In (templateOf env key r) (projectTemplates env false res).
Proof.
  intros G. unfold projectTemplates, limitFree. apply templateList_In.
  exists key, r. split; [exact G | reflexivity].
Qed.

Lemma projectTemplates_length (env : Collaborators) (freeCustomer : bool)
  (res : list Collection) :
  List.length (projectTemplates env freeCustomer res)
  = if freeCustomer
    then Nat.min 30 (List.length (Js.keys (mergeTemplates res)))
    else List.length (Js.keys (mergeTemplates res)).
Proof.
  unfold projectTemplates, limitFree, Js.slice0, templatesFreeLimit.
  rewrite <- (templateList_ids env (mergeTemplates res)), length_map.
  destruct freeCustomer; [|reflexivity].
  rewrite length_firstn, JsFacts.sort_length. reflexivity.
Qed.

(** X23.  For a signed-in user with the users, customers and template
    collections cached and no request in progress, getTemplates resolves
    with templates built from the cached collections it requests (owned
    alone on the free plan; owned, shared and everyone, merged in this
    order, otherwise) after reading the identity, the cached users and
    customers collections and the requested template collections: every
    template returned is the projection of a record of the merge; off
    the free plan every record of the merge is returned, one template
    per id; on the free plan min(30, number of ids) templates are
    returned.  No remote query is sent and storage is unchanged. *)
Theorem getTemplates_serves_cached_collections :
  forall (env : Collaborators) (w : World) (user : User)
         (userRows customerRows owned shared everyone : Collection)
         (customer : option string) (free : bool),
    wellFormed w ->
    firebaseUser (storage w) = Some user ->
    liveUser w = Some (user_id user) ->
    cache (storage w) users = Some userRows ->
    activeCustomer user userRows = inr customer ->
    cache (storage w) customers = Some customerRows ->
    isFreeCustomer (signedInAs user customer) customerRows = inr free ->
    cache (storage w) templatesOwned = Some owned ->
    cache (storage w) templatesShared = Some shared ->
    cache (storage w) templatesEveryone = Some everyone ->
    (forall c, collectionRequestQueue w c = None) ->
    exists w' templates,
      run env w
        ((Invoke (call_getTemplates env) :: identityEvents w (nextPromise w))
         ++ [Complete (nextPromise w); Complete (nextPromise w)]
         ++ readsFrom (if customerChanged user customer
                       then S (S (nextPromise w))
                       else S (nextPromise w))
              (templateCollections free)
         ++ [Wake (nextPromise w)]) = Some w'
      /\ outcome (nextPromise w) w' = Some (Resolved (VTemplates templates))
      /\ (forall t, In t templates ->
            exists key r,
              Js.get key (mergeTemplates
                            (if free then [owned] else [owned; shared; everyone]))
              = Some r
              /\ t = templateOf env key r)
      /\ (free = false ->
          forall key r,
            Js.get key (mergeTemplates
                          (if free then [owned] else [owned; shared; everyone]))
            = Some r ->
            In (templateOf env key r) templates)
      /\ List.length templates
         = (if free
            then Nat.min 30
                   (List.length
                      (Js.keys (mergeTemplates
                                  (if free then [owned]
                                   else [owned; shared; everyone]))))
            else List.length
                   (Js.keys (mergeTemplates
                               (if free then [owned]
                                else [owned; shared; everyone]))))
      /\ storage w' = storage w
      /\ trace w' = trace w.
Proof.
  intros env w user userRows customerRows owned shared everyone customer free
    Hwf Hstored Hmatch Hcache Hactive Hcache' Hfree Ho Hs He Hq.
  destruct (getSignedInUser_signed_in_invoked env _ (getTemplates_Surroundings env)
              w user userRows customer Hstored Hmatch (Hq users) Hcache Hactive)
    as [w2 H2].
  reached H2.
  match goal with
  | |- context [([Complete ?n; Complete ?n] ++ ?rest)%list] =>
      change ([Complete n; Complete n] ++ rest)%list
        with ([Complete n] ++ (Complete n :: rest))%list
  end.
  rewrite app_assoc. rewrite (run_app env _ _ w _ Hrun).
  set (first := if customerChanged user customer
                then S (S (nextPromise w)) else S (nextPromise w)) in *.
  assert (nextPromise w < first)%nat as Hfirst
    by (unfold first; destruct (customerChanged user customer); lia).
  assert (forall p, (first <= p)%nat -> lookup p (settled w2) = None) as Hfresh.
  { intros p Hp. rewrite Hsettled. apply Hwf. lia. }
  pose proof (Hfresh first (Nat.le_refl _)) as Hf0.
  pose proof (Hfresh (S first) (Nat.le_succ_diag_r _)) as Hf1.
  assert (lookup (S (S first)) (settled w2) = None) as Hf2 by (apply Hfresh; lia).
  set (u := signedInAs user customer) in *.
  unfold isFree, getCollection at 1.
  unfold readsFrom, templateCollections.
  destruct free; simpl map; cbn [app].
  - eexists. exists (projectTemplates env true [owned]).
    split.
    { machine. rewrite Hqueue, (Hq customers). machine.
      erewrite run_cons.
      2:{ unfold step, completes. records. promises. records.
          rewrite Hstorage, Hcache'. unfold getCollection_then. machine.
          fold u. rewrite Hfree. machine.
          unfold getTemplates_request.
          machine.
          erewrite advance_Start_suspended
            by (apply advance_getCollection_call; records; rewrite Hqueue; apply Hq).
          machine. rewrite Hnext. unfold getTemplates_merge. machine.
          unfold gather. records. promises.
          rewrite Hf0. machine. reflexivity. }
      erewrite run_cons.
      2:{ apply (readingCache_hit env _ first templatesOwned u owned).
          - records. promises. reflexivity.
          - records. rewrite Hstorage. exact Ho. }
      erewrite run_cons.
      2:{ unfold step. records. promises. unfold gather. promises. machine.
          reflexivity. }
      reflexivity. }
    split; [simpl collections_of; machine; reflexivity|].
    split; [apply projectTemplates_In|].
    split; [intros E; discriminate E|].
    split; [apply projectTemplates_length|].
    machine. split; assumption.
  - eexists. exists (projectTemplates env false [owned; shared; everyone]).
    split.
    { machine. rewrite Hqueue, (Hq customers). machine.
      erewrite run_cons.
      2:{ unfold step, completes. records. promises. records.
          rewrite Hstorage, Hcache'. unfold getCollection_then. machine.
          fold u. rewrite Hfree. machine.
          unfold getTemplates_request.
          machine.
          erewrite advance_Start_suspended
            by (apply advance_getCollection_call; records; rewrite Hqueue; apply Hq).
          machine.
          erewrite advance_Start_suspended
            by (apply advance_getCollection_call; records; rewrite Hqueue; apply Hq).
          machine.
          erewrite advance_Start_suspended
            by (apply advance_getCollection_call; records; rewrite Hqueue; apply Hq).
          machine. rewrite Hnext. unfold getTemplates_merge. machine.
          unfold gather. records. promises.
          rewrite Hf0, Hf1, Hf2. machine. reflexivity. }
      erewrite run_cons.
      2:{ apply (readingCache_hit env _ first templatesOwned u owned).
          - records. promises. reflexivity.
          - records. rewrite Hstorage. exact Ho. }
      erewrite run_cons.
      2:{ apply (readingCache_hit env _ (S first) templatesShared u shared).
          - records. promises. reflexivity.
          - records. rewrite Hstorage. exact Hs. }
      erewrite run_cons.
      2:{ apply (readingCache_hit env _ (S (S first)) templatesEveryone u everyone).
          - records. promises. reflexivity.
          - records. rewrite Hstorage. exact He. }
      erewrite run_cons.
      2:{ unfold step. records. promises. unfold gather. promises. machine.
          reflexivity. }
      reflexivity. }
    split; [simpl collections_of; machine; reflexivity|].
    split; [apply projectTemplates_In|].
    split; [intros _; apply projectTemplates_complete|].
    split; [apply projectTemplates_length|].
    machine. split; assumption.
Qed.

Lemma getTemplates_serves_cached_collections_witness :
  exists w' templates,
    run sampleCollaborators (sampleWorld "pro")
      ((Invoke (call_getTemplates sampleCollaborators)
        :: identityEvents (sampleWorld "pro") (nextPromise (sampleWorld "pro")))
       ++ [Complete (nextPromise (sampleWorld "pro"));
           Complete (nextPromise (sampleWorld "pro"))]
       ++ readsFrom (if customerChanged sampleUser (Some "c1")
                     then S (S (nextPromise (sampleWorld "pro")))
                     else S (nextPromise (sampleWorld "pro")))
            (templateCollections false)
       ++ [Wake (nextPromise (sampleWorld "pro"))]) = Some w'
    /\ outcome (nextPromise (sampleWorld "pro")) w'
       = Some (Resolved (VTemplates templates))
    /\ (forall t, In t templates ->
          exists key r,
            Js.get key
              (mergeTemplates
                 (if false
                  then [[("t1", sampleRow "t1" "mine" (Some "20"))]]
                  else [[("t1", sampleRow "t1" "mine" (Some "20"))]; [];
                        [("t1", sampleRow "t1" "theirs" (Some "10"))]]))
            = Some r
            /\ t = templateOf sampleCollaborators key r)
    /\ (false = false ->
        forall key r,
          Js.get key
            (mergeTemplates
               (if false
                then [[("t1", sampleRow "t1" "mine" (Some "20"))]]
                else [[("t1", sampleRow "t1" "mine" (Some "20"))]; [];
                      [("t1", sampleRow "t1" "theirs" (Some "10"))]]))
          = Some r ->
          In (templateOf sampleCollaborators key r) templates)
    /\ List.length templates
       = (if false
          then Nat.min 30
                 (List.length
                    (Js.keys
                       (mergeTemplates
                          (if false
                           then [[("t1", sampleRow "t1" "mine" (Some "20"))]]
                           else [[("t1", sampleRow "t1" "mine" (Some "20"))]; [];
                                 [("t1", sampleRow "t1" "theirs" (Some "10"))]]))))
          else List.length
                 (Js.keys
                    (mergeTemplates
                       (if false
                        then [[("t1", sampleRow "t1" "mine" (Some "20"))]]
                        else [[("t1", sampleRow "t1" "mine" (Some "20"))]; [];
                              [("t1", sampleRow "t1" "theirs" (Some "10"))]]))))
    /\ storage w' = storage (sampleWorld "pro")
    /\ trace w' = trace (sampleWorld "pro").
Proof.
  apply (getTemplates_serves_cached_collections sampleCollaborators
           (sampleWorld "pro") sampleUser [("u1", sampleUserRow)]
           [("c1", sampleCustomerRow "pro")]
           [("t1", sampleRow "t1" "mine" (Some "20"))] []
           [("t1", sampleRow "t1" "theirs" (Some "10"))] (Some "c1") false).
  - intros p Hp. split; reflexivity.
  - reflexivity.
  - reflexivity.
  - reflexivity.
  - reflexivity.
  - reflexivity.
  - reflexivity.
  - reflexivity.
  - reflexivity.
  - reflexivity.
  - intros c. reflexivity.
Defined.

(** X15.  The list getTemplates builds from the requested collections,
    on either plan, holds no two templates with the same id, and every
    template in it is the projection, under its id, of a record of one
    of the collections. *)
Theorem getTemplates_ids_are_unique :
  forall (env : Collaborators) (freeCustomer : bool) (res : list Collection),
    NoDup (map id (projectTemplates env freeCustomer res))
    /\ forall t, In t (projectTemplates env freeCustomer res) ->
         exists c r, In c res /\ Js.get (id t) c = Some r
                     /\ t = templateOf env (id t) r.
Proof.
  intros env freeCustomer res.
  assert (NoDup (map id (templateList env (mergeTemplates res)))) as Hnd.
  { rewrite templateList_ids. unfold mergeTemplates.
    apply keys_assign_NoDup. constructor. }
  assert (forall t, In t (templateList env (mergeTemplates res)) ->
            exists c r, In c res /\ Js.get (id t) c = Some r
                        /\ t = templateOf env (id t) r) as Hsrc.
  { intros t Ht. apply templateList_In in Ht. destruct Ht as [key [r [G ->]]].
    simpl. unfold mergeTemplates, Js.assign in G.
    assert (forall (sources : list Collection) (target : Collection),
              Js.get key (fold_left (@Js.assign1 Row) sources target) = Some r ->
              Js.get key target = Some r
              \/ exists c, In c sources /\ Js.get key c = Some r) as Hfold.
    { induction sources as [|s sources IH]; intros target H; simpl in H.
      - left. exact H.
      - destruct (IH _ H) as [H'|[c [Hc Hg]]].
        + rewrite JsFacts.get_assign1 in H'.
          destruct (Js.get key s) as [r'|] eqn:Gs.
          * right. exists s. split; [left; reflexivity | congruence].
          * left. exact H'.
        + right. exists c. split; [right; exact Hc | exact Hg]. }
    destruct (Hfold res [] G) as [H|[c [Hc Hg]]]; [discriminate|].
    exists c, r. repeat split; assumption. }
  unfold projectTemplates, limitFree, Js.slice0.
  destruct freeCustomer.
  - split.
    + apply firstn_NoDup_map.
      apply (Permutation_NoDup
               (l := map id (templateList env (mergeTemplates res)))); [|exact Hnd].
      apply Permutation_map, Permutation_sym, sort_Permutation.
    + intros t Ht. apply Hsrc. apply JsFacts.firstn_In in Ht.
      apply JsFacts.sort_In in Ht. exact Ht.
  - split; [exact Hnd | exact Hsrc].
Qed.

(** X16.  On the free plan, when the creation dates of the owned
    records are valid dates, the limit keeps the oldest templates: every
    template kept was created no later than every owned template left
    out, by the creation dates of their records; with at most 30 owned
    templates none is left out; and the list has min(30, number of owned
    templates) elements. *)
Theorem getTemplates_free_plan_keeps_oldest :
  forall (env : Collaborators) (owned : Collection),
    validDates env owned ->
    (forall kept dropped,
       In kept (projectTemplates env true [owned]) ->
       In dropped (projectTemplates env false [owned]) ->
       ~ In dropped (projectTemplates env true [owned]) ->
       notLater env kept dropped)
    /\ ((List.length (projectTemplates env false [owned]) <= 30)%nat ->
        forall t, In t (projectTemplates env false [owned]) ->
                  In t (projectTemplates env true [owned]))
    /\ List.length (projectTemplates env true [owned])
       = Nat.min 30 (List.length (projectTemplates env false [owned])).
Proof.
  intros env owned Hv.
  unfold projectTemplates, limitFree, Js.slice0, templatesFreeLimit.
  set (l := templateList env (mergeTemplates [owned])).
  assert (StronglySorted (fun a b => createdMs env a <= createdMs env b)
            (Js.sort byCreated l)) as Hsorted.
  { apply JsFacts.sort_sorted. apply byCreated_by_key. exact Hv. }
  split; [|split].
  - intros kept dropped Hk Hd Hnot.
    assert (In dropped (skipn 30 (Js.sort byCreated l))) as Hskip.
    { apply (proj2 (JsFacts.sort_In byCreated dropped l)) in Hd.
      rewrite <- (firstn_skipn 30 (Js.sort byCreated l)) in Hd.
      apply in_app_or in Hd. destruct Hd as [Hd|Hd]; [contradiction | exact Hd]. }
    unfold notLater.
    rewrite (proj2 (createdTime_valid env owned kept Hv
                      (proj1 (JsFacts.sort_In byCreated kept l)
                         (JsFacts.firstn_In _ _ _ Hk)))).
    rewrite (proj2 (createdTime_valid env owned dropped Hv Hd)).
    exact (sorted_firstn_skipn _ _ _ Hsorted 30%nat kept dropped Hk Hskip).
  - intros Hlen t Ht.
    rewrite firstn_all2 by (rewrite JsFacts.sort_length; exact Hlen).
    apply JsFacts.sort_In. exact Ht.
  - rewrite length_firstn, JsFacts.sort_length. reflexivity.
Qed.

Lemma getTemplates_free_plan_keeps_oldest_witness :
  (forall kept dropped,
     In kept (projectTemplates isoCollaborators true [agedTemplates]) ->
     In dropped (projectTemplates isoCollaborators false [agedTemplates]) ->
     ~ In dropped (projectTemplates isoCollaborators true [agedTemplates]) ->
     notLater isoCollaborators kept dropped)
  /\ ((List.length (projectTemplates isoCollaborators false [agedTemplates])
       <= 30)%nat ->
      forall t,
        In t (projectTemplates isoCollaborators false [agedTemplates]) ->
        In t (projectTemplates isoCollaborators true [agedTemplates]))
  /\ List.length (projectTemplates isoCollaborators true [agedTemplates])
     = Nat.min 30
         (List.length (projectTemplates isoCollaborators false [agedTemplates])).
Proof.
  apply (getTemplates_free_plan_keeps_oldest isoCollaborators agedTemplates).
  apply validDates_check. reflexivity.
Defined.

(** Of the thirty-two templates of the sample, stored newest first, the
    two newest are left out. *)
Example getTemplates_free_plan_drops_newest :
  map id (projectTemplates isoCollaborators false [agedTemplates])
  = map (fun n => "t" ++ twoDigits n) (rev (seq 0 32))
  /\ map id (projectTemplates isoCollaborators true [agedTemplates])
     = map (fun n => "t" ++ twoDigits n) (seq 0 30).
Proof. split; vm_compute; reflexivity. Qed.

Lemma tagList_In (tagRows : Collection) (t : Tag) :
  In t (tagList tagRows)
  <-> exists key r,
        Js.get key tagRows = Some r
        /\ t = {| tag_id := row_id r; tag_title := row_title r |}.
Proof.
  unfold tagList. rewrite in_flat_map. split.
  - intros [key [_ Hin]].
    destruct (Js.get key tagRows) as [r|] eqn:G; simpl in Hin.
    + destruct Hin as [<-|[]]. exists key, r. split; [exact G | reflexivity].
    + contradiction.
  - intros [key [r [G ->]]]. exists key. split.
    + apply JsFacts.get_in_keys. congruence.
    + rewrite G. left. reflexivity.
Qed.

(** X17.  For a signed-in user with the users and tags collections
    cached, getTags resolves with exactly the entries of the cached tag
    records, each carrying the record's id and title, without sending
    anything or changing storage. *)
Theorem getTags_lists_cached_tags :
  forall (env : Collaborators) (w : World) (user : User)
         (userRows tagRows : Collection) (customer : option string),
    firebaseUser (storage w) = Some user ->
    liveUser w = Some (user_id user) ->
    collectionRequestQueue w users = None ->
    cache (storage w) users = Some userRows ->
    activeCustomer user userRows = inr customer ->
    collectionRequestQueue w tags = None ->
    cache (storage w) tags = Some tagRows ->
    exists w' allTags,
      run env w ((Invoke (call_getTags env) :: identityEvents w (nextPromise w))
                 ++ [Complete (nextPromise w); Complete (nextPromise w)]) = Some w'
      /\ outcome (nextPromise w) w' = Some (Resolved (VTags allTags))
      /\ (forall t, In t allTags
                    <-> exists key r,
                          Js.get key tagRows = Some r
                          /\ t = {| tag_id := row_id r; tag_title := row_title r |})
      /\ storage w' = storage w
      /\ trace w' = trace w.
Proof.
  intros env w user userRows tagRows customer
    Hstored Hmatch Hq Hcache Hactive Hq' Hcache'.
  destruct (getSignedInUser_signed_in_invoked env _ (getTags_Surroundings env)
              w user userRows customer Hstored Hmatch Hq Hcache Hactive)
    as [w2 H2].
  reached H2.
  change [Complete (nextPromise w); Complete (nextPromise w)]
    with ([Complete (nextPromise w)] ++ [Complete (nextPromise w)])%list.
  rewrite app_assoc. rewrite (run_app env _ _ w _ Hrun).
  unfold getCollection.
  eexists. exists (tagList tagRows). split.
  { machine. rewrite Hqueue, Hq'. machine.
    erewrite run_cons.
    2:{ unfold step, completes. records. promises. records.
        rewrite Hstorage, Hcache'. unfold getCollection_then. machine.
        reflexivity. }
    reflexivity. }
  machine. split; [reflexivity|].
  split; [intros t; apply tagList_In|].
  split; assumption.
Qed.

Lemma getTags_lists_cached_tags_witness :
  exists w' allTags,
    run sampleCollaborators taggedWorld
      ((Invoke (call_getTags sampleCollaborators)
        :: identityEvents taggedWorld (nextPromise taggedWorld))
       ++ [Complete (nextPromise taggedWorld);
           Complete (nextPromise taggedWorld)]) = Some w'
    /\ outcome (nextPromise taggedWorld) w' = Some (Resolved (VTags allTags))
    /\ (forall t, In t allTags
                  <-> exists key r,
                        Js.get key [("g1", sampleRow "g1" "work" None);
                                    ("g2", sampleRow "g2" "home" None)] = Some r
                        /\ t = {| tag_id := row_id r; tag_title := row_title r |})
    /\ storage w' = storage taggedWorld
    /\ trace w' = trace taggedWorld.
Proof.
  apply (getTags_lists_cached_tags sampleCollaborators taggedWorld
           sampleUser [("u1", sampleUserRow)]
           [("g1", sampleRow "g1" "work" None); ("g2", sampleRow "g2" "home" None)]
           (Some "c1")); reflexivity.
Defined.

(** The two cached tags of the sample come back with their ids and
    titles. *)
Example getTags_sample_tags :
  outcome 0%nat
    (the (run sampleCollaborators taggedWorld
            ((Invoke (call_getTags sampleCollaborators)
              :: identityEvents taggedWorld (nextPromise taggedWorld))
             ++ [Complete (nextPromise taggedWorld);
                 Complete (nextPromise taggedWorld)])))
  = Some (Resolved (VTags [{| tag_id := "g1"; tag_title := Some "work" |};
                           {| tag_id := "g2"; tag_title := Some "home" |}])).
Proof. vm_compute. reflexivity. Qed.

(** X18.  getSearchList returns one search item per template, in order;
    each item's body is the template's plaintext, and its tags are
    titles of known tags whose ids the template carries. parseTags
    returns known tags only, in the order of the given ids: the ids of
    its result are the given ids that some known tag has. *)
Theorem getSearchList_keeps_known_tags :
  forall (templates : list Template) (allTags : list Tag),
    map item (getSearchList templates allTags) = templates
    /\ (forall tagIds,
          map tag_id (parseTags tagIds allTags)
          = filter (fun tagId =>
                      existsb (fun t => String.eqb (tag_id t) tagId) allTags)
                   tagIds)
    /\ forall s, In s (getSearchList templates allTags) ->
         body s = _body_plaintext (item s)
         /\ forall title, In title (item_tags s) ->
              exists t, In t allTags /\ tag_title t = title
                        /\ In (tag_id t) (row_tags (row (parsed (item s)))).
Proof.
  intros templates allTags. split; [|split].
  - unfold getSearchList. rewrite map_map. simpl. apply map_id.
  - induction tagIds as [|tagId tagIds IH]; simpl.
    + reflexivity.
    + rewrite map_app, IH.
      destruct (find (fun t => String.eqb (tag_id t) tagId) allTags) as [t|] eqn:F.
      * apply find_some in F as F'. destruct F' as [Hin Heq].
        assert (existsb (fun t => String.eqb (tag_id t) tagId) allTags = true) as E.
        { apply existsb_exists. exists t. split; assumption. }
        rewrite E. simpl. apply String.eqb_eq in Heq. rewrite Heq. reflexivity.
      * assert (existsb (fun t => String.eqb (tag_id t) tagId) allTags = false) as E.
        { apply not_true_is_false. intros H. apply existsb_exists in H.
          destruct H as [t [Hin Heq]]. rewrite (find_none _ _ F t Hin) in Heq.
          discriminate. }
        rewrite E. reflexivity.
  - intros s Hs. unfold getSearchList in Hs. apply in_map_iff in Hs.
    destruct Hs as [template [<- _]]. simpl. split; [reflexivity|].
    intros title Ht. apply in_map_iff in Ht. destruct Ht as [t [<- Ht]].
    unfold parseTags in Ht. apply in_flat_map in Ht.
    destruct Ht as [tagId [Hid Ht]].
    destruct (find (fun t' => String.eqb (tag_id t') tagId) allTags) as [t'|] eqn:F;
      simpl in Ht; [|contradiction].
    destruct Ht as [<-|[]]. apply find_some in F. destruct F as [Hin Heq].
    apply String.eqb_eq in Heq. exists t'. rewrite Heq. repeat split; assumption.
Qed.

(* ================================================================== *)
(** ** The sync controller: [refetchCollections], [autosync], [isCached] *)

Lemma startedReading_same (cs : list CollectionName) (user : User) :
  forall w : World,
    storage (startedReading cs user w) = storage w
    /\ collectionRequestQueue (startedReading cs user w) = collectionRequestQueue w
    /\ trace (startedReading cs user w) = trace w
    /\ settled (startedReading cs user w) = settled w
    /\ deferred (startedReading cs user w) = deferred w
    /\ nextPromise (startedReading cs user w)
       = (nextPromise w + List.length cs)%nat.
Proof.
  induction cs as [|c cs IH]; intros w; simpl.
  - repeat split. lia.
  - destruct (IH (suspend (nextPromise w) (readingCache c user) (fresh w)))
      as [H1 [H2 [H3 [H4 [H5 H6]]]]].
    rewrite H1, H2, H3, H4, H5, H6. simpl. repeat split. lia.
Qed.

Lemma startedReading_older (cs : list CollectionName) (user : User) :
  forall (w : World) (p : nat),
    (p < nextPromise w)%nat ->
    lookup p (tasks (startedReading cs user w)) = lookup p (tasks w).
Proof.
  induction cs as [|c cs IH]; intros w p Hp; simpl.
  - reflexivity.
  - rewrite IH by (simpl; lia). simpl tasks. apply lookup_skip. lia.
Qed.

Lemma startedReading_tasks (cs : list CollectionName) (user : User) :
  forall (w : World) (i : nat) (c : CollectionName),
    nth_error cs i = Some c ->
    lookup (nextPromise w + i) (tasks (startedReading cs user w))
    = Some (readingCache c user).
Proof.
  induction cs as [|c0 cs IH]; intros w i c Hi.
  - destruct i; discriminate.
  - destruct i as [|i]; simpl in Hi; simpl startedReading.
    + injection Hi as ->. rewrite startedReading_older by (simpl; lia).
      simpl tasks. rewrite Nat.add_0_r. apply lookup_head.
    + rewrite <- (IH (suspend (nextPromise w) (readingCache c0 user) (fresh w))
                    i c Hi).
      simpl nextPromise. f_equal. lia.
Qed.

(** Calling [getCollection] for each collection of a list starts one
    call per collection, in order. *)
Lemma advance_start_all (env : Collaborators) (user : User)
  (cs : list CollectionName) :
  forall w : World,
    (forall c, In c cs -> collectionRequestQueue w c = None) ->
    advance env
      (start_all (map (fun c => as_value VCollection (getCollection c user)) cs)) w
    = (Finished (Resolved (seq (nextPromise w) (List.length cs))),
       startedReading cs user w).
Proof.
  induction cs as [|c cs IH]; intros w Hq.
  - reflexivity.
  - simpl map. simpl start_all. cbn [bind start].
    erewrite advance_Start_suspended.
    2:{ unfold getCollection. machine. rewrite (Hq c) by (left; reflexivity).
        machine. reflexivity. }
    cbn [bind]. rewrite advance_bind. rewrite IH.
    + reflexivity.
    + intros c' Hc'. simpl. apply Hq. right. exact Hc'.
Qed.

Lemma withoutShared_In (c : CollectionName) (cs : list CollectionName) :
  In c (withoutShared cs)
  <-> In c cs /\ c <> templatesShared /\ c <> templatesEveryone.
Proof.
  unfold withoutShared. rewrite filter_In. split.
  - intros [Hin H]. split; [exact Hin|].
    destruct c; simpl in H; try discriminate; split; discriminate.
  - intros [Hin [H1 H2]]. split; [exact Hin|].
    destruct c; try reflexivity; contradiction.
Qed.

Lemma refetching_Surroundings (toClear : list CollectionName) :
  Surroundings (refetchingAfter toClear).
Proof. constructor; reflexivity. Qed.

(** X19.  After the reset, for a signed-in user with the users and
    customers collections cached and no request in progress,
    refetchCollections starts exactly one getCollection call per
    collection to refetch, in order, each beginning with its storage
    read: all cleared collections on a paid plan; on the free plan the
    cleared collections other than templatesShared and
    templatesEveryone, which therefore stay reset. Nothing is sent or
    stored up to that point. *)
Theorem refetchCollections_free_plan_skips_shared_templates :
  forall (env : Collaborators) (w : World) (task : nat)
         (toClear : list CollectionName) (user : User)
         (userRows customerRows : Collection) (customer : option string)
         (free : bool),
    wellFormed w ->
    lookup task (tasks w) = Some (refetchingAfter toClear getSignedInUser) ->
    firebaseUser (storage w) = Some user ->
    liveUser w = Some (user_id user) ->
    cache (storage w) users = Some userRows ->
    activeCustomer user userRows = inr customer ->
    cache (storage w) customers = Some customerRows ->
    isFreeCustomer (signedInAs user customer) customerRows = inr free ->
    (forall c, collectionRequestQueue w c = None) ->
    exists w',
      run env w (identityEvents w task ++ [Complete task; Complete task]) = Some w'
      /\ (forall i c,
            nth_error (collectionsToRefetch free toClear) i = Some c ->
            lookup ((if customerChanged user customer
                     then S (nextPromise w)
                     else nextPromise w) + i) (tasks w')
            = Some (readingCache c (signedInAs user customer)))
      /\ nextPromise w'
         = ((if customerChanged user customer
             then S (nextPromise w)
             else nextPromise w)
            + List.length (collectionsToRefetch free toClear))%nat
      /\ (free = true ->
          forall c, In c (collectionsToRefetch free toClear)
                    <-> In c toClear /\ c <> templatesShared
                        /\ c <> templatesEveryone)
      /\ (free = false -> collectionsToRefetch free toClear = toClear)
      /\ storage w' = storage w
      /\ trace w' = trace w.
Proof.
  intros env w task toClear user userRows customerRows customer free
    Hwf Ht Hstored Hmatch Hcache Hactive Hcache' Hfree Hq.
  assert (task < nextPromise w)%nat as Hlt
    by exact (wellFormed_pending w task _ Hwf Ht).
  destruct (getSignedInUser_signed_in env _ (refetching_Surroundings toClear)
              w task user userRows customer Ht Hstored Hmatch (Hq users)
              Hcache Hactive) as [w2 H2].
  reached H2.
  change [Complete task; Complete task]
    with ([Complete task] ++ [Complete task])%list.
  rewrite app_assoc. rewrite (run_app env _ _ w _ Hrun).
  set (first := if customerChanged user customer
                then S (nextPromise w) else nextPromise w) in *.
  assert (nextPromise w <= first)%nat as Hfirst
    by (unfold first; destruct (customerChanged user customer); lia).
  set (u := signedInAs user customer) in *.
  set (cs := collectionsToRefetch free toClear).
  unfold refetchingAfter, refetchCollections_plan, isFree.
  unfold getCollection at 1.
  eexists. split.
  { machine. rewrite Hqueue, (Hq customers). machine.
    erewrite run_cons.
    2:{ unfold step, completes. records. promises. records.
        rewrite Hstorage, Hcache'. unfold getCollection_then. machine.
        fold u. rewrite Hfree. machine.
        fold (collectionsToRefetch free toClear). fold cs.
        rewrite advance_bind, advance_try_catch, advance_bind.
        rewrite advance_start_all
          by (intros c _; records; rewrite Hqueue; apply Hq).
        unfold refetchCollections_return. machine.
        reflexivity. }
    reflexivity. }
  match goal with
  | |- context [startedReading cs u ?W] => set (w0 := W)
  end.
  assert (nextPromise w0 = first) as Hnext0 by exact Hnext.
  destruct (startedReading_same cs u w0) as [Hs1 [Hs2 [Hs3 [Hs4 [Hs5 Hs6]]]]].
  assert (forall i c, nth_error cs i = Some c ->
            lookup (first + i) (tasks (startedReading cs u w0))
            = Some (readingCache c u)) as Hstarted.
  { intros i c Hi. rewrite <- Hnext0. apply startedReading_tasks. exact Hi. }
  assert (free = true ->
          forall c, In c cs <-> In c toClear /\ c <> templatesShared
                                /\ c <> templatesEveryone) as Hshared.
  { intros -> c. apply withoutShared_In. }
  destruct (gather (seq (nextPromise w2) (List.length cs))
              (settled (startedReading cs u w0))) as [[vs|e]|];
    [destruct (collections_of vs)| |]; machine.
  all: rewrite Hs1, Hs3, Hs6, Hnext0.
  all: split; [|split; [reflexivity
                       |split; [exact Hshared
                               |split; [intros ->; reflexivity
                                       |split; assumption]]]].
  all: intros i c Hi; try (rewrite lookup_skip by lia); apply Hstarted; exact Hi.
Qed.

Lemma refetchCollections_free_plan_skips_shared_templates_witness :
  exists w',
    run sampleCollaborators (refetchingCustomerData "free")
      (identityEvents (refetchingCustomerData "free") 0
       ++ [Complete 0%nat; Complete 0%nat]) = Some w'
    /\ (forall i c,
          nth_error (collectionsToRefetch true customerCollections) i = Some c ->
          lookup ((if customerChanged sampleUser (Some "c1")
                   then S (nextPromise (refetchingCustomerData "free"))
                   else nextPromise (refetchingCustomerData "free")) + i)
            (tasks w')
          = Some (readingCache c (signedInAs sampleUser (Some "c1"))))
    /\ nextPromise w'
       = ((if customerChanged sampleUser (Some "c1")
           then S (nextPromise (refetchingCustomerData "free"))
           else nextPromise (refetchingCustomerData "free"))
          + List.length (collectionsToRefetch true customerCollections))%nat
    /\ (true = true ->
        forall c, In c (collectionsToRefetch true customerCollections)
                  <-> In c customerCollections /\ c <> templatesShared
                      /\ c <> templatesEveryone)
    /\ (true = false ->
        collectionsToRefetch true customerCollections = customerCollections)
    /\ storage w' = storage (refetchingCustomerData "free")
    /\ trace w' = trace (refetchingCustomerData "free").
Proof.
  apply (refetchCollections_free_plan_skips_shared_templates sampleCollaborators
           (refetchingCustomerData "free") 0%nat customerCollections sampleUser
           [("u1", sampleUserRow)] [("c1", sampleCustomerRow "free")] (Some "c1")
           true).
  - intros p Hp. vm_compute in Hp.
    destruct p as [|p]; [lia|]. split; reflexivity.
  - reflexivity.
  - reflexivity.
  - reflexivity.
  - reflexivity.
  - reflexivity.
  - reflexivity.
  - reflexivity.
  - intros c. reflexivity.
Defined.

(** X20.  With a lastSync that is a valid date (null counts as the
    epoch), a numeric timeout and a difference now - lastSync that is a
    safe integer (at most 2^53 - 1 in magnitude, so that the subtraction
    of doubles is exact), autosync continues with refetchCollections()
    exactly when now - lastSync > timeout, strictly; otherwise, also at
    exactly the timeout, it resolves with undefined and changes
    nothing. *)
Theorem autosync_refetches_only_after_timeout :
  forall (env : Collaborators) (w : World) (task : nat) (timeout last : Z),
    lookup task (tasks w) = Some (autosync (Js.Num timeout)) ->
    Js.new_Date (lastSync (extensionData (storage w))) = Js.Num last ->
    Z.abs (clock w) <= Js.maxTime ->
    Js.isSafeInteger (clock w - last) = true ->
    step env w (Complete task)
    = Some (if timeout <? clock w - last
            then suspend task (refetchCollections [])
                   (with_tasks (discard task (tasks w)) w)
            else settle task (Resolved VUndefined)
                   (with_tasks (discard task (tasks w)) w)).
Proof.
  intros env w task timeout last Ht Hlast Hclock Hsafe.
  unfold step, completes. rewrite Ht. unfold autosync. machine.
  unfold syncDue. rewrite Hlast. unfold Js.TimeClip.
  apply Z.leb_le in Hclock. rewrite Hclock.
  rewrite JsFacts.sub_safe by exact Hsafe. cbn [Js.gt].
  destruct (timeout <? clock w - last); machine; reflexivity.
Qed.

Lemma autosync_refetches_only_after_timeout_witness :
  step sampleCollaborators staleSync (Complete 0%nat)
  = Some (if defaultSyncTimeout <? clock staleSync - 0
          then suspend 0%nat (refetchCollections [])
                 (with_tasks (discard 0%nat (tasks staleSync)) staleSync)
          else settle 0%nat (Resolved VUndefined)
                 (with_tasks (discard 0%nat (tasks staleSync)) staleSync)).
Proof.
  apply (autosync_refetches_only_after_timeout sampleCollaborators staleSync
           0%nat defaultSyncTimeout 0).
  - reflexivity.
  - reflexivity.
  - vm_compute. discriminate.
  - reflexivity.
Defined.

(** Beyond the safe integers the difference is rounded: at the latest
    time a [Date] can hold, with a [lastSync] three milliseconds after
    the earliest one, the difference 17279999999999997 is read as
    17279999999999996, which is not past a timeout of that value. *)
Example syncDue_rounds_the_difference :
  syncDue Js.maxTime
    {| words := Js.Undefined;
       lastSync := Js.Val (Js.Num (3 - Js.maxTime));
       templatesLastUsed := None |}
    (Js.Num 17279999999999996)
  = false
  /\ (17279999999999996 <? Js.maxTime - (3 - Js.maxTime)) = true.
Proof. split; vm_compute; reflexivity. Qed.

(** X21.  While the owned templates are being fetched and nothing is
    cached for them, isCached resolves with false and changes nothing;
    once a successful response has been stored, isCached resolves with
    true, also when the response had no rows (an empty mapping counts as
    cached). *)
Theorem isCached_follows_owned_templates_fetch :
  forall (env : Collaborators) (w : World) (request : nat) (user : User)
         (res : Response),
    wellFormed w ->
    lookup request (tasks w) = Some (collectionRequest templatesOwned user) ->
    cache (storage w) templatesOwned = None ->
    error res = None ->
    (exists w',
       run env w [Invoke call_isCached; Complete (nextPromise w)] = Some w'
       /\ outcome (nextPromise w) w' = Some (Resolved (VBool false))
       /\ storage w' = storage w
       /\ trace w' = trace w)
    /\ (exists w',
          run env w [Reply request res; Complete request; Complete request;
                     Invoke call_isCached; Complete (nextPromise w)] = Some w'
          /\ outcome (nextPromise w) w' = Some (Resolved (VBool true))
          /\ cache (storage w') templatesOwned = Some (snapshotData (rowsOf res))).
Proof.
  intros env w request user res Hwf Hreq Hcache He.
  assert (request < nextPromise w)%nat as Hlt
    by exact (wellFormed_pending w request _ Hwf Hreq).
  unfold call_isCached, isCached. split.
  - eexists. split; [event; event; rewrite Hcache; reflexivity|].
    machine. promises. repeat split.
  - eexists. split.
    { rewrite (run_cons env w _ _ _
                 (collectionRequest_succeeds env w request templatesOwned user res
                    Hreq He)).
      unfold updatingCache, updateCache.
      event. event. event.
      erewrite run_cons.
      2:{ unfold step, completes. records.
          rewrite lookup_head, discard_head. records. simpl fold_left.
          machine. reflexivity. }
      reflexivity. }
    machine. promises. split; reflexivity.
Qed.

Lemma isCached_follows_owned_templates_fetch_witness :
  (exists w',
     run sampleCollaborators (the fetchingOwnedTemplates)
       [Invoke call_isCached; Complete (nextPromise (the fetchingOwnedTemplates))]
     = Some w'
     /\ outcome (nextPromise (the fetchingOwnedTemplates)) w'
        = Some (Resolved (VBool false))
     /\ storage w' = storage (the fetchingOwnedTemplates)
     /\ trace w' = trace (the fetchingOwnedTemplates))
  /\ (exists w',
        run sampleCollaborators (the fetchingOwnedTemplates)
          [Reply 1%nat noRows; Complete 1%nat; Complete 1%nat;
           Invoke call_isCached; Complete (nextPromise (the fetchingOwnedTemplates))]
        = Some w'
        /\ outcome (nextPromise (the fetchingOwnedTemplates)) w'
           = Some (Resolved (VBool true))
        /\ cache (storage w') templatesOwned = Some (snapshotData (rowsOf noRows))).
Proof.
  apply (isCached_follows_owned_templates_fetch sampleCollaborators
           (the fetchingOwnedTemplates) 1%nat sampleUser noRows).
  - intros p Hp. vm_compute in Hp.
    do 2 (destruct p as [|p]; [lia|]). split; reflexivity.
  - reflexivity.
  - reflexivity.
  - reflexivity.
Defined.

(* ================================================================== *)
(** ** The usage statistics: [updateTemplateStats] *)

Lemma wordCount_positive (plaintext : string) : 1 <= wordCount plaintext.
Proof. rewrite wordCount_spaces. lia. Qed.

(** X24.  Two overlapping updateTemplateStats calls for different
    templates, both of which read the extension data before either
    writes, keep the last write only: the word count grows by the second
    call's count alone, and the first template's last-used time is not
    recorded. When the first call completes before the second starts,
    both counts are added and both times recorded. (getExtensionData and
    setExtensionData read and patch the stored record; the stored count
    is not negative and, with both counts added, at most 2^53 - 1, so
    that the additions of doubles are exact.) *)
Theorem updateTemplateStats_overlapping_calls_keep_last_write :
  forall (env : Collaborators) (w : World) (id1 plaintext1 id2 plaintext2 : string)
         (n : Z),
    words (extensionData (storage w)) = Js.Val (Js.Num n) ->
    0 <= n ->
    n + wordCount plaintext1 + wordCount plaintext2 <= Js.MAX_SAFE_INTEGER ->
    id1 <> id2 ->
    (exists w' lastUsed,
       run env w [Invoke (call_updateTemplateStats id1 plaintext1);
                  Invoke (call_updateTemplateStats id2 plaintext2);
                  Complete (nextPromise w); Complete (S (nextPromise w));
                  Complete (nextPromise w); Complete (S (nextPromise w))] = Some w'
       /\ outcome (nextPromise w) w' = Some (Resolved VUndefined)
       /\ outcome (S (nextPromise w)) w' = Some (Resolved VUndefined)
       /\ words (extensionData (storage w'))
          = Js.Val (Js.Num (n + wordCount plaintext2))
       /\ templatesLastUsed (extensionData (storage w')) = Some lastUsed
       /\ Js.get id2 lastUsed = Some (clock w)
       /\ Js.get id1 lastUsed
          = match templatesLastUsed (extensionData (storage w)) with
            | Some before => Js.get id1 before
            | None => None
            end)
    /\ (exists w' lastUsed,
          run env w [Invoke (call_updateTemplateStats id1 plaintext1);
                     Complete (nextPromise w); Complete (nextPromise w);
                     Invoke (call_updateTemplateStats id2 plaintext2);
                     Complete (S (nextPromise w)); Complete (S (nextPromise w))]
          = Some w'
          /\ words (extensionData (storage w'))
             = Js.Val (Js.Num (n + wordCount plaintext1 + wordCount plaintext2))
          /\ templatesLastUsed (extensionData (storage w')) = Some lastUsed
          /\ Js.get id1 lastUsed = Some (clock w)
          /\ Js.get id2 lastUsed = Some (clock w)).
Proof.
  intros env w id1 plaintext1 id2 plaintext2 n Hwords Hn Hmax Hne.
  assert ((id1 =? id2)%string = false) as Hneb by (apply String.eqb_neq; exact Hne).
  assert ((id2 =? id1)%string = false) as Hneb'
    by (apply String.eqb_neq; intros E; apply Hne; symmetry; exact E).
  pose proof (wordCount_positive plaintext1) as H1.
  pose proof (wordCount_positive plaintext2) as H2.
  assert (Js.isSafeInteger (n + wordCount plaintext1) = true) as Hsafe1
    by (apply Z.leb_le; lia).
  assert (Js.isSafeInteger (n + wordCount plaintext2) = true) as Hsafe2
    by (apply Z.leb_le; lia).
  assert (Js.isSafeInteger (n + wordCount plaintext1 + wordCount plaintext2) = true)
    as Hsafe by (apply Z.leb_le; lia).
  unfold call_updateTemplateStats, updateTemplateStats. split.
  - eexists. eexists. split.
    { event. event. event. event. event. event. reflexivity. }
    split; [machine; promises; reflexivity|].
    split; [machine; promises; reflexivity|].
    split.
    { machine. rewrite Hwords. cbn [Js.ToNumber].
      rewrite JsFacts.add_safe by exact Hsafe2. reflexivity. }
    split; [machine; reflexivity|].
    rewrite !JsFacts.get_set, !String.eqb_refl, ?Hneb, ?Hneb'.
    split; [reflexivity|].
    destruct (templatesLastUsed (extensionData (storage w))); reflexivity.
  - eexists. eexists. split.
    { event. event. event. event. event. event. reflexivity. }
    split.
    { machine. rewrite Hwords. cbn [Js.ToNumber].
      rewrite JsFacts.add_safe by exact Hsafe1. cbn [Js.ToNumber].
      rewrite JsFacts.add_safe by exact Hsafe. reflexivity. }
    split; [machine; reflexivity|].
    rewrite !JsFacts.get_set, !String.eqb_refl, ?Hneb, ?Hneb'.
    split; reflexivity.
Qed.

Lemma updateTemplateStats_overlapping_calls_keep_last_write_witness :
  (exists w' lastUsed,
     run sampleCollaborators (sampleWorld "free")
       [Invoke (call_updateTemplateStats "t1" "one two");
        Invoke (call_updateTemplateStats "t2" "three");
        Complete (nextPromise (sampleWorld "free"));
        Complete (S (nextPromise (sampleWorld "free")));
        Complete (nextPromise (sampleWorld "free"));
        Complete (S (nextPromise (sampleWorld "free")))] = Some w'
     /\ outcome (nextPromise (sampleWorld "free")) w' = Some (Resolved VUndefined)
     /\ outcome (S (nextPromise (sampleWorld "free"))) w' = Some (Resolved VUndefined)
     /\ words (extensionData (storage w')) = Js.Val (Js.Num (5 + wordCount "three"))
     /\ templatesLastUsed (extensionData (storage w')) = Some lastUsed
     /\ Js.get "t2" lastUsed = Some (clock (sampleWorld "free"))
     /\ Js.get "t1" lastUsed
        = match templatesLastUsed (extensionData (storage (sampleWorld "free"))) with
          | Some before => Js.get "t1" before
          | None => None
          end)
  /\ (exists w' lastUsed,
        run sampleCollaborators (sampleWorld "free")
          [Invoke (call_updateTemplateStats "t1" "one two");
           Complete (nextPromise (sampleWorld "free"));
           Complete (nextPromise (sampleWorld "free"));
           Invoke (call_updateTemplateStats "t2" "three");
           Complete (S (nextPromise (sampleWorld "free")));
           Complete (S (nextPromise (sampleWorld "free")))]
        = Some w'
        /\ words (extensionData (storage w'))
           = Js.Val (Js.Num (5 + wordCount "one two" + wordCount "three"))
        /\ templatesLastUsed (extensionData (storage w')) = Some lastUsed
        /\ Js.get "t1" lastUsed = Some (clock (sampleWorld "free"))
        /\ Js.get "t2" lastUsed = Some (clock (sampleWorld "free"))).
Proof.
  apply (updateTemplateStats_overlapping_calls_keep_last_write sampleCollaborators
           (sampleWorld "free") "t1" "one two" "t2" "three" 5).
  - reflexivity.
  - lia.
  - vm_compute. discriminate.
  - discriminate.
Defined.

(** Beyond the safe integers a count is lost: adding one word to a
    count of 2^53 leaves 2^53. *)
Example add_rounds_the_count :
  Js.add (Js.Num 9007199254740992) (Js.Num (wordCount "word"))
  = Js.Num 9007199254740992.
Proof. vm_compute. reflexivity. Qed.

(* ================================================================== *)
(** ** The configuration *)

(** X22.  For every ENV and VERSION the configuration has the same keys
    in the same order; every property other than functionsUrl has its
    default value; functionsUrl is the staging URL exactly when ENV is
    'staging'; in every other environment, production included, the
    configuration equals the defaults. *)
Theorem Config_differs_in_staging_only :
  forall ENV VERSION : string,
    Js.keys (Config.Config ENV VERSION) = Js.keys (Config.defaults VERSION)
    /\ (forall key, key <> "functionsUrl" ->
          Js.get key (Config.Config ENV VERSION)
          = Js.get key (Config.defaults VERSION))
    /\ Js.get "functionsUrl" (Config.Config ENV VERSION)
       = Some (if String.eqb ENV "staging"
               then "https://staging.app.philip.lol"
               else "https://app.philip.lol")
    /\ (ENV <> "staging" -> Config.Config ENV VERSION = Config.defaults VERSION).
Proof.
  intros ENV VERSION. unfold Config.Config.
  destruct (String.eqb ENV "staging") eqn:Es.
  - apply String.eqb_eq in Es. subst ENV. simpl String.eqb.
    split; [reflexivity|]. split; [|split; [reflexivity|]].
    + intros key Hk. unfold Js.assign. simpl fold_left.
      rewrite JsFacts.get_assign1. simpl Js.get at 1.
      apply String.eqb_neq in Hk. rewrite Hk. reflexivity.
    + intros H. contradiction H. reflexivity.
  - destruct (String.eqb ENV "production") eqn:Ep.
    + split; [reflexivity|]. split; [|split; reflexivity].
      intros key Hk. reflexivity.
    + split; [reflexivity|]. split; [|split; reflexivity].
      intros key Hk. reflexivity.
Qed.
